(** * geochatbot-3d-Buildings: chatbot classifier, REST routing and scene geometry

    A shallow embedding of
      - backend/src/services/chatbot.js   (ChatbotService),
      - backend/src/routes/chat.js        (POST /api/chat),
      - backend/src/routes/buildings.js   (the /api/buildings router),
      - frontend Map component            (geoToScene, addBuildings, flyToBuilding,
                                           the two fit-to-view functions, the
                                           screen position, the base map tiles),
      - frontend Chatbot and App          (sendMessage, the highlight state),
    and the properties of the specification checked against them, followed by
    further properties of the same code.

    Modelling conventions
      - A JavaScript string is a [string] of 8-bit code units; only the ASCII
        letters have a case, every other unit is its own lower case.
      - The five regular expressions of chatbot.js are values of [regex] run by a
        backtracking matcher that enumerates the matches in priority order.
      - [pool.query] is a function from the SQL text and the bound parameters to
        rows or to a thrown error; a handler runs in the [Db] monad, which logs
        the issued statements and propagates or catches thrown errors.
      - Scene coordinates are rationals ([Q]); the camera placement, which uses
        [Math.cos] and [Math.sin], is stated over the reals.  Where the
        rounding of the doubles can decide an outcome, it is either an
        abstract rounding function ([lon2tile]) or kept away from by the
        statement (the steps of the height scale). *)

From Stdlib Require Import String Ascii List Bool Arith NArith ZArith Lia.
From Stdlib Require Import QArith Qabs Qminmax Qround DecimalString.
From Stdlib Require Import Reals Psatz.
Import ListNotations.

(* ================================================================== *)
(** * JavaScript strings and regular expressions *)
(* ================================================================== *)

Module Js.

Local Open Scope string_scope.
Local Open Scope list_scope.
Local Open Scope nat_scope.

(** ** String.prototype.toLowerCase and String.prototype.includes *)

Definition isUpper (c : ascii) : bool :=
  (65 <=? nat_of_ascii c) && (nat_of_ascii c <=? 90).

Definition lowerChar (c : ascii) : ascii :=
  if isUpper c then ascii_of_nat (nat_of_ascii c + 32) else c.

Fixpoint toLowerCase (s : string) : string :=
  match s with
  | EmptyString => EmptyString
  | String c t => String (lowerChar c) (toLowerCase t)
  end.

(** [includes s sub]: [sub] occurs in [s] as a contiguous substring. *)
Fixpoint includes (s sub : string) : bool :=
  if String.prefix sub s then true
  else match s with
       | EmptyString => false
       | String _ t => includes t sub
       end.

(** ** Regular expressions (all of them carry the [i] flag) *)

Inductive regex : Type :=
| REps                         (* the empty pattern *)
| RChar (c : ascii)            (* a literal character *)
| RDigit                       (* \d *)
| RSpace                       (* \s *)
| RSeq (r1 r2 : regex)         (* r1 r2 *)
| RAlt (r1 r2 : regex)         (* r1|r2, left alternative first *)
| RStar (r : regex)            (* r*, greedy *)
| ROpt (r : regex)             (* r?, greedy *)
| RGroup (i : nat) (r : regex) (* capturing group number i *).

Definition RPlus (r : regex) : regex := RSeq r (RStar r).

(** A run of literal characters. *)
Fixpoint RLit (s : string) : regex :=
  match s with
  | EmptyString => REps
  | String c t => RSeq (RChar c) (RLit t)
  end.

Definition isDigit (c : ascii) : bool :=
  (48 <=? nat_of_ascii c) && (nat_of_ascii c <=? 57).

(** WhiteSpace and LineTerminator units below 128: TAB, LF, VT, FF, CR, SP. *)
Definition isSpace (c : ascii) : bool :=
  ((9 <=? nat_of_ascii c) && (nat_of_ascii c <=? 13)) || (nat_of_ascii c =? 32).

(** Canonicalize of the [i] flag: compare the upper-case forms. *)
Definition isLower (c : ascii) : bool :=
  (97 <=? nat_of_ascii c) && (nat_of_ascii c <=? 122).

Definition canonicalize (c : ascii) : ascii :=
  if isLower c then ascii_of_nat (nat_of_ascii c - 32) else c.

(** Captures: the most recent binding of a group number comes first. *)
Definition captures : Type := list (nat * string).

Fixpoint capture (i : nat) (caps : captures) : option string :=
  match caps with
  | [] => None
  | (j, v) :: rest => if Nat.eqb i j then Some v else capture i rest
  end.

(** The text consumed between the input [s] and the remaining input [rest]. *)
Definition consumed (s rest : string) : string :=
  String.substring 0 (String.length s - String.length rest) s.

Definition mstate : Type := (captures * string)%type.

(** Greedy iteration of [step]; an iteration that consumes nothing is rejected
    (the empty check of RepeatMatcher).  [n] bounds the number of iterations
    and is the length of the input, which every iteration shortens. *)
Fixpoint star (step : captures -> string -> list mstate) (n : nat)
         (caps : captures) (s : string) : list mstate :=
  match n with
  | O => [(caps, s)]
  | S n' =>
      flat_map (fun st : mstate =>
                  if String.length (snd st) <? String.length s
                  then star step n' (fst st) (snd st) else [])
               (step caps s)
      ++ [(caps, s)]
  end.

(** [run r caps s]: every way [r] matches a prefix of [s], in the order the
    backtracking matcher tries them, each with its captures and the rest.
    No pattern of the service has a group under a quantifier, so the reset of
    captures at each iteration does not arise. *)
Fixpoint run (r : regex) (caps : captures) (s : string) {struct r} : list mstate :=
  match r with
  | REps => [(caps, s)]
  | RChar c =>
      match s with
      | String x t =>
          if Ascii.eqb (canonicalize x) (canonicalize c) then [(caps, t)] else []
      | EmptyString => []
      end
  | RDigit =>
      match s with
      | String x t => if isDigit x then [(caps, t)] else []
      | EmptyString => []
      end
  | RSpace =>
      match s with
      | String x t => if isSpace x then [(caps, t)] else []
      | EmptyString => []
      end
  | RSeq r1 r2 =>
      flat_map (fun st : mstate => run r2 (fst st) (snd st)) (run r1 caps s)
  | RAlt r1 r2 => run r1 caps s ++ run r2 caps s
  | RStar r1 => star (run r1) (String.length s) caps s
  | ROpt r1 => run r1 caps s ++ [(caps, s)]
  | RGroup i r1 =>
      map (fun st : mstate => ((i, consumed s (snd st)) :: fst st, snd st))
          (run r1 caps s)
  end.

(** [exec r s]: String.prototype.match with a non-global regex: the first
    match at the leftmost start position, or [None] (null). *)
Fixpoint exec (r : regex) (s : string) : option captures :=
  match run r [] s with
  | st :: _ => Some (fst st)
  | [] =>
      match s with
      | EmptyString => None
      | String _ t => exec r t
      end
  end.

(** ** parseInt and parseFloat on the text of a [(\d+)] capture *)

Definition digitValue (c : ascii) : N := N.of_nat (nat_of_ascii c - 48).

Fixpoint parseDigits (acc : N) (s : string) : N :=
  match s with
  | String c t => if isDigit c then parseDigits (10 * acc + digitValue c) t else acc
  | EmptyString => acc
  end.

(** The value of the leading run of decimal digits.  Both functions are only
    applied to captured digit runs, where this is the number they denote. *)
Definition parseInt (s : string) : N := parseDigits 0 s.
Definition parseFloat (s : string) : N := parseDigits 0 s.

(** ** Notions used to state properties of the matcher *)

(** The captures and the matcher state of a lower-cased input. *)
Definition lowerCaps (caps : captures) : captures :=
  map (fun b : nat * string => (fst b, toLowerCase (snd b))) caps.

Definition lowerState (st : mstate) : mstate :=
  (lowerCaps (fst st), toLowerCase (snd st)).

Fixpoint allDigits (s : string) : bool :=
  match s with
  | EmptyString => true
  | String c t => isDigit c && allDigits t
  end.

(** Every captured text is a run of digits. *)
Definition digitCaps (caps : captures) : Prop :=
  forall b, In b caps -> allDigits (snd b) = true.

(** [r] has no group and consumes digits only. *)
Fixpoint digitsOnly (r : regex) : bool :=
  match r with
  | REps | RDigit => true
  | RChar _ | RSpace | RGroup _ _ => false
  | RSeq r1 r2 | RAlt r1 r2 => digitsOnly r1 && digitsOnly r2
  | RStar r1 | ROpt r1 => digitsOnly r1
  end.

(** Every group of [r] consumes digits only. *)
Fixpoint digitGroups (r : regex) : bool :=
  match r with
  | REps | RChar _ | RDigit | RSpace => true
  | RSeq r1 r2 | RAlt r1 r2 => digitGroups r1 && digitGroups r2
  | RStar r1 | ROpt r1 => digitGroups r1
  | RGroup _ r1 => digitsOnly r1
  end.

(** The rest of a match is a suffix of the input. *)
Definition suffixStep (a b : mstate) : Prop := exists d, snd a = (d ++ snd b)%string.

(** A group-free pattern of digits consumes digits and leaves the captures. *)
Definition digitStep (a b : mstate) : Prop :=
  fst b = fst a /\ exists d, snd a = (d ++ snd b)%string /\ allDigits d = true.

(** Digit groups capture digits. *)
Definition keepsDigitCaps (a b : mstate) : Prop := digitCaps (fst a) -> digitCaps (fst b).

(** Two matcher states with the same remaining input. *)
Definition sameRest (a b : mstate) : Prop := snd a = snd b.

End Js.


(* ================================================================== *)
(** * backend/src/services/chatbot.js *)
(* ================================================================== *)

Module Chatbot.

Import Js.
Local Open Scope Q_scope.
Local Open Scope string_scope.

(** ** Data *)

(** A JavaScript number that comes from an integer. *)
Definition num (n : N) : Q := inject_Z (Z.of_N n).

(** A row of a query result, with the columns the service reads; a statement
    that does not select a column leaves it unused. *)
Record Row : Type := mkRow {
  id : Z;
  name : string;
  height : Q;
  building_type : string;
  address : string;
  geometry : string;
  count : Q;
  avg_height : Q;
  max_height : Q;
  min_height : Q;
  count_by_type : Q;
  total : Q
}.

(** A value bound to a [$n] placeholder. *)
Inductive Param : Type :=
| PNum (q : Q)
| PText (s : string)
| PArray (l : list string).

Inductive ResponseType : Type := text | building_highlight | search_results.

Record ChatResponse : Type := mkResponse {
  type : ResponseType;
  content : string;
  building : option Row;
  buildings : option (list Row)
}.

(** ** The database monad *)

(** [pool.query(sql, params)] resolves to rows or rejects ([None]). *)
Definition Pool : Type := string -> list Param -> option (list Row).

Definition Call : Type := (string * list Param)%type.

Inductive outcome (A : Type) : Type :=
| Returned (a : A)
| Thrown.
Arguments Returned {A} a.
Arguments Thrown {A}.

(** A computation reads the pool, logs the statements it issues, and returns
    or throws. *)
Definition Db (A : Type) : Type := Pool -> outcome A * list Call.

Definition ret {A : Type} (a : A) : Db A := fun _ => (Returned a, nil).

Definition throw {A : Type} : Db A := fun _ => (Thrown, nil).

Definition bind {A B : Type} (m : Db A) (k : A -> Db B) : Db B :=
  fun pool =>
    match m pool with
    | (Returned a, log) =>
        let (o, log') := k a pool in (o, (log ++ log')%list)
    | (Thrown, log) => (Thrown, log)
    end.

Definition query (sql : string) (params : list Param) : Db (list Row) :=
  fun pool =>
    (match pool sql params with
     | Some rows => Returned rows
     | None => Thrown
     end, [(sql, params)]).

(** [try { body } catch (error) { handler }]. *)
Definition tryCatch {A : Type} (body handler : Db A) : Db A :=
  fun pool =>
    match body pool with
    | (Returned a, log) => (Returned a, log)
    | (Thrown, log) =>
        let (o, log') := handler pool in (o, (log ++ log')%list)
    end.

Notation "x <- m ;; k" := (bind m (fun x => k))
  (at level 61, m at next level, right associativity).

(** ** Helpers *)

Definition nl : string := String (ascii_of_nat 10) EmptyString.
Definition dq : string := String (ascii_of_nat 34) EmptyString.

(** Decimal rendering of a placeholder index. *)
Definition placeholder (paramCount : nat) : string :=
  "$" ++ NilEmpty.string_of_uint (Nat.to_uint paramCount).

Definition textResponse (c : string) : ChatResponse :=
  {| type := text; content := c; building := None; buildings := None |}.

(** [rows.forEach((row, index) => content += line(index, row))]. *)
Fixpoint forEachFrom {A : Type} (index : nat) (line : nat -> A -> string)
         (rows : list A) : string :=
  match rows with
  | [] => ""
  | row :: rest => line index row ++ forEachFrom (S index) line rest
  end.

Definition forEach {A : Type} (line : nat -> A -> string) (rows : list A) : string :=
  forEachFrom 0 line rows.

(** [array.join(', ')]. *)
Fixpoint join (sep : string) (l : list string) : string :=
  match l with
  | [] => ""
  | [x] => x
  | x :: rest => x ++ sep ++ join sep rest
  end.

(** [match[i]] of a successful match. *)
Definition group (i : nat) (caps : captures) : string :=
  match capture i caps with
  | Some v => v
  | None => ""
  end.

Definition sumQ (l : list Q) : Q := fold_left Qplus l 0%Q.

(** ** The regular expressions *)

(** [\s*(?:meters?|m)] *)
Definition unitRe : regex :=
  RSeq (RStar RSpace)
       (RAlt (RSeq (RLit "meter") (ROpt (RChar "s"))) (RChar "m")).

(** [/top\s+(\d+)/i] *)
Definition topRe : regex :=
  RSeq (RLit "top") (RSeq (RPlus RSpace) (RGroup 1 (RPlus RDigit))).

(** [/(\d+)\s*(?:meters?|m)/i] *)
Definition singleHeightRe : regex :=
  RSeq (RGroup 1 (RPlus RDigit)) unitRe.

(** [/(\d+)\s*(?:to|-)\s*(\d+)\s*(?:meters?|m)/i] *)
Definition heightRangeRe : regex :=
  RSeq (RGroup 1 (RPlus RDigit))
       (RSeq (RStar RSpace)
             (RSeq (RAlt (RLit "to") (RChar "-"))
                   (RSeq (RStar RSpace)
                         (RSeq (RGroup 2 (RPlus RDigit)) unitRe)))).

(** [/over\s+(\d+)\s*(?:meters?|m)/i] *)
Definition overHeightRe : regex :=
  RSeq (RLit "over") (RSeq (RPlus RSpace) singleHeightRe).

(** [/under\s+(\d+)\s*(?:meters?|m)/i] *)
Definition underHeightRe : regex :=
  RSeq (RLit "under") (RSeq (RPlus RSpace) singleHeightRe).

Definition buildingNames : list string :=
  ["empire state"; "world trade"; "chrysler"; "bank of america"; "new york times"].

Definition buildingTypes : list string :=
  ["office"; "residential"; "commercial"; "hotel"; "apartment"; "retail"; "industrial"].

Definition addressKeywords : list string :=
  ["street"; "avenue"; "ave"; "st"; "road"; "rd"; "boulevard"; "blvd"].

(** [names.map(n => `%${n}%`)] *)
Definition likePatterns (l : list string) : list string :=
  map (fun n => "%" ++ n ++ "%") l.

(** [numberMatch ? parseInt(numberMatch[1]) : 5] of the top-N branch. *)
Definition topLimit (lowerMessage : string) : Q :=
  let numberMatch := exec topRe lowerMessage in
  match numberMatch with
  | Some m => num (parseInt (group 1 m))
  | None => 5
  end.

(** ** The intent handlers *)

Section Handlers.

(** Number::toString and Number.prototype.toFixed(1) are not modelled. *)
Variable numToString : Q -> string.
Variable toFixed1 : Q -> string.

Definition getTallestBuilding : Db ChatResponse :=
  tryCatch
    (result <- query "SELECT id, name, height, building_type, address, ST_AsGeoJSON(geometry) as geometry FROM buildings ORDER BY height DESC LIMIT 1" [] ;;
     match result with
     | b :: _ =>
         ret {| type := building_highlight;
                content := "🏗️ **Tallest Building**: " ++ name b ++ nl ++ nl
                  ++ "📏 **Height**: " ++ numToString (height b) ++ " meters" ++ nl
                  ++ "🏢 **Type**: " ++ building_type b ++ nl
                  ++ "📍 **Address**: " ++ address b ++ nl ++ nl
                  ++ "This is the tallest building in our database!";
                building := Some b;
                buildings := None |}
     | [] => ret (textResponse "No building data available in the database.")
     end)
    (ret (textResponse "Sorry, I encountered an error while searching for the tallest building.")).

Definition getShortestBuilding : Db ChatResponse :=
  tryCatch
    (result <- query "SELECT id, name, height, building_type, address, ST_AsGeoJSON(geometry) as geometry FROM buildings ORDER BY height ASC LIMIT 1" [] ;;
     match result with
     | b :: _ =>
         ret {| type := building_highlight;
                content := "🏗️ **Shortest Building**: " ++ name b ++ nl ++ nl
                  ++ "📏 **Height**: " ++ numToString (height b) ++ " meters" ++ nl
                  ++ "🏢 **Type**: " ++ building_type b ++ nl
                  ++ "📍 **Address**: " ++ address b ++ nl ++ nl
                  ++ "This is the shortest building in our database!";
                building := Some b;
                buildings := None |}
     | [] => ret (textResponse "No building data available in the database.")
     end)
    (ret (textResponse "Sorry, I encountered an error while searching for the shortest building.")).

Definition getTopBuildings (limit : Q) : Db ChatResponse :=
  tryCatch
    (result <- query "SELECT id, name, height, building_type, address, ST_AsGeoJSON(geometry) as geometry FROM buildings ORDER BY height DESC LIMIT $1" [PNum limit] ;;
     match result with
     | _ :: _ =>
         ret {| type := search_results;
                content := "🏆 **Top " ++ numToString limit ++ " Tallest Buildings**:" ++ nl ++ nl
                  ++ forEach (fun index b =>
                       numToString (num (N.of_nat (index + 1))) ++ ". **" ++ name b ++ "** - "
                       ++ numToString (height b) ++ "m (" ++ building_type b ++ ")" ++ nl)
                     result;
                building := None;
                buildings := Some result |}
     | [] => ret (textResponse "No building data available in the database.")
     end)
    (ret (textResponse "Sorry, I encountered an error while retrieving the top buildings.")).

Definition compareBuildings (message : string) : Db ChatResponse :=
  tryCatch
    (let foundBuildings :=
       filter (fun n => includes (toLowerCase message) n) buildingNames in
     if (List.length foundBuildings <? 2)%nat then
       ret (textResponse ("Please specify two buildings to compare. Try: " ++ dq
              ++ "Compare Empire State Building vs One World Trade Center" ++ dq))
     else
       result <- query "SELECT id, name, height, building_type, address, ST_AsGeoJSON(geometry) as geometry FROM buildings WHERE LOWER(name) LIKE ANY($1) ORDER BY height DESC" [PArray (likePatterns foundBuildings)] ;;
       match result with
       | building1 :: building2 :: _ =>
           let heightDiff := Qabs (height building1 - height building2) in
           ret {| type := search_results;
                  content := "🏗️ **Building Comparison**:" ++ nl ++ nl
                    ++ "**" ++ name building1 ++ "**" ++ nl
                    ++ "📏 Height: " ++ numToString (height building1) ++ "m" ++ nl
                    ++ "🏢 Type: " ++ building_type building1 ++ nl ++ nl
                    ++ "**" ++ name building2 ++ "**" ++ nl
                    ++ "📏 Height: " ++ numToString (height building2) ++ "m" ++ nl
                    ++ "🏢 Type: " ++ building_type building2 ++ nl ++ nl
                    ++ "📊 **Difference**: " ++ toFixed1 heightDiff ++ "m" ++ nl
                    ++ "🏆 **Taller**: "
                    ++ (if Qle_bool (height building1) (height building2)
                        then name building2 else name building1);
                  building := None;
                  buildings := Some result |}
       | _ => ret (textResponse "Could not find the specified buildings for comparison.")
       end)
    (ret (textResponse "Sorry, I encountered an error while comparing buildings.")).

Definition getHeightRangeAnalysis (message : string) : Db ChatResponse :=
  tryCatch
    (let heightMatch := exec heightRangeRe message in
     let minHeight :=
       match heightMatch with
       | Some m => num (parseFloat (group 1 m))
       | None => 100
       end in
     let maxHeight :=
       match heightMatch with
       | Some m => num (parseFloat (group 2 m))
       | None => 500
       end in
     result <- query "SELECT id, name, height, building_type, address, ST_AsGeoJSON(geometry) as geometry FROM buildings WHERE height BETWEEN $1 AND $2 ORDER BY height DESC" [PNum minHeight; PNum maxHeight] ;;
     match result with
     | _ :: _ =>
         let avgHeight :=
           (sumQ (map height result) / num (N.of_nat (List.length result)))%Q in
         ret {| type := search_results;
                content := "📊 **Height Range Analysis** (" ++ numToString minHeight ++ "-"
                    ++ numToString maxHeight ++ "m):" ++ nl ++ nl
                  ++ "🏢 **Total Buildings**: "
                    ++ numToString (num (N.of_nat (List.length result))) ++ nl
                  ++ "📏 **Average Height**: " ++ toFixed1 avgHeight ++ "m" ++ nl ++ nl
                  ++ "**Buildings in this range**:" ++ nl
                  ++ forEach (fun index b =>
                       numToString (num (N.of_nat (index + 1))) ++ ". " ++ name b ++ " - "
                       ++ numToString (height b) ++ "m" ++ nl)
                     (firstn 5 result)
                  ++ (if (5 <? List.length result)%nat
                      then "... and " ++ numToString (num (N.of_nat (List.length result - 5)))
                           ++ " more buildings"
                      else "");
                building := None;
                buildings := Some result |}
     | [] =>
         ret (textResponse ("No buildings found in the height range of "
                ++ numToString minHeight ++ "-" ++ numToString maxHeight ++ " meters."))
     end)
    (ret (textResponse "Sorry, I encountered an error while analyzing height ranges.")).

Definition getBuildingTypeAnalysis : Db ChatResponse :=
  tryCatch
    (result <- query "
        SELECT 
          building_type,
          COUNT(*) as count,
          AVG(height) as avg_height,
          MAX(height) as max_height,
          MIN(height) as min_height
        FROM buildings 
        GROUP BY building_type
        ORDER BY count DESC
      " [] ;;
     match result with
     | _ :: _ =>
         let totalBuildings := sumQ (map count result) in
         ret (textResponse
                ("📊 **Building Type Distribution**:" ++ nl ++ nl
                 ++ "🏗️ **Total Buildings**: " ++ numToString totalBuildings ++ nl ++ nl
                 ++ forEach (fun _ stat =>
                      let percentage := toFixed1 ((count stat / totalBuildings) * 100)%Q in
                      "🏢 **" ++ building_type stat ++ "**: " ++ numToString (count stat)
                      ++ " buildings (" ++ percentage ++ "%)" ++ nl
                      ++ "   📏 Avg: " ++ toFixed1 (avg_height stat) ++ "m | Max: "
                      ++ numToString (max_height stat) ++ "m | Min: "
                      ++ numToString (min_height stat) ++ "m" ++ nl ++ nl)
                    result))
     | [] => ret (textResponse "No building data available for type analysis.")
     end)
    (ret (textResponse "Sorry, I encountered an error while analyzing building types.")).

(** The statement under construction in [searchBuildings]: the text of
    [query], the array [params] and the counter [paramCount]. *)
Definition builder : Type := (string * list Param * nat)%type.

(** [paramCount++; params.push(v); query += pre + "$" + paramCount + post]. *)
Definition addClause (st : builder) (v : Param) (pre post : string) : builder :=
  let '(q, params, paramCount) := st in
  (q ++ pre ++ placeholder (S paramCount) ++ post, (params ++ [v])%list, S paramCount).

(** The statement after the building-type clause. *)
Definition typeFilter (message : string) : builder :=
  let foundTypes := filter (fun t => includes (toLowerCase message) t) buildingTypes in
  let st0 : builder :=
    ("SELECT id, name, height, building_type, address, ST_AsGeoJSON(geometry) as geometry FROM buildings WHERE 1=1", [], 0%nat) in
  if (0 <? List.length foundTypes)%nat
  then addClause st0 (PArray (likePatterns foundTypes)) " AND building_type ILIKE ANY(" ")"
  else st0.

(** The [if (heightMatch) ... else if (singleHeightMatch) ... else if
    (overHeightMatch) ... else if (underHeightMatch) ...] chain. *)
Definition heightFilter (st : builder) (message : string) : builder :=
  let heightMatch := exec heightRangeRe message in
  let singleHeightMatch := exec singleHeightRe message in
  let overHeightMatch := exec overHeightRe message in
  let underHeightMatch := exec underHeightRe message in
  match heightMatch with
  | Some m =>
      addClause
        (addClause st (PNum (num (parseFloat (group 1 m)))) " AND height >= " "")
        (PNum (num (parseFloat (group 2 m)))) " AND height <= " ""
  | None =>
      match singleHeightMatch with
      | Some m => addClause st (PNum (num (parseFloat (group 1 m)))) " AND height >= " ""
      | None =>
          match overHeightMatch with
          | Some m => addClause st (PNum (num (parseFloat (group 1 m)))) " AND height > " ""
          | None =>
              match underHeightMatch with
              | Some m =>
                  addClause st (PNum (num (parseFloat (group 1 m)))) " AND height < " ""
              | None => st
              end
          end
      end
  end.

(** [query += ' ORDER BY height DESC LIMIT 10'], and the call arguments. *)
Definition finish (st : builder) : string * list Param :=
  let '(q, params, _) := st in
  (q ++ " ORDER BY height DESC LIMIT 10", params).

(** The statement and the parameters [searchBuildings] passes to [pool.query]. *)
Definition searchQuery (message : string) : string * list Param :=
  finish (heightFilter (typeFilter message) message).

Definition searchBuildings (message : string) : Db ChatResponse :=
  tryCatch
    (let foundTypes := filter (fun t => includes (toLowerCase message) t) buildingTypes in
     let heightMatch := exec heightRangeRe message in
     let overHeightMatch := exec overHeightRe message in
     let underHeightMatch := exec underHeightRe message in
     result <- query (fst (searchQuery message)) (snd (searchQuery message)) ;;
     match result with
     | _ :: _ =>
         ret {| type := search_results;
                content := "🔍 **Search Results**: Found "
                    ++ numToString (num (N.of_nat (List.length result))) ++ " buildings"
                  ++ (if (0 <? List.length foundTypes)%nat
                      then " of type: " ++ join ", " foundTypes else "")
                  ++ match heightMatch with
                     | Some m => " between " ++ group 1 m ++ "-" ++ group 2 m ++ "m"
                     | None => ""
                     end
                  ++ match overHeightMatch with
                     | Some m => " over " ++ group 1 m ++ "m"
                     | None => ""
                     end
                  ++ match underHeightMatch with
                     | Some m => " under " ++ group 1 m ++ "m"
                     | None => ""
                     end
                  ++ nl ++ nl
                  ++ forEach (fun index b =>
                       numToString (num (N.of_nat (index + 1))) ++ ". **" ++ name b ++ "** - "
                       ++ numToString (height b) ++ "m (" ++ building_type b ++ ")" ++ nl)
                     result;
                building := None;
                buildings := Some result |}
     | [] =>
         ret (textResponse "No buildings found matching your search criteria. Try different keywords or height ranges.")
     end)
    (ret (textResponse "Sorry, I encountered an error while searching for buildings.")).

Definition getBuildingStatistics : Db ChatResponse :=
  tryCatch
    (result <- query "
        SELECT 
          COUNT(*) as total_buildings,
          AVG(height) as avg_height,
          MAX(height) as max_height,
          MIN(height) as min_height,
          building_type,
          COUNT(*) as count_by_type
        FROM buildings 
        GROUP BY building_type
        ORDER BY count_by_type DESC
      " [] ;;
     match result with
     | first :: _ =>
         let stats := result in
         let totalBuildings := sumQ (map count_by_type stats) in
         let avgHeight :=
           (sumQ (map (fun stat => avg_height stat * count_by_type stat) stats)
            / totalBuildings)%Q in
         ret (textResponse
                ("📊 **Building Statistics**:" ++ nl ++ nl
                 ++ "🏗️ **Total Buildings**: " ++ numToString totalBuildings ++ nl
                 ++ "📏 **Average Height**: " ++ toFixed1 avgHeight ++ " meters" ++ nl
                 ++ "🏆 **Tallest Building**: " ++ numToString (max_height first) ++ " meters" ++ nl
                 ++ "📉 **Shortest Building**: " ++ numToString (min_height first) ++ " meters"
                 ++ nl ++ nl
                 ++ "**Buildings by Type**:" ++ nl
                 ++ forEach (fun _ stat =>
                      let percentage :=
                        toFixed1 ((count_by_type stat / totalBuildings) * 100)%Q in
                      "• " ++ building_type stat ++ ": " ++ numToString (count_by_type stat)
                      ++ " buildings (" ++ percentage ++ "%) - avg: "
                      ++ toFixed1 (avg_height stat) ++ "m" ++ nl)
                    stats))
     | [] => ret (textResponse "No building data available for statistics.")
     end)
    (ret (textResponse "Sorry, I encountered an error while retrieving building statistics.")).

Definition getSpecificBuilding (message : string) : Db ChatResponse :=
  tryCatch
    (match find (fun n => includes (toLowerCase message) n) buildingNames with
     | None =>
         ret (textResponse ("Please specify a building name. Try: " ++ dq
                ++ "Tell me about Empire State Building" ++ dq))
     | Some foundName =>
         result <- query "SELECT id, name, height, building_type, address, ST_AsGeoJSON(geometry) as geometry FROM buildings WHERE LOWER(name) LIKE $1" [PText ("%" ++ foundName ++ "%")] ;;
         match result with
         | b :: _ =>
             ret {| type := building_highlight;
                    content := "🏗️ **" ++ name b ++ "**" ++ nl ++ nl
                      ++ "📏 **Height**: " ++ numToString (height b) ++ " meters" ++ nl
                      ++ "🏢 **Type**: " ++ building_type b ++ nl
                      ++ "📍 **Address**: " ++ address b ++ nl ++ nl
                      ++ "This iconic building is one of New York City's most recognizable landmarks!";
                    building := Some b;
                    buildings := None |}
         | [] => ret (textResponse ("Could not find information about " ++ foundName ++ "."))
         end
     end)
    (ret (textResponse "Sorry, I encountered an error while searching for the building.")).

Definition searchByAddress (message : string) : Db ChatResponse :=
  tryCatch
    (let foundKeywords :=
       filter (fun k => includes (toLowerCase message) k) addressKeywords in
     if (List.length foundKeywords =? 0)%nat then
       ret (textResponse ("Please specify an address or street name. Try: " ++ dq
              ++ "Find buildings on 5th Avenue" ++ dq))
     else
       result <- query "SELECT id, name, height, building_type, address, ST_AsGeoJSON(geometry) as geometry FROM buildings WHERE LOWER(address) LIKE ANY($1) ORDER BY height DESC" [PArray (likePatterns foundKeywords)] ;;
       match result with
       | _ :: _ =>
           ret {| type := search_results;
                  content := "📍 **Buildings by Address**: Found "
                      ++ numToString (num (N.of_nat (List.length result))) ++ " buildings"
                      ++ nl ++ nl
                    ++ forEach (fun index b =>
                         numToString (num (N.of_nat (index + 1))) ++ ". **" ++ name b ++ "**" ++ nl
                         ++ "   📏 Height: " ++ numToString (height b) ++ "m" ++ nl
                         ++ "   🏢 Type: " ++ building_type b ++ nl
                         ++ "   📍 Address: " ++ address b ++ nl ++ nl)
                       result;
                  building := None;
                  buildings := Some result |}
       | [] => ret (textResponse "No buildings found at the specified address or street.")
       end)
    (ret (textResponse "Sorry, I encountered an error while searching by address.")).

Definition getBuildingCount (message : string) : Db ChatResponse :=
  tryCatch
    (let foundTypes := filter (fun t => includes (toLowerCase message) t) buildingTypes in
     if (List.length foundTypes =? 0)%nat then
       result <- query "SELECT COUNT(*) as total FROM buildings" [] ;;
       match result with
       | first :: _ =>
           ret (textResponse ("🏗️ **Total Buildings**: " ++ numToString (total first)
                  ++ " buildings in the database."))
       | [] => throw (* result.rows[0] is undefined: reading .total throws *)
       end
     else
       result <- query "SELECT building_type, COUNT(*) as count FROM buildings WHERE building_type ILIKE ANY($1) GROUP BY building_type" [PArray (likePatterns foundTypes)] ;;
       match result with
       | _ :: _ =>
           ret (textResponse
                  ("🔢 **Building Count**:" ++ nl ++ nl
                   ++ forEach (fun _ stat =>
                        "🏢 **" ++ building_type stat ++ "**: " ++ numToString (count stat)
                        ++ " buildings" ++ nl)
                      result))
       | [] =>
           ret (textResponse ("No " ++ join ", " foundTypes
                  ++ " buildings found in the database."))
       end)
    (ret (textResponse "Sorry, I encountered an error while counting buildings.")).

Definition getNearbyBuildings (message : string) : Db ChatResponse :=
  ret (textResponse "📍 To find buildings near a specific location, please provide the latitude and longitude coordinates, or use the map interface to select a location. You can also try searching by address or street name.").

Definition helpResponse : ChatResponse :=
  textResponse ("I can help you analyze building data! Try asking about:" ++ nl ++ nl
    ++ "• Tallest/shortest buildings" ++ nl
    ++ "• Top 5 tallest buildings" ++ nl
    ++ "• Building comparisons" ++ nl
    ++ "• Height ranges and skyscrapers" ++ nl
    ++ "• Building type distribution" ++ nl
    ++ "• Search by type or height" ++ nl
    ++ "• Building statistics" ++ nl
    ++ "• Specific buildings by name" ++ nl
    ++ "• Buildings by address" ++ nl
    ++ "• How many buildings of a certain type").

Definition processQuery (message : string) : Db ChatResponse :=
  let lowerMessage := toLowerCase message in
  if includes lowerMessage "tallest" || includes lowerMessage "highest"
     || includes lowerMessage "maximum height" then
    getTallestBuilding
  else if includes lowerMessage "shortest" || includes lowerMessage "lowest"
          || includes lowerMessage "minimum height" then
    getShortestBuilding
  else if includes lowerMessage "top"
          && (includes lowerMessage "buildings" || includes lowerMessage "tallest") then
    let limit := topLimit lowerMessage in
    getTopBuildings limit
  else if includes lowerMessage "compare" || includes lowerMessage "difference"
          || includes lowerMessage "vs" || includes lowerMessage "versus" then
    compareBuildings message
  else if includes lowerMessage "height range" || includes lowerMessage "between"
          || includes lowerMessage "tall buildings" || includes lowerMessage "skyscrapers" then
    getHeightRangeAnalysis message
  else if includes lowerMessage "type"
          && (includes lowerMessage "distribution" || includes lowerMessage "breakdown"
              || includes lowerMessage "category") then
    getBuildingTypeAnalysis
  else if includes lowerMessage "search" || includes lowerMessage "find"
          || includes lowerMessage "show" || includes lowerMessage "list" then
    searchBuildings message
  else if includes lowerMessage "statistics" || includes lowerMessage "stats"
          || includes lowerMessage "summary" || includes lowerMessage "overview" then
    getBuildingStatistics
  else if includes lowerMessage "near" || includes lowerMessage "around"
          || includes lowerMessage "within" || includes lowerMessage "distance" then
    getNearbyBuildings message
  else if includes lowerMessage "empire state" || includes lowerMessage "world trade"
          || includes lowerMessage "chrysler" then
    getSpecificBuilding message
  else if includes lowerMessage "address" || includes lowerMessage "location"
          || includes lowerMessage "street" then
    searchByAddress message
  else if includes lowerMessage "how many" || includes lowerMessage "count"
          || includes lowerMessage "total number" then
    getBuildingCount message
  else
    ret helpResponse.

End Handlers.

(** ** Notions used to state properties of the service *)

(** A generic apology: a text response that carries no building. *)
Definition isApology (r : ChatResponse) : Prop :=
  type r = text
  /\ String.prefix "Sorry, I encountered an error while " (content r) = true
  /\ building r = None
  /\ buildings r = None.

End Chatbot.

(* ================================================================== *)
(** * The decision list of the specification (section 4.3) *)
(* ================================================================== *)

(** This module follows the words of the specification, not the source: the
    table of intents in priority order, each with its trigger, and the rule
    that the first intent whose trigger matches is taken.  It is compared
    with [Chatbot.processQuery] below. *)
Module DecisionList.

Import Js.
Local Open Scope string_scope.

Inductive Intent : Type :=
| Tallest | Shortest | TopN | Compare | HeightRange | TypeDistribution
| Search | Statistics | Nearby | SpecificBuilding | AddressSearch | Count
| Help.

(** The priority order of the table; [Help] is the fallback and has no row. *)
Definition priority : list Intent :=
  [Tallest; Shortest; TopN; Compare; HeightRange; TypeDistribution;
   Search; Statistics; Nearby; SpecificBuilding; AddressSearch; Count].

Definition anyOf (lower : string) (subs : list string) : bool :=
  existsb (includes lower) subs.

(** The trigger column, on the lower-cased message. *)
Definition trigger (i : Intent) (lower : string) : bool :=
  match i with
  | Tallest => anyOf lower ["tallest"; "highest"; "maximum height"]
  | Shortest => anyOf lower ["shortest"; "lowest"; "minimum height"]
  | TopN => includes lower "top" && anyOf lower ["buildings"; "tallest"]
  | Compare => anyOf lower ["compare"; "difference"; "vs"; "versus"]
  | HeightRange => anyOf lower ["height range"; "between"; "tall buildings"; "skyscrapers"]
  | TypeDistribution =>
      includes lower "type" && anyOf lower ["distribution"; "breakdown"; "category"]
  | Search => anyOf lower ["search"; "find"; "show"; "list"]
  | Statistics => anyOf lower ["statistics"; "stats"; "summary"; "overview"]
  | Nearby => anyOf lower ["near"; "around"; "within"; "distance"]
  | SpecificBuilding => anyOf lower ["empire state"; "world trade"; "chrysler"]
  | AddressSearch => anyOf lower ["address"; "location"; "street"]
  | Count => anyOf lower ["how many"; "count"; "total number"]
  | Help => true
  end.

(** First match wins. *)
Definition classify (lower : string) : Intent :=
  match find (fun i => trigger i lower) priority with
  | Some i => i
  | None => Help
  end.

(** [i] is the first intent of the priority order whose trigger matches
    [lower], or the fallback when none does. *)
Definition firstMatch (lower : string) (i : Intent) : Prop :=
  (exists pre post,
      priority = (pre ++ i :: post)%list
      /\ trigger i lower = true
      /\ forall j, In j pre -> trigger j lower = false)
  \/ (i = Help /\ forall j, In j priority -> trigger j lower = false).

Section Handlers.

Variable numToString : Q -> string.
Variable toFixed1 : Q -> string.

(** The handler column: what runs for an intent, on the message. *)
Definition handlerOf (i : Intent) (message : string) : Chatbot.Db Chatbot.ChatResponse :=
  match i with
  | Tallest => Chatbot.getTallestBuilding numToString
  | Shortest => Chatbot.getShortestBuilding numToString
  | TopN => Chatbot.getTopBuildings numToString (Chatbot.topLimit (toLowerCase message))
  | Compare => Chatbot.compareBuildings numToString toFixed1 message
  | HeightRange => Chatbot.getHeightRangeAnalysis numToString toFixed1 message
  | TypeDistribution => Chatbot.getBuildingTypeAnalysis numToString toFixed1
  | Search => Chatbot.searchBuildings numToString message
  | Statistics => Chatbot.getBuildingStatistics numToString toFixed1
  | Nearby => Chatbot.getNearbyBuildings message
  | SpecificBuilding => Chatbot.getSpecificBuilding numToString message
  | AddressSearch => Chatbot.searchByAddress numToString message
  | Count => Chatbot.getBuildingCount numToString message
  | Help => Chatbot.ret Chatbot.helpResponse
  end.

End Handlers.

End DecisionList.

(* ================================================================== *)
(** * backend/src/routes/chat.js and backend/src/routes/buildings.js *)
(* ================================================================== *)

Module Routes.

Import Js Chatbot.
Local Open Scope Q_scope.
Local Open Scope string_scope.

(** The value of a JSON body property; [JUndefined] when it is absent. *)
Inductive JsValue : Type :=
| JUndefined
| JNull
| JBoolean (b : bool)
| JNumber (q : Q)
| JString (s : string)
| JArray
| JObject.

(** ToBoolean. *)
Definition truthy (v : JsValue) : bool :=
  match v with
  | JUndefined | JNull => false
  | JBoolean b => b
  | JNumber q => negb (Qeq_bool q 0)
  | JString s => negb (String.eqb s "")
  | JArray | JObject => true
  end.

(** [typeof v === 'string']. *)
Definition isString (v : JsValue) : bool :=
  match v with
  | JString _ => true
  | _ => false
  end.

Inductive HttpBody : Type :=
| ErrorJson (error : string)                (* { error } *)
| FailureJson (error message : string)      (* { error, message } *)
| DbErrorJson                               (* { error: err.message } *)
| ChatJson (response : ChatResponse)
| RowJson (row : Row)
| RowsJson (rows : list Row).

Record HttpResponse : Type := mkHttp {
  status : nat;
  body : HttpBody
}.

Section Chat.

Variable numToString : Q -> string.
Variable toFixed1 : Q -> string.

(** [router.post('/')] of chat.js, on the [message] property of the body. *)
Definition postChat (message : JsValue) (pool : Pool) : HttpResponse * list Call :=
  if negb (truthy message) || negb (isString message) then
    ({| status := 400; body := ErrorJson "Message is required and must be a string" |}, [])
  else
    let failure :=
      {| status := 500;
         body := FailureJson "Failed to process message"
                             "An error occurred while processing your request." |} in
    match message with
    | JString s =>
        match processQuery numToString toFixed1 s pool with
        | (Returned response, log) => ({| status := 200; body := ChatJson response |}, log)
        | (Thrown, log) => (failure, log)
        end
    | _ => (failure, []) (* message.toLowerCase is not a function *)
    end.

End Chat.

(** ** The buildings router *)

Inductive Handler : Type :=
| GetAll | GetTallest | GetSearch | GetNearby | GetStatistics
| GetById | GetRandom | GetByType.

Inductive Segment : Type :=
| Lit (s : string)      (* a fixed path segment *)
| Par (name : string)   (* a named parameter, :name *).

(** The [router.get] calls of buildings.js, in the order they are made. *)
Definition routes : list (list Segment * Handler) :=
  [ ([], GetAll);
    ([Lit "tallest"], GetTallest);
    ([Lit "search"], GetSearch);
    ([Lit "nearby"], GetNearby);
    ([Lit "statistics"], GetStatistics);
    ([Par "id"], GetById);
    ([Lit "random"], GetRandom);
    ([Lit "type"; Par "buildingType"], GetByType) ].

(** The request path below the mount point is the list of its segments: the
    path /type/office is ["type"; "office"], the path / is the empty list, and
    a trailing slash leaves an empty last segment (/tallest/ is
    ["tallest"; ""]).  A segment without a percent sign is one that
    decodeURIComponent leaves as it is. *)
Definition plain (seg : string) : bool := negb (includes seg "%").

(** A pattern against the segments of a path, without a trailing slash;
    fixed segments are compared without case (the router's default), a
    parameter takes any non-empty segment. *)
Fixpoint matchSegments (pattern : list Segment) (path : list string)
  : option (list (string * string)) :=
  match pattern, path with
  | [], [] => Some []
  | Lit s :: pattern', seg :: path' =>
      if String.eqb (toLowerCase s) (toLowerCase seg) then matchSegments pattern' path'
      else None
  | Par n :: pattern', seg :: path' =>
      if String.eqb seg "" then None
      else match matchSegments pattern' path' with
           | Some ps => Some ((n, seg) :: ps)
           | None => None
           end
  | _, _ => None
  end.

(** The path without its trailing slash, when it has one. *)
Fixpoint stripSlash (path : list string) : option (list string) :=
  match path with
  | [] => None
  | seg :: rest =>
      match rest with
      | [] => if String.eqb seg "" then Some [] else None
      | _ => option_map (cons seg) (stripSlash rest)
      end
  end.

(** The regular expression of a route: routing is not strict, so the
    pattern may be followed by one slash. *)
Definition matchPath (pattern : list Segment) (path : list string)
  : option (list (string * string)) :=
  match matchSegments pattern path with
  | Some ps => Some ps
  | None =>
      match stripSlash path with
      | Some path' => matchSegments pattern path'
      | None => None
      end
  end.

(** The path a route sees when a trailing slash is left out. *)
Definition normalize (path : list string) : list string :=
  match stripSlash path with
  | Some path' => path'
  | None => path
  end.

(** The first registered route that matches handles the request, and none of
    the handlers passes control on. *)
Fixpoint dispatch (rs : list (list Segment * Handler)) (path : list string)
  : option (Handler * list (string * string)) :=
  match rs with
  | [] => None
  | (pattern, h) :: rest =>
      match matchPath pattern path with
      | Some ps => Some (h, ps)
      | None => dispatch rest path
      end
  end.

Fixpoint param (n : string) (ps : list (string * string)) : string :=
  match ps with
  | [] => ""
  | (k, v) :: rest => if String.eqb n k then v else param n rest
  end.

(** [router.get('/:id')]. *)
Definition getById (id : string) (pool : Pool) : HttpResponse * list Call :=
  let sql := "SELECT id, name, height, building_type, address, ST_AsGeoJSON(geometry) as geometry FROM buildings WHERE id = $1" in
  match pool sql [PText id] with
  | Some [] =>
      ({| status := 404; body := ErrorJson "Building not found" |}, [(sql, [PText id])])
  | Some (row :: _) => ({| status := 200; body := RowJson row |}, [(sql, [PText id])])
  | None => ({| status := 500; body := DbErrorJson |}, [(sql, [PText id])])
  end.

(** [router.get('/random')]; [limit] is [parseInt] of the query parameter. *)
Definition getRandom (limit : option Q) (pool : Pool) : HttpResponse * list Call :=
  let sql := "SELECT id, name, height, building_type, address, ST_AsGeoJSON(geometry) as geometry FROM buildings ORDER BY RANDOM() LIMIT $1" in
  let n := match limit with Some q => q | None => 250 end in
  match pool sql [PNum n] with
  | Some rows => ({| status := 200; body := RowsJson rows |}, [(sql, [PNum n])])
  | None => ({| status := 500; body := DbErrorJson |}, [(sql, [PNum n])])
  end.

End Routes.

(* ================================================================== *)
(** * The Map component: projection, footprint and height scaling *)
(* ================================================================== *)

Module Geo.

Local Open Scope Q_scope.

Record Bounds : Type := mkBounds {
  minLng : Q;
  maxLng : Q;
  minLat : Q;
  maxLat : Q
}.

(** Geographic bounds (Makkah city area). *)
Definition bounds : Bounds :=
  {| minLng := 39.6; maxLng := 40.0; minLat := 21.2; maxLat := 21.6 |}.

Record ScenePoint : Type := mkPoint {
  x : Q;
  z : Q
}.

Definition geoToScene (lng lat : Q) : ScenePoint :=
  {| x := ((lng - minLng bounds) / (maxLng bounds - minLng bounds)) * 1000 - 500;
     z := ((lat - minLat bounds) / (maxLat bounds - minLat bounds)) * 1000 - 500 |}.

(** A polygon ring: [coord[0]] is the longitude, [coord[1]] the latitude. *)
Definition Ring : Type := list (Q * Q).

(** [coords.reduce((sum, coord) => sum + coord[i], 0)]. *)
Definition sumCoord (f : Q * Q -> Q) (coords : Ring) : Q :=
  fold_left (fun sum coord => sum + f coord) coords 0.

Definition count (coords : Ring) : Q := inject_Z (Z.of_nat (List.length coords)).

Definition centerLng (coords : Ring) : Q := sumCoord fst coords / count coords.
Definition centerLat (coords : Ring) : Q := sumCoord snd coords / count coords.

(** The position the extruded mesh is placed at. *)
Definition centerPos (coords : Ring) : ScenePoint :=
  geoToScene (centerLng coords) (centerLat coords).

(** The recentred ring: [pointPos - centerPos] for every vertex. *)
Definition relPoints (coords : Ring) : list ScenePoint :=
  map (fun coord =>
         let pointPos := geoToScene (fst coord) (snd coord) in
         {| x := x pointPos - x (centerPos coords);
            z := z pointPos - z (centerPos coords) |})
      coords.

(** [Math.min(acc, v)] and [Math.max(acc, v)] where the accumulator starts at
    [Infinity] or [-Infinity], written [None]. *)
Definition minAcc (acc : option Q) (v : Q) : option Q :=
  match acc with
  | None => Some v
  | Some a => Some (Qmin a v)
  end.

Definition maxAcc (acc : option Q) (v : Q) : option Q :=
  match acc with
  | None => Some v
  | Some a => Some (Qmax a v)
  end.

(** [Math.max(maxX - minX, maxZ - minZ)] over the recentred ring; defined for
    a ring with at least one vertex. *)
Definition footprintSize (coords : Ring) : option Q :=
  let rel := relPoints coords in
  let minX := fold_left minAcc (map x rel) None in
  let maxX := fold_left maxAcc (map x rel) None in
  let minZ := fold_left minAcc (map z rel) None in
  let maxZ := fold_left maxAcc (map z rel) None in
  match minX, maxX, minZ, maxZ with
  | Some minX, Some maxX, Some minZ, Some maxZ =>
      let footprintWidth := maxX - minX in
      let footprintDepth := maxZ - minZ in
      Some (Qmax footprintWidth footprintDepth)
  | _, _, _, _ => None
  end.

Definition heightScale (footprintSize : Q) : Q :=
  if Qlt_le_dec footprintSize 5 then 0.3
  else if Qlt_le_dec footprintSize 15 then 0.5
  else if Qlt_le_dec footprintSize 30 then 0.7
  else 1.0.

(** [building.height] as the component receives it. *)
Inductive HeightField : Type :=
| HString (parsed : Q)   (* a string, with the value parseFloat reads *)
| HNumber (h : Q).

(** [typeof h === 'string' ? parseFloat(h) : h || 20]. *)
Definition buildingHeight (h : HeightField) : Q :=
  match h with
  | HString parsed => parsed
  | HNumber h => if Qeq_bool h 0 then 20 else h
  end.

(** The height the building record gives, before any default: what the
    specification calls the real height. *)
Definition realHeight (h : HeightField) : Q :=
  match h with
  | HString parsed => parsed
  | HNumber h => h
  end.

(** The [depth] of the extrusion. *)
Definition scaledHeight (buildingHeight footprintSize : Q) : Q :=
  buildingHeight * heightScale footprintSize.

(** The [depth] of the extrusion of a building, from its height and ring. *)
Definition extrudeDepth (h : HeightField) (coords : Ring) : option Q :=
  match footprintSize coords with
  | Some size => Some (scaledHeight (buildingHeight h) size)
  | None => None
  end.




(** The centroid of a list of scene points (the mean of the vertices). *)
Definition centroid (pts : list ScenePoint) : ScenePoint :=
  let n := inject_Z (Z.of_nat (List.length pts)) in
  {| x := fold_left Qplus (map x pts) 0 / n;
     z := fold_left Qplus (map z pts) 0 / n |}.

Definition projectRing (coords : Ring) : list ScenePoint :=
  map (fun coord => geoToScene (fst coord) (snd coord)) coords.

End Geo.

(* ================================================================== *)
(** * The Map component: flyToBuilding *)
(* ================================================================== *)

Module Camera.

Local Open Scope R_scope.

Record Vector3 : Type := mkVector3 {
  x : R;
  y : R;
  z : R
}.

(** [Math.max(Math.max(footprintSize, scaledHeight) * 2.5, 30)]. *)
Definition distance (footprintSize scaledHeight : R) : R :=
  let buildingSize := Rmax footprintSize scaledHeight in
  Rmax (buildingSize * 2.5) 30.

Definition angle : R := PI / 4.

(** The vector copied into [camera.position]. *)
Definition cameraPosition (centerX centerZ footprintSize scaledHeight : R) : Vector3 :=
  let distance := distance footprintSize scaledHeight in
  {| x := centerX - distance * cos angle;
     y := scaledHeight + distance * sin angle;
     z := centerZ + distance * sin angle |}.

(** The point given to [controls.target.set]. *)
Definition controlsTarget (centerX centerZ scaledHeight : R) : Vector3 :=
  {| x := centerX; y := scaledHeight / 2; z := centerZ |}.

(** Euclidean distance, and the distance between the ground projections. *)
Definition dist (p q : Vector3) : R :=
  sqrt ((x p - x q) * (x p - x q) + (y p - y q) * (y p - y q) + (z p - z q) * (z p - z q)).

Definition horizontalDist (p q : Vector3) : R :=
  sqrt ((x p - x q) * (x p - x q) + (z p - z q) * (z p - z q)).

End Camera.

(* ================================================================== *)
(** * Notions used to state further properties of the chat service *)
(* ================================================================== *)

Module ChatbotShape.

Import Js Chatbot.
Local Open Scope string_scope.

(** The payload a response type carries. *)
Definition wellShaped (r : ChatResponse) : Prop :=
  match type r with
  | text => building r = None /\ buildings r = None
  | building_highlight => (exists b, building r = Some b) /\ buildings r = None
  | search_results => building r = None /\ exists b l, buildings r = Some (b :: l)
  end.

(** The rows a response carries. *)
Definition payload (r : ChatResponse) : list Row :=
  match building r, buildings r with
  | Some b, _ => [b]
  | None, Some l => l
  | None, None => []
  end.

(** The number of [$] characters of a statement. *)
Fixpoint placeholders (sql : string) : nat :=
  match sql with
  | EmptyString => 0
  | String c t => (if Ascii.eqb c "$" then 1 else 0) + placeholders t
  end.

Fixpoint hasDigit (s : string) : bool :=
  match s with
  | EmptyString => false
  | String c t => isDigit c || hasDigit t
  end.

(** Every match of [r] consumes a digit. *)
Fixpoint needsDigit (r : regex) : bool :=
  match r with
  | RDigit => true
  | REps | RChar _ | RSpace | RStar _ | ROpt _ => false
  | RSeq r1 r2 => needsDigit r1 || needsDigit r2
  | RAlt r1 r2 => needsDigit r1 && needsDigit r2
  | RGroup _ r1 => needsDigit r1
  end.

(** The statements of the service: every text [pool.query] can receive. *)
Definition knownStatements : list string :=
  [ "SELECT id, name, height, building_type, address, ST_AsGeoJSON(geometry) as geometry FROM buildings ORDER BY height DESC LIMIT 1";
    "SELECT id, name, height, building_type, address, ST_AsGeoJSON(geometry) as geometry FROM buildings ORDER BY height ASC LIMIT 1";
    "SELECT id, name, height, building_type, address, ST_AsGeoJSON(geometry) as geometry FROM buildings ORDER BY height DESC LIMIT $1";
    "SELECT id, name, height, building_type, address, ST_AsGeoJSON(geometry) as geometry FROM buildings WHERE LOWER(name) LIKE ANY($1) ORDER BY height DESC";
    "SELECT id, name, height, building_type, address, ST_AsGeoJSON(geometry) as geometry FROM buildings WHERE height BETWEEN $1 AND $2 ORDER BY height DESC";
    "
        SELECT 
          building_type,
          COUNT(*) as count,
          AVG(height) as avg_height,
          MAX(height) as max_height,
          MIN(height) as min_height
        FROM buildings 
        GROUP BY building_type
        ORDER BY count DESC
      ";
    "SELECT id, name, height, building_type, address, ST_AsGeoJSON(geometry) as geometry FROM buildings WHERE 1=1 ORDER BY height DESC LIMIT 10";
    "SELECT id, name, height, building_type, address, ST_AsGeoJSON(geometry) as geometry FROM buildings WHERE 1=1 AND height >= $1 ORDER BY height DESC LIMIT 10";
    "SELECT id, name, height, building_type, address, ST_AsGeoJSON(geometry) as geometry FROM buildings WHERE 1=1 AND height >= $1 AND height <= $2 ORDER BY height DESC LIMIT 10";
    "SELECT id, name, height, building_type, address, ST_AsGeoJSON(geometry) as geometry FROM buildings WHERE 1=1 AND building_type ILIKE ANY($1) ORDER BY height DESC LIMIT 10";
    "SELECT id, name, height, building_type, address, ST_AsGeoJSON(geometry) as geometry FROM buildings WHERE 1=1 AND building_type ILIKE ANY($1) AND height >= $2 ORDER BY height DESC LIMIT 10";
    "SELECT id, name, height, building_type, address, ST_AsGeoJSON(geometry) as geometry FROM buildings WHERE 1=1 AND building_type ILIKE ANY($1) AND height >= $2 AND height <= $3 ORDER BY height DESC LIMIT 10";
    "
        SELECT 
          COUNT(*) as total_buildings,
          AVG(height) as avg_height,
          MAX(height) as max_height,
          MIN(height) as min_height,
          building_type,
          COUNT(*) as count_by_type
        FROM buildings 
        GROUP BY building_type
        ORDER BY count_by_type DESC
      ";
    "SELECT id, name, height, building_type, address, ST_AsGeoJSON(geometry) as geometry FROM buildings WHERE LOWER(name) LIKE $1";
    "SELECT id, name, height, building_type, address, ST_AsGeoJSON(geometry) as geometry FROM buildings WHERE LOWER(address) LIKE ANY($1) ORDER BY height DESC";
    "SELECT COUNT(*) as total FROM buildings";
    "SELECT building_type, COUNT(*) as count FROM buildings WHERE building_type ILIKE ANY($1) GROUP BY building_type" ].

Definition digitTaken (a b : mstate) : Prop :=
  exists d, snd a = (d ++ snd b)%string /\ hasDigit d = true.

End ChatbotShape.

(* ================================================================== *)
(** * backend/src/routes/buildings.js: the handlers *)
(* ================================================================== *)

Module Buildings.

Import Js.
Local Open Scope Q_scope.
Local Open Scope string_scope.

(** [req.query]: a parameter is absent or a string. *)
Record Query : Type := mkQuery {
  type : option string;
  minHeight : option string;
  maxHeight : option string;
  limit : option string;
  lat : option string;
  lng : option string;
  radius : option string
}.

Inductive Json : Type :=
| JRows (rows : list Chatbot.Row)   (* res.json(result.rows) *)
| JRow (row : Chatbot.Row)          (* res.json(result.rows[0]) *)
| JNull                             (* res.json(null) *)
| JError (error : string)           (* { error } *)
| JDbError                          (* { error: err.message } *).

Record Reply : Type := mkReply {
  status : nat;
  body : Json
}.

(** [if (v)] on a query parameter: present and not the empty string. *)
Definition given (v : option string) : bool :=
  match v with
  | Some (String _ _) => true
  | _ => false
  end.

Definition valueOf (v : option string) : string :=
  match v with
  | Some s => s
  | None => ""
  end.

(** A handler that issues one statement and answers with [ok rows], or with
    500 and the message of the error when the statement is rejected. *)
Definition answer (sql : string) (params : list Chatbot.Param)
           (ok : list Chatbot.Row -> Reply) (pool : Chatbot.Pool)
  : Reply * list Chatbot.Call :=
  match pool sql params with
  | Some rows => (ok rows, [(sql, params)])
  | None => ({| status := 500; body := JDbError |}, [(sql, params)])
  end.

Definition rowsReply (rows : list Chatbot.Row) : Reply :=
  {| status := 200; body := JRows rows |}.

Section Handlers.

(** parseFloat and parseInt of a query parameter are not modelled:
    [parseFloat v] and [parseInt v] are the numbers bound for the parameter
    [v] (absent or a string), and [parseIntText v] is the text
    [${parseInt(v)}] puts into a statement. *)
Variable parseFloat : option string -> Q.
Variable parseInt : option string -> Q.
Variable parseIntText : option string -> string.

(** [router.get('/')]. *)
Definition getAll : Chatbot.Pool -> Reply * list Chatbot.Call :=
  answer "SELECT id, name, height, building_type, address, ST_AsGeoJSON(geometry) as geometry FROM buildings ORDER BY height DESC LIMIT 1000" [] rowsReply.

(** [router.get('/tallest')]: [result.rows[0] || null]. *)
Definition getTallest : Chatbot.Pool -> Reply * list Chatbot.Call :=
  answer "SELECT id, name, height, building_type, address, ST_AsGeoJSON(geometry) as geometry FROM buildings ORDER BY height DESC LIMIT 1" []
         (fun rows =>
            match rows with
            | row :: _ => {| status := 200; body := JRow row |}
            | [] => {| status := 200; body := JNull |}
            end).

(** The statement of [router.get('/search')] before the ORDER BY clause:
    one clause and one parameter for each filter that is given. *)
Definition searchFilter (q : Query) : Chatbot.builder :=
  let st0 : Chatbot.builder :=
    ("SELECT id, name, height, building_type, address, ST_AsGeoJSON(geometry) as geometry FROM buildings WHERE 1=1", [], 0%nat) in
  let st1 :=
    if given (type q)
    then Chatbot.addClause st0 (Chatbot.PText (valueOf (type q))) " AND building_type ILIKE " ""
    else st0 in
  let st2 :=
    if given (minHeight q)
    then Chatbot.addClause st1 (Chatbot.PNum (parseFloat (minHeight q))) " AND height >= " ""
    else st1 in
  if given (maxHeight q)
  then Chatbot.addClause st2 (Chatbot.PNum (parseFloat (maxHeight q))) " AND height <= " ""
  else st2.

(** [limit = 50] when the parameter is absent. *)
Definition searchLimitText (q : Query) : string :=
  match limit q with
  | None => "50"
  | Some s => parseIntText (Some s)
  end.

(** [router.get('/search')]. *)
Definition getSearch (q : Query) : Chatbot.Pool -> Reply * list Chatbot.Call :=
  let '(text, params, _) := searchFilter q in
  answer (text ++ " ORDER BY height DESC LIMIT " ++ searchLimitText q) params rowsReply.

(** [router.get('/nearby')]: [radius = 1000] when the parameter is absent. *)
Definition getNearby (q : Query) : Chatbot.Pool -> Reply * list Chatbot.Call :=
  let r := match radius q with
           | None => 1000
           | Some s => parseFloat (Some s)
           end in
  answer "SELECT id, name, height, building_type, address, 
              ST_AsGeoJSON(geometry) as geometry,
              ST_Distance(geometry::geography, ST_SetSRID(ST_MakePoint($1, $2), 4326)::geography) as distance
       FROM buildings 
       WHERE ST_DWithin(
         geometry::geography, 
         ST_SetSRID(ST_MakePoint($1, $2), 4326)::geography, 
         $3
       )
       ORDER BY distance ASC"
         [Chatbot.PNum (parseFloat (lng q)); Chatbot.PNum (parseFloat (lat q)); Chatbot.PNum r]
         rowsReply.

(** [router.get('/statistics')]. *)
Definition getStatistics : Chatbot.Pool -> Reply * list Chatbot.Call :=
  answer "
      SELECT 
        COUNT(*) as total_buildings,
        AVG(height) as avg_height,
        MAX(height) as max_height,
        MIN(height) as min_height,
        building_type,
        COUNT(*) as count_by_type
      FROM buildings 
      GROUP BY building_type
      ORDER BY count_by_type DESC
    " [] rowsReply.

(** [router.get('/type/:buildingType')]: [limit = 100] when absent. *)
Definition getByType (buildingType : string) (q : Query)
  : Chatbot.Pool -> Reply * list Chatbot.Call :=
  let n := match limit q with
           | None => 100
           | Some s => parseInt (Some s)
           end in
  answer "SELECT id, name, height, building_type, address, ST_AsGeoJSON(geometry) as geometry FROM buildings WHERE building_type ILIKE $1 ORDER BY height DESC LIMIT $2"
         [Chatbot.PText ("%" ++ buildingType ++ "%"); Chatbot.PNum n]
         rowsReply.

(** The replies of the two handlers modelled with the router. *)
Definition ofHttp (r : Routes.HttpResponse * list Chatbot.Call)
  : Reply * list Chatbot.Call :=
  ({| status := Routes.status (fst r);
      body := match Routes.body (fst r) with
              | Routes.RowsJson rows => JRows rows
              | Routes.RowJson row => JRow row
              | Routes.ErrorJson e => JError e
              | Routes.FailureJson e _ => JError e
              | Routes.DbErrorJson => JDbError
              | Routes.ChatJson _ => JNull
              end |},
   snd r).

(** What a handler does with the path parameters and the query string. *)
Definition handle (h : Routes.Handler) (ps : list (string * string)) (q : Query)
  : Chatbot.Pool -> Reply * list Chatbot.Call :=
  match h with
  | Routes.GetAll => getAll
  | Routes.GetTallest => getTallest
  | Routes.GetSearch => getSearch q
  | Routes.GetNearby => getNearby q
  | Routes.GetStatistics => getStatistics
  | Routes.GetById => fun pool => ofHttp (Routes.getById (Routes.param "id" ps) pool)
  | Routes.GetRandom =>
      fun pool =>
        ofHttp (Routes.getRandom
                  (match limit q with
                   | None => None
                   | Some s => Some (parseInt (Some s))
                   end) pool)
  | Routes.GetByType => getByType (Routes.param "buildingType" ps) q
  end.

(** A GET request below the mount point: the first matching route handles
    it; [None] when no route of this router matches. *)
Definition serve (path : list string) (q : Query) (pool : Chatbot.Pool)
  : option (Reply * list Chatbot.Call) :=
  match Routes.dispatch Routes.routes path with
  | Some (h, ps) => Some (handle h ps q pool)
  | None => None
  end.

End Handlers.

(** What a handler answers once its statement has been sent and the store
    has returned rows or rejected it. *)
Definition replyOf (h : Routes.Handler) (result : option (list Chatbot.Row)) : Reply :=
  match result with
  | None => {| status := 500; body := JDbError |}
  | Some rows =>
      match h, rows with
      | Routes.GetById, [] => {| status := 404; body := JError "Building not found" |}
      | Routes.GetById, row :: _ => {| status := 200; body := JRow row |}
      | Routes.GetTallest, [] => {| status := 200; body := JNull |}
      | Routes.GetTallest, row :: _ => {| status := 200; body := JRow row |}
      | _, _ => {| status := 200; body := JRows rows |}
      end
  end.

End Buildings.

(* ================================================================== *)
(** * frontend: the Chatbot component, the App state and the Map props *)
(* ================================================================== *)

Module ChatUi.

Import Js.
Local Open Scope string_scope.

(** ** String.prototype.trim *)

(** The white space [trim] removes, among the code units below 256:
    TAB, LF, VT, FF, CR, SP and the no-break space. *)
Definition isWhiteSpace (c : ascii) : bool :=
  isSpace c || (nat_of_ascii c =? 160)%nat.

Fixpoint trimStart (s : string) : string :=
  match s with
  | EmptyString => EmptyString
  | String c t => if isWhiteSpace c then trimStart t else s
  end.

Fixpoint trimEnd (s : string) : string :=
  match s with
  | EmptyString => EmptyString
  | String c t =>
      match trimEnd t with
      | EmptyString => if isWhiteSpace c then EmptyString else String c EmptyString
      | t' => String c t'
      end
  end.

Definition trim (s : string) : string := trimEnd (trimStart s).

(** A text made of TAB, LF, VT, FF, CR and SP only. *)
Fixpoint blank (s : string) : bool :=
  match s with
  | EmptyString => true
  | String c t => isSpace c && blank t
  end.

(** A visible ASCII character, from ! to ~: no white space in any encoding
    of the text. *)
Definition visible (c : ascii) : bool :=
  (33 <=? nat_of_ascii c)%nat && (nat_of_ascii c <=? 126)%nat.

Fixpoint hasVisible (s : string) : bool :=
  match s with
  | EmptyString => false
  | String c t => visible c || hasVisible t
  end.

(** ** Messages and the state of the component *)

Inductive Sender : Type := user | bot.

Record Message : Type := mkMessage {
  id : nat;
  text : string;
  sender : Sender;
  type : option Chatbot.ResponseType;
  buildings : option (list Chatbot.Row)
}.

Record State : Type := mkState {
  messages : list Message;
  inputValue : string;
  isLoading : bool
}.

(** The calls of [onBuildingHighlight] and [onMultiBuildingHighlight]. *)
Inductive Highlight : Type :=
| HighlightOne (building : Chatbot.Row)
| HighlightMany (buildings : list Chatbot.Row).

(** What [fetch] resolves to, or its rejection. *)
Inductive Fetch : Type :=
| Response (r : Routes.HttpResponse)
| NetworkError.

(** [response.ok]: a status from 200 to 299. *)
Definition ok (r : Routes.HttpResponse) : bool :=
  (200 <=? Routes.status r)%nat && (Routes.status r <=? 299)%nat.

(** [data.content || data.response || 'No response received']; only a chat
    response has a [content], and no body has a [response]. *)
Definition botText (data : Routes.HttpBody) : string :=
  match data with
  | Routes.ChatJson r =>
      if String.eqb (Chatbot.content r) "" then "No response received"
      else Chatbot.content r
  | _ => "No response received"
  end.

(** [data.type || 'text']. *)
Definition botType (data : Routes.HttpBody) : Chatbot.ResponseType :=
  match data with
  | Routes.ChatJson r => Chatbot.type r
  | _ => Chatbot.text
  end.

(** [data.building ? [data.building] : data.buildings || []]. *)
Definition botBuildings (data : Routes.HttpBody) : list Chatbot.Row :=
  match data with
  | Routes.ChatJson r =>
      match Chatbot.building r with
      | Some b => [b]
      | None =>
          match Chatbot.buildings r with
          | Some l => l
          | None => []
          end
      end
  | _ => []
  end.

(** The highlighting after a bot message; [multi] tells whether the
    [onMultiBuildingHighlight] property is given. *)
Definition highlights (multi : bool) (buildings : list Chatbot.Row) : list Highlight :=
  match buildings with
  | [] => []
  | [b] => [HighlightOne b]
  | _ => if multi then [HighlightMany buildings] else []
  end.

Definition errorMessage (now : nat) : Message :=
  {| id := now + 1;
     text := "Sorry, I'm having trouble processing your request. Please try again.";
     sender := bot;
     type := None;
     buildings := None |}.

(** [sendMessage]: [now] and [later] are the two readings of [Date.now()],
    [post] is the exchange with POST /api/chat for a message text. *)
Definition sendMessage (now later : nat) (multi : bool) (post : string -> Fetch)
           (st : State) : State * list Highlight :=
  if String.eqb (trim (inputValue st)) "" || isLoading st then (st, [])
  else
    let userMessage :=
      {| id := now; text := inputValue st; sender := user;
         type := None; buildings := None |} in
    let sent := (messages st ++ [userMessage])%list in
    let failed :=
      ({| messages := (sent ++ [errorMessage later])%list;
          inputValue := ""; isLoading := false |}, []) in
    match post (inputValue st) with
    | Response response =>
        if ok response then
          let data := Routes.body response in
          let botMessage :=
            {| id := later + 1;
               text := botText data;
               sender := bot;
               type := Some (botType data);
               buildings := Some (botBuildings data) |} in
          ({| messages := (sent ++ [botMessage])%list;
              inputValue := ""; isLoading := false |},
           highlights multi (botBuildings data))
        else failed
    | NetworkError => failed
    end.

(** The exchange with the chat endpoint of the backend over a store. *)
Definition backend (numToString toFixed1 : Q -> string) (pool : Chatbot.Pool)
           (message : string) : Fetch :=
  Response (fst (Routes.postChat numToString toFixed1 (Routes.JString message) pool)).

(** ** App: the highlight state and the props it gives to Map *)

Record AppState : Type := mkApp {
  highlightedBuilding : option Chatbot.Row;
  highlightedBuildings : list Chatbot.Row
}.

(** [useState(undefined)] and [useState([])]. *)
Definition initial : AppState :=
  {| highlightedBuilding := None; highlightedBuildings := [] |}.

Definition handleBuildingHighlight (building : Chatbot.Row) : AppState :=
  {| highlightedBuilding := Some building; highlightedBuildings := [] |}.

Definition handleMultiBuildingHighlight (buildings : list Chatbot.Row) : AppState :=
  {| highlightedBuilding := None; highlightedBuildings := buildings |}.

Definition apply (st : AppState) (h : Highlight) : AppState :=
  match h with
  | HighlightOne b => handleBuildingHighlight b
  | HighlightMany l => handleMultiBuildingHighlight l
  end.

(** The props of Map that concern highlighting; an absent array is [None]. *)
Record MapProps : Type := mkProps {
  propBuilding : option Chatbot.Row;
  propBuildings : option (list Chatbot.Row)
}.

(** App always passes its array. *)
Definition mapProps (st : AppState) : MapProps :=
  {| propBuilding := highlightedBuilding st;
     propBuildings := Some (highlightedBuildings st) |}.

(** The framing [updateBuildings] schedules. *)
Inductive Framing : Type :=
| FitHighlighted
| FlyTo (building : Chatbot.Row)
| FitAll.

Definition updateBuildings (p : MapProps) : Framing :=
  match propBuildings p with
  | Some (_ :: _) => FitHighlighted
  | _ =>
      match propBuilding p with
      | Some b => FlyTo b
      | None => FitAll
      end
  end.

(** [isHighlighted] of [addBuildings]. *)
Definition isHighlighted (p : MapProps) (building : Chatbot.Row) : bool :=
  match propBuilding p with
  | Some b => Z.eqb (Chatbot.id b) (Chatbot.id building)
  | None => false
  end
  || match propBuildings p with
     | Some l => existsb (fun b => Z.eqb (Chatbot.id b) (Chatbot.id building)) l
     | None => false
     end.

(** The condition of the anchored info card in [render]:
    [highlightedBuilding && !highlightedBuildings]; an array is truthy. *)
Definition showInfoCard (p : MapProps) : bool :=
  match propBuilding p, propBuildings p with
  | Some _, None => true
  | _, _ => false
  end.

End ChatUi.

(* ================================================================== *)
(** * The Map component: fitting the view, the screen and the tiles *)
(* ================================================================== *)

Module MapView.

Local Open Scope Q_scope.

Record Vector3 : Type := mkVector3 {
  x : Q;
  y : Q;
  z : Q
}.

(** A camera placement: [camera.position] and [controls.target]. *)
Record View : Type := mkView {
  position : Vector3;
  target : Vector3
}.

(** The running bounding box of [fitBuildingsToView]: [minX], [maxX], [minZ]
    and [maxZ] start at plus or minus [Infinity] ([None]), [maxY] at 0. *)
Record Box : Type := mkBox {
  minX : option Q;
  maxX : option Q;
  minZ : option Q;
  maxZ : option Q;
  maxY : Q
}.

Definition emptyBox : Box :=
  {| minX := None; maxX := None; minZ := None; maxZ := None; maxY := 0 |}.

Section Fit.

(** Reading [building.geometry] (JSON.parse, the test for a Polygon with
    coordinates) and [building.height] is not modelled: [polygonOf] gives the
    outer ring, or [None] for a building the component skips. *)
Variable polygonOf : Chatbot.Row -> option Geo.Ring.
Variable heightOf : Chatbot.Row -> Geo.HeightField.

(** The body of the [forEach] of [fitBuildingsToView]. *)
Definition extend (box : Box) (building : Chatbot.Row) : Box :=
  match polygonOf building with
  | Some coords =>
      let centerPos := Geo.centerPos coords in
      {| minX := Geo.minAcc (minX box) (Geo.x centerPos);
         maxX := Geo.maxAcc (maxX box) (Geo.x centerPos);
         minZ := Geo.minAcc (minZ box) (Geo.z centerPos);
         maxZ := Geo.maxAcc (maxZ box) (Geo.z centerPos);
         maxY := Qmax (maxY box) (Geo.buildingHeight (heightOf building)) |}
  | None => box
  end.

(** The largest of the two extents of the box and of the tallest height. *)
Definition maxSizeOf (minX maxX minZ maxZ maxY : Q) : Q :=
  let sizeX := maxX - minX in
  let sizeZ := maxZ - minZ in
  Qmax (Qmax sizeX sizeZ) maxY.

(** [fitBuildingsToView] and [fitHighlightedBuildingsToView] differ in the
    list they read and in the two constants of the distance; [None] when the
    function returns without moving the camera. *)
Definition fitView (factor floor : Q) (buildings : list Chatbot.Row) : option View :=
  match buildings with
  | [] => None
  | _ =>
      match fold_left extend buildings emptyBox with
      | {| minX := Some minX; maxX := Some maxX;
           minZ := Some minZ; maxZ := Some maxZ; maxY := maxY |} =>
          let centerX := (minX + maxX) / 2 in
          let centerZ := (minZ + maxZ) / 2 in
          let maxSize := maxSizeOf minX maxX minZ maxZ maxY in
          let distance := Qmax (maxSize * factor) floor in
          Some {| position := {| x := centerX; y := distance; z := centerZ + distance |};
                  target := {| x := centerX; y := 0; z := centerZ |} |}
      | _ => None
      end
  end.

Definition fitBuildingsToView (buildings : list Chatbot.Row) : option View :=
  fitView 0.3 50 buildings.

Definition fitHighlightedBuildingsToView (highlightedBuildings : list Chatbot.Row)
  : option View :=
  fitView 0.8 100 highlightedBuildings.

(** A box that contains the centre and the height of a building. *)
Definition covers (box : Box) (cx cz h : Q) : Prop :=
  (exists a, minX box = Some a /\ a <= cx)
  /\ (exists b, maxX box = Some b /\ cx <= b)
  /\ (exists c, minZ box = Some c /\ c <= cz)
  /\ (exists d, maxZ box = Some d /\ cz <= d)
  /\ h <= maxY box.

(** [m] is the least (the greatest) of the values of [value] on the rings of
    the buildings that have a polygon. *)
Definition least (value : Geo.Ring -> Q) (buildings : list Chatbot.Row) (m : Q) : Prop :=
  (exists b coords, In b buildings /\ polygonOf b = Some coords /\ m = value coords)
  /\ forall b coords, In b buildings -> polygonOf b = Some coords -> m <= value coords.

Definition greatest (value : Geo.Ring -> Q) (buildings : list Chatbot.Row) (m : Q) : Prop :=
  (exists b coords, In b buildings /\ polygonOf b = Some coords /\ m = value coords)
  /\ forall b coords, In b buildings -> polygonOf b = Some coords -> value coords <= m.

(** [m] is the greatest of 0 and of the heights of the buildings that have a
    polygon. *)
Definition tallest (buildings : list Chatbot.Row) (m : Q) : Prop :=
  (m = 0
   \/ exists b coords,
        In b buildings /\ polygonOf b = Some coords
        /\ m = Geo.buildingHeight (heightOf b))
  /\ 0 <= m
  /\ forall b coords,
       In b buildings -> polygonOf b = Some coords ->
       Geo.buildingHeight (heightOf b) <= m.

(** The view [v] frames the buildings of the list: with the box of the
    centres of the buildings and their tallest height, the target is the
    middle of the box on the ground, and the camera is above the target at
    [distance], moved by [distance] along z, where [distance] is [factor]
    times the largest of the two extents of the box and of the tallest
    height, and at least [floor]. *)
Definition frames (factor floor : Q) (buildings : list Chatbot.Row) (v : View) : Prop :=
  exists minX maxX minZ maxZ maxY,
    least (fun coords => Geo.x (Geo.centerPos coords)) buildings minX
    /\ greatest (fun coords => Geo.x (Geo.centerPos coords)) buildings maxX
    /\ least (fun coords => Geo.z (Geo.centerPos coords)) buildings minZ
    /\ greatest (fun coords => Geo.z (Geo.centerPos coords)) buildings maxZ
    /\ tallest buildings maxY
    /\ let maxSize := Qmax (Qmax (maxX - minX) (maxZ - minZ)) maxY in
       let distance := Qmax (maxSize * factor) floor in
       v = {| position := {| x := (minX + maxX) / 2; y := distance;
                             z := (minZ + maxZ) / 2 + distance |};
              target := {| x := (minX + maxX) / 2; y := 0; z := (minZ + maxZ) / 2 |} |}.

(** What a framing view gives for each building: the camera is at least
    [floor] high, and at least [factor] times as high as the building is far
    from the target on either axis (taken twice) and as it is tall. *)
Definition inView (factor floor : Q) (buildings : list Chatbot.Row) (v : View) : Prop :=
  floor <= y (position v)
  /\ forall b coords,
       In b buildings -> polygonOf b = Some coords ->
       2 * Qabs (Geo.x (Geo.centerPos coords) - x (target v)) * factor <= y (position v)
       /\ 2 * Qabs (Geo.z (Geo.centerPos coords) - z (target v)) * factor <= y (position v)
       /\ Geo.buildingHeight (heightOf b) * factor <= y (position v).

(** A bound of the box after the loop over [l] is a bound the box had before
    it, or the value of one of the buildings of [l]. *)
Definition from (l : list Chatbot.Row) (value : Geo.Ring -> Q)
           (before after : option Q) : Prop :=
  forall a, after = Some a ->
    before = Some a
    \/ exists b coords, In b l /\ polygonOf b = Some coords /\ a = value coords.

(** The four bounds are set together. *)
Definition inStep (box : Box) : Prop :=
  (minX box = None /\ maxX box = None /\ minZ box = None /\ maxZ box = None)
  \/ (minX box <> None /\ maxX box <> None /\ minZ box <> None /\ maxZ box <> None).

End Fit.

(** ** The screen *)

(** [getBoundingClientRect()] of the mount. *)
Record Rect : Type := mkRect {
  left : Q;
  top : Q;
  width : Q;
  height : Q
}.

(** [onMouseDown]: a click to normalized device coordinates. *)
Definition toNdc (rect : Rect) (clientX clientY : Q) : Q * Q :=
  (((clientX - left rect) / width rect) * 2 - 1,
   - ((clientY - top rect) / height rect) * 2 + 1).

(** [getBuildingScreenPosition]: normalized device coordinates to a position
    inside the mount. *)
Definition toScreen (rect : Rect) (ndcX ndcY : Q) : Q * Q :=
  ((ndcX * 0.5 + 0.5) * width rect, (ndcY * -0.5 + 0.5) * height rect).

(** [finalTop] of the info card in [render], from [screenPos.y]. *)
Definition finalTop (rect : Rect) (screenY : Q) : Q :=
  let panelTop :=
    if Qlt_le_dec screenY (height rect / 2) then screenY - 160 else screenY + 30 in
  let panelHeight := 180 in
  Qmax 20 (Qmin panelTop (height rect - panelHeight - 20)).

(** ** The tiles of the base map *)

(** [Math.floor((lon + 180) / 360 * Math.pow(2, zoom))]. The sum, the
    quotient and the product are each rounded to a double: [fl] is that
    rounding, which is not modelled; the power of 2 is exact. *)
Definition lon2tile (fl : Q -> Q) (lon : Q) (zoom : nat) : Z :=
  Qfloor (fl (fl (fl (lon + 180) / 360) * inject_Z (2 ^ Z.of_nat zoom))).

Definition tileWorldSize : Q := 100.

(** [posX] (and [posZ]) of the tile in column [t] of [createOSMBasemap]. *)
Definition tilePos (t minTile numTiles : Z) : Q :=
  (inject_Z t - inject_Z minTile) * tileWorldSize
  - (inject_Z numTiles * tileWorldSize) / 2 + tileWorldSize / 2.

End MapView.

(* ================================================================== *)
(** * Properties of the string and regular-expression model *)
(* ================================================================== *)

Section JsProperties.

Import Js.
Local Open Scope list_scope.
Local Open Scope string_scope.

Ltac each_ascii c := destruct c as [[] [] [] [] [] [] [] []]; reflexivity.

Lemma lowerChar_idem : forall c, lowerChar (lowerChar c) = lowerChar c.
Proof. intros c. each_ascii c. Qed.

Lemma canonicalize_lowerChar : forall c, canonicalize (lowerChar c) = canonicalize c.
Proof. intros c. each_ascii c. Qed.

Lemma isDigit_lowerChar : forall c, isDigit (lowerChar c) = isDigit c.
Proof. intros c. each_ascii c. Qed.

Lemma isSpace_lowerChar : forall c, isSpace (lowerChar c) = isSpace c.
Proof. intros c. each_ascii c. Qed.

Lemma lowerChar_digit : forall c, isDigit c = true -> lowerChar c = c.
Proof.
  intros c. destruct c as [[] [] [] [] [] [] [] []]; intros H;
    first [reflexivity | discriminate H].
Qed.

Lemma toLowerCase_idem : forall s, toLowerCase (toLowerCase s) = toLowerCase s.
Proof.
  induction s as [|c t IH]; simpl; [reflexivity|].
  now rewrite lowerChar_idem, IH.
Qed.

Lemma length_toLowerCase : forall s, String.length (toLowerCase s) = String.length s.
Proof. induction s as [|c t IH]; simpl; congruence. Qed.

Lemma substring_toLowerCase :
  forall s n m,
    String.substring n m (toLowerCase s) = toLowerCase (String.substring n m s).
Proof.
  induction s as [|c t IH]; intros n m.
  - destruct n, m; reflexivity.
  - destruct n as [|n].
    + destruct m as [|m]; simpl; [reflexivity|]. now rewrite IH.
    + simpl. apply IH.
Qed.

(** ** Matching a lower-cased input *)

Lemma consumed_toLowerCase :
  forall s t, consumed (toLowerCase s) (toLowerCase t) = toLowerCase (consumed s t).
Proof.
  intros s t. unfold consumed.
  now rewrite !length_toLowerCase, substring_toLowerCase.
Qed.

Lemma flat_map_map_commute :
  forall (f f' : mstate -> list mstate) (g : mstate -> mstate) (l : list mstate),
    (forall st, In st l -> f' (g st) = map g (f st)) ->
    flat_map f' (map g l) = map g (flat_map f l).
Proof.
  intros f f' g l. induction l as [|h t IH]; intros H; simpl; [reflexivity|].
  rewrite map_app, H by (left; reflexivity).
  f_equal. apply IH. intros st Hst. apply H. now right.
Qed.

Lemma star_lower :
  forall (step : captures -> string -> list mstate),
    (forall caps s, step (lowerCaps caps) (toLowerCase s) = map lowerState (step caps s)) ->
    forall n caps s,
      star step n (lowerCaps caps) (toLowerCase s) = map lowerState (star step n caps s).
Proof.
  intros step Hstep. induction n as [|n IH]; intros caps s; simpl; [reflexivity|].
  rewrite map_app, Hstep. simpl. f_equal.
  apply flat_map_map_commute. intros [c t] _. simpl.
  rewrite !length_toLowerCase.
  destruct (String.length t <? String.length s)%nat; [apply IH | reflexivity].
Qed.

Lemma run_lower :
  forall r caps s,
    run r (lowerCaps caps) (toLowerCase s) = map lowerState (run r caps s).
Proof.
  induction r as [|c| | |r1 IH1 r2 IH2|r1 IH1 r2 IH2|r1 IH1|r1 IH1|i r1 IH1];
    intros caps s.
  - reflexivity.
  - destruct s as [|x t]; simpl; [reflexivity|].
    rewrite canonicalize_lowerChar.
    destruct (Ascii.eqb (canonicalize x) (canonicalize c)); reflexivity.
  - destruct s as [|x t]; simpl; [reflexivity|].
    rewrite isDigit_lowerChar. destruct (isDigit x); reflexivity.
  - destruct s as [|x t]; simpl; [reflexivity|].
    rewrite isSpace_lowerChar. destruct (isSpace x); reflexivity.
  - simpl. rewrite IH1. apply flat_map_map_commute.
    intros [c t] _. apply IH2.
  - simpl. now rewrite map_app, IH1, IH2.
  - simpl. rewrite length_toLowerCase. apply star_lower. exact IH1.
  - simpl. now rewrite map_app, IH1.
  - simpl. rewrite IH1, !map_map. apply map_ext.
    intros [c t]. unfold lowerState. simpl. now rewrite consumed_toLowerCase.
Qed.

Lemma exec_lower :
  forall r s, exec r (toLowerCase s) = option_map lowerCaps (exec r s).
Proof.
  intros r. induction s as [|c t IH].
  - simpl. change (@nil (nat * string)) with (lowerCaps []) at 1.
    change EmptyString with (toLowerCase EmptyString) at 1.
    rewrite run_lower. destruct (run r [] EmptyString); reflexivity.
  - cbn [exec toLowerCase].
    change (String (lowerChar c) (toLowerCase t)) with (toLowerCase (String c t)).
    change (@nil (nat * string)) with (lowerCaps []) at 1.
    rewrite run_lower.
    destruct (run r [] (String c t)) as [|st l]; simpl; [exact IH | reflexivity].
Qed.

(** ** What a match consumes *)

Lemma star_invariant :
  forall (P : mstate -> mstate -> Prop) (step : captures -> string -> list mstate),
    (forall st, P st st) ->
    (forall a b c, P a b -> P b c -> P a c) ->
    (forall caps s st, In st (step caps s) -> P (caps, s) st) ->
    forall n caps s st, In st (star step n caps s) -> P (caps, s) st.
Proof.
  intros P step Hrefl Htrans Hstep. induction n as [|n IH]; intros caps s st Hin; simpl in Hin.
  - destruct Hin as [<-|[]]. apply Hrefl.
  - apply in_app_or in Hin. destruct Hin as [Hin|[<-|[]]]; [|apply Hrefl].
    apply in_flat_map in Hin. destruct Hin as ([c1 s1] & H1 & H2). simpl in H2.
    destruct (String.length s1 <? String.length s)%nat; [|contradiction].
    apply Htrans with (c1, s1); [apply Hstep; exact H1 | apply IH; exact H2].
Qed.

Lemma suffixStep_refl : forall st, suffixStep st st.
Proof. intros st. now exists "". Qed.

Lemma suffixStep_trans : forall a b c, suffixStep a b -> suffixStep b c -> suffixStep a c.
Proof.
  intros a b c [d1 H1] [d2 H2]. exists (d1 ++ d2).
  rewrite H1, H2. clear. induction d1 as [|x d1 IH]; simpl; congruence.
Qed.

Lemma run_suffix :
  forall r caps s st, In st (run r caps s) -> suffixStep (caps, s) st.
Proof.
  induction r as [|c| | |r1 IH1 r2 IH2|r1 IH1 r2 IH2|r1 IH1|r1 IH1|i r1 IH1];
    intros caps s st Hin; simpl in Hin.
  - destruct Hin as [<-|[]]. apply suffixStep_refl.
  - destruct s as [|x t]; [contradiction|].
    destruct (Ascii.eqb (canonicalize x) (canonicalize c)); [|contradiction].
    destruct Hin as [<-|[]]. now exists (String x "").
  - destruct s as [|x t]; [contradiction|].
    destruct (isDigit x); [|contradiction].
    destruct Hin as [<-|[]]. now exists (String x "").
  - destruct s as [|x t]; [contradiction|].
    destruct (isSpace x); [|contradiction].
    destruct Hin as [<-|[]]. now exists (String x "").
  - apply in_flat_map in Hin. destruct Hin as ([c1 s1] & H1 & H2).
    apply suffixStep_trans with (c1, s1); [apply IH1, H1 | apply IH2, H2].
  - apply in_app_or in Hin. destruct Hin as [H|H]; [apply IH1, H | apply IH2, H].
  - revert Hin. apply star_invariant;
      [apply suffixStep_refl | apply suffixStep_trans | exact IH1].
  - apply in_app_or in Hin. destruct Hin as [H|[<-|[]]];
      [apply IH1, H | apply suffixStep_refl].
  - apply in_map_iff in Hin. destruct Hin as ([c1 s1] & <- & H1).
    destruct (IH1 _ _ _ H1) as [d Hd]. now exists d.
Qed.

Lemma allDigits_app :
  forall a b, allDigits a = true -> allDigits b = true -> allDigits (a ++ b) = true.
Proof.
  induction a as [|x a IH]; simpl; intros b Ha Hb; [exact Hb|].
  apply andb_true_iff in Ha. destruct Ha as [Hx Ha].
  now rewrite Hx, IH.
Qed.

Lemma digitStep_refl : forall st, digitStep st st.
Proof. intros st. split; [reflexivity|]. now exists "". Qed.

Lemma digitStep_trans : forall a b c, digitStep a b -> digitStep b c -> digitStep a c.
Proof.
  intros a b c [E1 (d1 & H1 & D1)] [E2 (d2 & H2 & D2)]. split; [congruence|].
  exists (d1 ++ d2). split; [|now apply allDigits_app].
  rewrite H1, H2. clear. induction d1 as [|x d1 IH]; simpl; congruence.
Qed.

Lemma run_digitsOnly :
  forall r, digitsOnly r = true ->
  forall caps s st, In st (run r caps s) -> digitStep (caps, s) st.
Proof.
  induction r as [|c| | |r1 IH1 r2 IH2|r1 IH1 r2 IH2|r1 IH1|r1 IH1|i r1 IH1];
    intros Hr caps s st Hin; simpl in Hr, Hin; try discriminate Hr.
  - destruct Hin as [<-|[]]. apply digitStep_refl.
  - destruct s as [|x t]; [contradiction|].
    destruct (isDigit x) eqn:Hx; [|contradiction].
    destruct Hin as [<-|[]]. split; [reflexivity|].
    exists (String x ""). simpl. now rewrite Hx.
  - apply andb_true_iff in Hr. destruct Hr as [Hr1 Hr2].
    apply in_flat_map in Hin. destruct Hin as ([c1 s1] & H1 & H2).
    apply digitStep_trans with (c1, s1); [apply IH1; assumption | apply IH2; assumption].
  - apply andb_true_iff in Hr. destruct Hr as [Hr1 Hr2].
    apply in_app_or in Hin. destruct Hin as [H|H]; [apply IH1 | apply IH2]; assumption.
  - revert Hin. apply star_invariant;
      [apply digitStep_refl | apply digitStep_trans | apply IH1, Hr].
  - apply in_app_or in Hin. destruct Hin as [H|[<-|[]]];
      [apply IH1; assumption | apply digitStep_refl].
Qed.

Lemma substring_prefix_app :
  forall d t, String.substring 0 (String.length d) (d ++ t) = d.
Proof.
  induction d as [|x d IH]; intros t; simpl.
  - destruct t; reflexivity.
  - now rewrite IH.
Qed.

Lemma length_append : forall a b, String.length (a ++ b) = (String.length a + String.length b)%nat.
Proof. induction a as [|x a IH]; intros b; simpl; [reflexivity|]. now rewrite IH. Qed.

Lemma consumed_app : forall d t, consumed (d ++ t) t = d.
Proof.
  intros d t. unfold consumed. rewrite length_append.
  replace (String.length d + String.length t - String.length t)%nat
    with (String.length d) by lia.
  apply substring_prefix_app.
Qed.

Lemma run_digitGroups :
  forall r, digitGroups r = true ->
  forall caps s st, In st (run r caps s) -> keepsDigitCaps (caps, s) st.
Proof.
  induction r as [|c| | |r1 IH1 r2 IH2|r1 IH1 r2 IH2|r1 IH1|r1 IH1|i r1 IH1];
    intros Hr caps s st Hin; simpl in Hr, Hin.
  - destruct Hin as [<-|[]]. intros H; exact H.
  - destruct s as [|x t]; [contradiction|].
    destruct (Ascii.eqb (canonicalize x) (canonicalize c)); [|contradiction].
    destruct Hin as [<-|[]]. intros H; exact H.
  - destruct s as [|x t]; [contradiction|].
    destruct (isDigit x); [|contradiction].
    destruct Hin as [<-|[]]. intros H; exact H.
  - destruct s as [|x t]; [contradiction|].
    destruct (isSpace x); [|contradiction].
    destruct Hin as [<-|[]]. intros H; exact H.
  - apply andb_true_iff in Hr. destruct Hr as [Hr1 Hr2].
    apply in_flat_map in Hin. destruct Hin as ([c1 s1] & H1 & H2).
    intros H. apply (IH2 Hr2 _ _ _ H2). apply (IH1 Hr1 _ _ _ H1). exact H.
  - apply andb_true_iff in Hr. destruct Hr as [Hr1 Hr2].
    apply in_app_or in Hin. destruct Hin as [H|H]; [apply (IH1 Hr1 _ _ _ H) | apply (IH2 Hr2 _ _ _ H)].
  - revert Hin. apply (star_invariant keepsDigitCaps).
    + intros a H; exact H.
    + intros a b c Hab Hbc H. apply Hbc, Hab, H.
    + apply IH1, Hr.
  - apply in_app_or in Hin. destruct Hin as [H|[<-|[]]];
      [apply (IH1 Hr _ _ _ H) | intros H; exact H].
  - apply in_map_iff in Hin. destruct Hin as ([c1 s1] & <- & H1).
    destruct (run_digitsOnly r1 Hr _ _ _ H1) as [Hc (d & Hd & Hall)].
    simpl in Hc, Hd. subst c1 s.
    intros Hcaps b [<-|Hb]; simpl.
    * now rewrite consumed_app.
    * apply Hcaps, Hb.
Qed.

Lemma exec_some_run :
  forall r s caps,
    exec r s = Some caps ->
    exists p t rest, s = p ++ t /\ In (caps, rest) (run r [] t).
Proof.
  intros r. induction s as [|c t IH]; intros caps H.
  - simpl in H. destruct (run r [] "") as [|[c0 s0] l] eqn:E; [discriminate|].
    injection H as <-. exists "", "", s0. split; [reflexivity|]. rewrite E. now left.
  - cbn [exec] in H. destruct (run r [] (String c t)) as [|[c0 s0] l] eqn:E.
    + destruct (IH _ H) as (p & t' & rest & -> & Hin).
      exists (String c p), t', rest. split; [reflexivity | exact Hin].
    + injection H as <-. exists "", (String c t), s0. split; [reflexivity|].
      rewrite E. now left.
Qed.

Lemma exec_digitCaps :
  forall r s caps, digitGroups r = true -> exec r s = Some caps -> digitCaps caps.
Proof.
  intros r s caps Hr H.
  destruct (exec_some_run _ _ _ H) as (p & t & rest & _ & Hin).
  apply (run_digitGroups r Hr _ _ _ Hin). intros b [].
Qed.

Lemma toLowerCase_digits : forall s, allDigits s = true -> toLowerCase s = s.
Proof.
  induction s as [|c t IH]; simpl; intros H; [reflexivity|].
  apply andb_true_iff in H. destruct H as [Hc Ht].
  now rewrite lowerChar_digit, IH.
Qed.

Lemma lowerCaps_digitCaps : forall caps, digitCaps caps -> lowerCaps caps = caps.
Proof.
  induction caps as [|[i v] l IH]; intros H; simpl; [reflexivity|].
  rewrite (toLowerCase_digits v) by (apply (H (i, v)); now left).
  f_equal. apply IH. intros b Hb. apply H. now right.
Qed.

(** A regular expression whose groups capture digits gives the same result on
    a message and on its lower case. *)
Lemma exec_lower_digitGroups :
  forall r s, digitGroups r = true -> exec r (toLowerCase s) = exec r s.
Proof.
  intros r s Hr. rewrite exec_lower.
  destruct (exec r s) as [caps|] eqn:E; simpl; [|reflexivity].
  f_equal. apply lowerCaps_digitCaps. apply (exec_digitCaps r s caps Hr E).
Qed.

(** ** Matches do not depend on the captures made so far *)

Lemma Forall2_flat_map :
  forall (f f' : mstate -> list mstate) (l l' : list mstate),
    Forall2 sameRest l l' ->
    (forall a b, sameRest a b -> Forall2 sameRest (f a) (f' b)) ->
    Forall2 sameRest (flat_map f l) (flat_map f' l').
Proof.
  intros f f' l l' H Hf. induction H as [|a b l l' Hab _ IH]; simpl.
  - constructor.
  - apply Forall2_app; [apply Hf, Hab | exact IH].
Qed.

Lemma star_caps_independent :
  forall step : captures -> string -> list mstate,
    (forall c c' s, Forall2 sameRest (step c s) (step c' s)) ->
    forall n c c' s, Forall2 sameRest (star step n c s) (star step n c' s).
Proof.
  intros step Hstep. induction n as [|n IH]; intros c c' s; simpl.
  - repeat constructor.
  - apply Forall2_app; [|repeat constructor].
    apply Forall2_flat_map; [apply Hstep|].
    intros [c1 s1] [c2 s2] E. unfold sameRest in E. simpl in *. subst s2.
    destruct (String.length s1 <? String.length s)%nat; [apply IH | constructor].
Qed.

Lemma run_caps_independent :
  forall r c c' s, Forall2 sameRest (run r c s) (run r c' s).
Proof.
  induction r as [|x| | |r1 IH1 r2 IH2|r1 IH1 r2 IH2|r1 IH1|r1 IH1|i r1 IH1];
    intros c c' s; simpl.
  - repeat constructor.
  - destruct s as [|a t]; [constructor|].
    destruct (Ascii.eqb (canonicalize a) (canonicalize x)); repeat constructor.
  - destruct s as [|a t]; [constructor|]. destruct (isDigit a); repeat constructor.
  - destruct s as [|a t]; [constructor|]. destruct (isSpace a); repeat constructor.
  - apply Forall2_flat_map; [apply IH1|].
    intros [c1 s1] [c2 s2] E. unfold sameRest in E. simpl in *. subst s2. apply IH2.
  - apply Forall2_app; [apply IH1 | apply IH2].
  - apply star_caps_independent, IH1.
  - apply Forall2_app; [apply IH1 | repeat constructor].
  - specialize (IH1 c c' s). induction IH1 as [|a b l l' Hab _ IH]; simpl; constructor; auto.
Qed.

Lemma run_nonempty_any_caps :
  forall r c c' s st, In st (run r c s) -> run r c' s <> [].
Proof.
  intros r c c' s st Hin E.
  pose proof (run_caps_independent r c c' s) as H. rewrite E in H.
  inversion H as [E'|]. rewrite <- E' in Hin. contradiction.
Qed.

Lemma exec_finds :
  forall r p t, run r [] t <> [] -> exec r (p ++ t) <> None.
Proof.
  intros r p t Hrun. induction p as [|c p IH]; simpl.
  - destruct t as [|c t]; simpl; destruct (run r [] _); congruence.
  - destruct (run r [] (String c (p ++ t))); [exact IH | discriminate].
Qed.

Lemma append_assoc : forall a b c : string, (a ++ b) ++ c = a ++ (b ++ c).
Proof. induction a as [|x a IH]; intros; simpl; congruence. Qed.

(** A match of [a b r] somewhere in [s] has a match of [r] somewhere in [s]. *)
Lemma exec_tail_matches :
  forall a b r s caps,
    exec (RSeq a (RSeq b r)) s = Some caps -> exists caps', exec r s = Some caps'.
Proof.
  intros a b r s caps H.
  destruct (exec_some_run _ _ _ H) as (p & t & rest & -> & Hin).
  simpl in Hin. apply in_flat_map in Hin. destruct Hin as ([c1 s1] & H1 & H2).
  apply in_flat_map in H2. destruct H2 as ([c2 s2] & H2 & H3). simpl in *.
  destruct (run_suffix _ _ _ _ H1) as [d1 E1].
  destruct (run_suffix _ _ _ _ H2) as [d2 E2]. simpl in *. subst t s1.
  assert (Hne : run r [] s2 <> []) by (eapply run_nonempty_any_caps; eassumption).
  rewrite <- !append_assoc.
  destruct (exec r (((p ++ d1) ++ d2) ++ s2)) as [c|] eqn:E; [now exists c|].
  exfalso. revert E. apply exec_finds, Hne.
Qed.

End JsProperties.

(* ================================================================== *)
(** * Properties: the classifier is a first-match decision list *)
(* ================================================================== *)

Section ClassifierProperties.

Import Js Chatbot DecisionList.
Local Open Scope string_scope.

Variable numToString : Q -> string.
Variable toFixed1 : Q -> string.

Lemma find_first_match :
  forall (A : Type) (f : A -> bool) (l : list A) (a : A),
    find f l = Some a ->
    exists pre post, l = (pre ++ a :: post)%list /\ f a = true
                     /\ forall b, In b pre -> f b = false.
Proof.
  intros A f l. induction l as [|h t IH]; intros a Hf; simpl in Hf.
  - discriminate.
  - destruct (f h) eqn:Hh.
    + injection Hf as <-. exists [], t. repeat split; auto. intros b [].
    + destruct (IH a Hf) as (pre & post & -> & Ha & Hpre).
      exists (h :: pre), post. repeat split; auto.
      intros b [<-|Hb]; auto.
Qed.

Lemma find_none_all :
  forall (A : Type) (f : A -> bool) (l : list A),
    find f l = None -> forall b, In b l -> f b = false.
Proof.
  intros A f l. induction l as [|h t IH]; intros Hf b Hb; simpl in *.
  - contradiction.
  - destruct (f h) eqn:Hh; [discriminate|].
    destruct Hb as [<-|Hb]; auto.
Qed.

Lemma classify_firstMatch : forall lower, firstMatch lower (classify lower).
Proof.
  intros lower. unfold classify.
  destruct (find (fun i => trigger i lower) priority) as [i|] eqn:Hf.
  - left. apply find_first_match in Hf. exact Hf.
  - right. split; [reflexivity|]. apply (find_none_all _ _ _ Hf).
Qed.

Lemma anyOf2 : forall l a b, anyOf l [a; b] = includes l a || includes l b.
Proof. intros. unfold anyOf. simpl. now rewrite orb_false_r. Qed.

Lemma anyOf3 : forall l a b c,
  anyOf l [a; b; c] = includes l a || includes l b || includes l c.
Proof. intros. unfold anyOf. simpl. now rewrite orb_false_r, orb_assoc. Qed.

Lemma anyOf4 : forall l a b c d,
  anyOf l [a; b; c; d] = includes l a || includes l b || includes l c || includes l d.
Proof. intros. unfold anyOf. simpl. now rewrite orb_false_r, !orb_assoc. Qed.

Lemma processQuery_decision_list :
  forall m, processQuery numToString toFixed1 m
            = handlerOf numToString toFixed1 (classify (toLowerCase m)) m.
Proof.
  intros m. unfold processQuery, classify, priority.
  cbn [find trigger]. rewrite ?anyOf2, ?anyOf3, ?anyOf4.
  repeat match goal with
         | |- (if ?c then _ else _) = _ => destruct c; [reflexivity|]
         end.
  reflexivity.
Qed.

(** C1. The handler [processQuery] runs for a message is the handler of the
    first intent, in the priority order of the twelve intents followed by the
    help fallback, whose trigger occurs in the lower-cased message; a message
    with both "tallest" and "how many" is handled by the tallest intent. *)
Theorem C1_first_match_wins :
  forall m,
    firstMatch (toLowerCase m) (classify (toLowerCase m))
    /\ processQuery numToString toFixed1 m
       = handlerOf numToString toFixed1 (classify (toLowerCase m)) m
    /\ (includes (toLowerCase m) "tallest" = true ->
        includes (toLowerCase m) "how many" = true ->
        classify (toLowerCase m) = Tallest
        /\ processQuery numToString toFixed1 m = getTallestBuilding numToString).
Proof.
  intros m. split; [apply classify_firstMatch|]. split.
  - apply processQuery_decision_list.
  - intros Ht _.
    assert (Hc : classify (toLowerCase m) = Tallest).
    { unfold classify, priority. cbn [find trigger]. rewrite anyOf3, Ht. reflexivity. }
    split; [exact Hc|]. rewrite processQuery_decision_list, Hc. reflexivity.
Qed.

End ClassifierProperties.

(** The examples of the specification (section 8). *)

Example top_12 :
  Chatbot.topLimit (Js.toLowerCase "show me top 12 buildings") = Chatbot.num 12.
Proof. reflexivity. Qed.

Example top_default :
  Chatbot.topLimit (Js.toLowerCase "top buildings") = 5%Q.
Proof. reflexivity. Qed.

Example shortest_question :
  DecisionList.classify (Js.toLowerCase "What is the shortest building?")
  = DecisionList.Shortest.
Proof. reflexivity. Qed.

Example compare_question :
  DecisionList.classify
    (Js.toLowerCase "Compare Empire State Building vs One World Trade Center")
  = DecisionList.Compare
  /\ filter (fun n => Js.includes
                        (Js.toLowerCase "Compare Empire State Building vs One World Trade Center") n)
            Chatbot.buildingNames
     = ["empire state"; "world trade"]%string.
Proof. split; reflexivity. Qed.

Example range_question :
  Js.exec Chatbot.heightRangeRe "Show me buildings between 200-400 meters"
  = Some [(2%nat, "400"%string); (1%nat, "200"%string)].
Proof. reflexivity. Qed.

Lemma C1_witness :
  Js.includes (Js.toLowerCase "How many floors does the TALLEST tower have?") "tallest" = true
  /\ Js.includes (Js.toLowerCase "How many floors does the TALLEST tower have?") "how many" = true
  /\ Chatbot.processQuery (fun _ => EmptyString) (fun _ => EmptyString)
       "How many floors does the TALLEST tower have?"
     = Chatbot.getTallestBuilding (fun _ => EmptyString).
Proof.
  split; [reflexivity|]. split; [reflexivity|].
  apply (C1_first_match_wins (fun _ => EmptyString) (fun _ => EmptyString)
           "How many floors does the TALLEST tower have?"); reflexivity.
Defined.

(* ================================================================== *)
(** * Properties: store failures and letter case *)
(* ================================================================== *)

Section ExecutorProperties.

Import Js Chatbot DecisionList.
Local Open Scope string_scope.

Variable numToString : Q -> string.
Variable toFixed1 : Q -> string.

Ltac unfold_handlers :=
  unfold getTallestBuilding, getShortestBuilding, getTopBuildings, compareBuildings,
    getHeightRangeAnalysis, getBuildingTypeAnalysis, searchBuildings,
    getBuildingStatistics, getNearbyBuildings, getSpecificBuilding, searchByAddress,
    getBuildingCount, tryCatch, bind, query, ret, throw.

Ltac handler_cases pool :=
  repeat match goal with
         | |- context [match pool ?s ?p with _ => _ end] =>
             destruct (pool s p) as [[|? [|? ?]]|] eqn:?
         | |- context [if ?c then _ else _] => destruct c eqn:?
         | |- context [match find ?f ?l with _ => _ end] => destruct (find f l) eqn:?
         end.

(** No handler lets an error escape. *)
Lemma handler_returns :
  forall i m pool, exists r, fst (handlerOf numToString toFixed1 i m pool) = Returned r.
Proof.
  intros i m pool.
  destruct i; cbn [handlerOf]; unfold_handlers;
    handler_cases pool; cbn [fst snd]; eexists; reflexivity.
Qed.

Lemma single_call_failed :
  forall (pool : Pool) sql params a b,
    In (sql, params) [(a, b)] -> pool sql params = None -> pool a b = None.
Proof. intros pool sql params a b [H|[]] Hn. congruence. Qed.

(** A handler whose statement is rejected answers with the apology. *)
Lemma handler_failure :
  forall i m pool sql params,
    In (sql, params) (snd (handlerOf numToString toFixed1 i m pool)) ->
    pool sql params = None ->
    exists r, fst (handlerOf numToString toFixed1 i m pool) = Returned r /\ isApology r.
Proof.
  intros i m pool sql params.
  destruct i; cbn [handlerOf]; unfold_handlers;
    handler_cases pool; cbn [fst snd app]; intros Hin Hnone;
    try contradiction;
    try (apply (single_call_failed _ _ _ _ _ Hin) in Hnone; congruence);
    (eexists; split; [reflexivity | repeat split; reflexivity]).
Qed.

(** C7. For every intent handler, when the statement it issues is rejected by
    the store, the handler returns a response of type text whose content is
    the apology and that carries neither a building nor a list of buildings;
    [processQuery] always returns a response and never throws. *)
Theorem C7_store_failure_gives_apology :
  forall m pool,
    (exists r, fst (processQuery numToString toFixed1 m pool) = Returned r)
    /\ (forall i sql params,
          In (sql, params) (snd (handlerOf numToString toFixed1 i m pool)) ->
          pool sql params = None ->
          exists r, fst (handlerOf numToString toFixed1 i m pool) = Returned r
                    /\ isApology r)
    /\ (forall sql params,
          In (sql, params) (snd (processQuery numToString toFixed1 m pool)) ->
          pool sql params = None ->
          exists r, fst (processQuery numToString toFixed1 m pool) = Returned r
                    /\ isApology r).
Proof.
  intros m pool. rewrite processQuery_decision_list. split; [apply handler_returns|].
  split; intros; eapply handler_failure; eassumption.
Qed.

Lemma searchQuery_lower : forall m, searchQuery (toLowerCase m) = searchQuery m.
Proof.
  intros m. unfold searchQuery, heightFilter, typeFilter.
  now rewrite toLowerCase_idem, !exec_lower_digitGroups by reflexivity.
Qed.

Lemma handlerOf_lower :
  forall i m, handlerOf numToString toFixed1 i (toLowerCase m)
              = handlerOf numToString toFixed1 i m.
Proof.
  intros i m. destruct i; cbn [handlerOf]; try reflexivity.
  - now rewrite toLowerCase_idem.
  - unfold compareBuildings. now rewrite toLowerCase_idem.
  - unfold getHeightRangeAnalysis.
    now rewrite exec_lower_digitGroups by reflexivity.
  - unfold searchBuildings.
    now rewrite searchQuery_lower, toLowerCase_idem, !exec_lower_digitGroups by reflexivity.
  - unfold getSpecificBuilding. now rewrite toLowerCase_idem.
  - unfold searchByAddress. now rewrite toLowerCase_idem.
  - unfold getBuildingCount. now rewrite toLowerCase_idem.
Qed.

(** C10. Processing is case-insensitive: for every message and every store,
    [processQuery] on the lower-cased message selects the same intent, issues
    the same statement with the same bound parameters, and returns the same
    response as on the message itself. *)
Theorem C10_case_insensitive :
  forall m pool,
    classify (toLowerCase (toLowerCase m)) = classify (toLowerCase m)
    /\ snd (processQuery numToString toFixed1 (toLowerCase m) pool)
       = snd (processQuery numToString toFixed1 m pool)
    /\ fst (processQuery numToString toFixed1 (toLowerCase m) pool)
       = fst (processQuery numToString toFixed1 m pool).
Proof.
  intros m pool.
  assert (H : processQuery numToString toFixed1 (toLowerCase m)
              = processQuery numToString toFixed1 m).
  { rewrite !processQuery_decision_list, toLowerCase_idem. apply handlerOf_lower. }
  rewrite toLowerCase_idem, H. repeat split.
Qed.

End ExecutorProperties.

Lemma C7_witness :
  In ("SELECT id, name, height, building_type, address, ST_AsGeoJSON(geometry) as geometry FROM buildings ORDER BY height DESC LIMIT 1"%string, @nil Chatbot.Param)
     (snd (Chatbot.processQuery (fun _ => EmptyString) (fun _ => EmptyString)
             "What is the tallest building?" (fun _ _ => None)))
  /\ exists r,
       fst (Chatbot.processQuery (fun _ => EmptyString) (fun _ => EmptyString)
              "What is the tallest building?" (fun _ _ => None)) = Chatbot.Returned r
       /\ Chatbot.isApology r.
Proof.
  split; [left; reflexivity|].
  apply (C7_store_failure_gives_apology (fun _ => EmptyString) (fun _ => EmptyString)
           "What is the tallest building?" (fun _ _ => None))
    with (sql := "SELECT id, name, height, building_type, address, ST_AsGeoJSON(geometry) as geometry FROM buildings ORDER BY height DESC LIMIT 1"%string)
         (params := @nil Chatbot.Param);
    [left; reflexivity | reflexivity].
Defined.

(* ================================================================== *)
(** * Properties: the height comparators of searchBuildings *)
(* ================================================================== *)

Section SearchProperties.

Import Js Chatbot DecisionList.
Local Open Scope Q_scope.
Local Open Scope list_scope.
Local Open Scope string_scope.

Variable numToString : Q -> string.
Variable toFixed1 : Q -> string.

(** Whenever the over-N or the under-N pattern matches (and no range does),
    the single-height pattern matches too and is tested first: the statement
    gets the clause [height >= $n], and the branches that would add
    [height > $n] or [height < $n] are never taken. *)
Lemma over_under_match_is_shadowed :
  forall m st,
    exec heightRangeRe m = None ->
    exec overHeightRe m <> None \/ exec underHeightRe m <> None ->
    exists caps,
      exec singleHeightRe m = Some caps
      /\ heightFilter st m
         = addClause st (PNum (num (parseFloat (group 1 caps)))) " AND height >= " "".
Proof.
  intros m st Hrange Hou.
  assert (Hs : exists caps, exec singleHeightRe m = Some caps).
  { destruct Hou as [H|H].
    - destruct (exec overHeightRe m) as [c|] eqn:E; [|congruence].
      apply (exec_tail_matches _ _ _ _ _ E).
    - destruct (exec underHeightRe m) as [c|] eqn:E; [|congruence].
      apply (exec_tail_matches _ _ _ _ _ E). }
  destruct Hs as [caps Hs]. exists caps. split; [exact Hs|].
  unfold heightFilter. now rewrite Hrange, Hs.
Qed.


(** C4. On "Show buildings under 50 meters", a search-intent message with
    "under 50" before a unit and no range, the one statement issued filters
    with [height >= $1] bound to 50, not with the under-N comparator; on "Find
    buildings over 300m" it filters with [height >= $1] bound to 300, not with
    the strict over-N comparator. *)
Theorem C4_under_over_filter_is_at_least :
  classify (toLowerCase "Show buildings under 50 meters") = Search
  /\ exec underHeightRe "Show buildings under 50 meters" = Some [(1%nat, "50")]
  /\ exec heightRangeRe "Show buildings under 50 meters" = None
  /\ (forall pool,
        snd (processQuery numToString toFixed1 "Show buildings under 50 meters" pool)
        = [("SELECT id, name, height, building_type, address, ST_AsGeoJSON(geometry) as geometry FROM buildings WHERE 1=1 AND height >= $1 ORDER BY height DESC LIMIT 10",
            [PNum 50])])
  /\ classify (toLowerCase "Find buildings over 300m") = Search
  /\ exec overHeightRe "Find buildings over 300m" = Some [(1%nat, "300")]
  /\ exec heightRangeRe "Find buildings over 300m" = None
  /\ (forall pool,
        snd (processQuery numToString toFixed1 "Find buildings over 300m" pool)
        = [("SELECT id, name, height, building_type, address, ST_AsGeoJSON(geometry) as geometry FROM buildings WHERE 1=1 AND height >= $1 ORDER BY height DESC LIMIT 10",
            [PNum 300])]).
Proof.
  split; [reflexivity|]. split; [reflexivity|]. split; [reflexivity|].
  split; [|split; [reflexivity|split; [reflexivity|split; [reflexivity|]]]].
  - intros pool. rewrite processQuery_decision_list.
    change (classify _) with Search. cbn [handlerOf].
    unfold searchBuildings, tryCatch, bind, query, ret.
    change (searchQuery "Show buildings under 50 meters") with
      ("SELECT id, name, height, building_type, address, ST_AsGeoJSON(geometry) as geometry FROM buildings WHERE 1=1 AND height >= $1 ORDER BY height DESC LIMIT 10", [PNum 50]).
    cbn [fst snd].
    destruct (pool _ _) as [[|]|]; reflexivity.
  - intros pool. rewrite processQuery_decision_list.
    change (classify _) with Search. cbn [handlerOf].
    unfold searchBuildings, tryCatch, bind, query, ret.
    change (searchQuery "Find buildings over 300m") with
      ("SELECT id, name, height, building_type, address, ST_AsGeoJSON(geometry) as geometry FROM buildings WHERE 1=1 AND height >= $1 ORDER BY height DESC LIMIT 10", [PNum 300]).
    cbn [fst snd].
    destruct (pool _ _) as [[|]|]; reflexivity.
Qed.

End SearchProperties.

(* ================================================================== *)
(** * Properties: the chat endpoint and the buildings router *)
(* ================================================================== *)

Section RouteProperties.

Import Js Chatbot Routes.
Local Open Scope Q_scope.
Local Open Scope list_scope.
Local Open Scope string_scope.

Variable numToString : Q -> string.
Variable toFixed1 : Q -> string.

Lemma processQuery_returns :
  forall m pool, exists r, fst (processQuery numToString toFixed1 m pool) = Returned r.
Proof.
  intros m pool. rewrite processQuery_decision_list. apply handler_returns.
Qed.

(** C8, as the code has it. POST /api/chat answers 400 exactly when [message]
    is missing, is not a string, or is the empty string; for every non-empty
    string it answers 200 with the response of [processQuery]. *)
Theorem C8_chat_rejects_non_strings_and_empty :
  forall message pool,
    (status (fst (postChat numToString toFixed1 message pool)) = 400%nat
     <-> (forall s, message = JString s -> s = ""))
    /\ (status (fst (postChat numToString toFixed1 message pool)) = 400%nat ->
        postChat numToString toFixed1 message pool
        = ({| status := 400;
              body := ErrorJson "Message is required and must be a string" |}, []))
    /\ (forall s, message = JString s -> s <> "" ->
        exists r,
          fst (processQuery numToString toFixed1 s pool) = Returned r
          /\ postChat numToString toFixed1 message pool
             = ({| status := 200; body := ChatJson r |},
                snd (processQuery numToString toFixed1 s pool))).
Proof.
  intros message pool.
  assert (Hok : forall c s,
            exists r,
              fst (processQuery numToString toFixed1 (String c s) pool) = Returned r
              /\ postChat numToString toFixed1 (JString (String c s)) pool
                 = ({| status := 200; body := ChatJson r |},
                    snd (processQuery numToString toFixed1 (String c s) pool))).
  { intros c s. destruct (processQuery_returns (String c s) pool) as [r Hr].
    exists r. split; [exact Hr|]. unfold postChat. cbn [truthy isString negb orb String.eqb].
    destruct (processQuery numToString toFixed1 (String c s) pool) as [o log].
    simpl in Hr. subst o. reflexivity. }
  split; [|split].
  - destruct message as [| |b|q|s| |]; unfold postChat; cbn [truthy isString negb orb].
    1-4, 6-7: rewrite ?orb_true_r; cbn [fst status];
      (split; [intros _ s Hs; discriminate Hs | reflexivity]).
    destruct s as [|c s].
    + cbn. split; [intros _ s Hs; now injection Hs as <- | reflexivity].
    + destruct (Hok c s) as (r & _ & Hp). unfold postChat in Hp.
      cbn [truthy isString negb orb] in Hp. rewrite Hp. cbn [fst status].
      split; [discriminate|]. intros H. discriminate (H _ eq_refl).
  - destruct message as [| |b|q|s| |]; unfold postChat; cbn [truthy isString negb orb].
    1-4, 6-7: rewrite ?orb_true_r; reflexivity.
    destruct s as [|c s]; [reflexivity|].
    destruct (Hok c s) as (r & _ & Hp). unfold postChat in Hp.
    cbn [truthy isString negb orb] in Hp. rewrite Hp. cbn [fst status]. discriminate.
  - intros s -> Hs. destruct s as [|c s]; [congruence|]. apply Hok.
Qed.

(** A path with a trailing slash matches no pattern as it stands. *)
Lemma matchSegments_slash :
  forall path pattern path',
    Forall (fun seg => match seg with Lit s => s <> "" | Par _ => True end) pattern ->
    stripSlash path = Some path' ->
    matchSegments pattern path = None.
Proof.
  induction path as [|seg rest IH]; intros pattern path' Hl Hs; [discriminate Hs|].
  cbn [stripSlash] in Hs. destruct rest as [|r rest'].
  - destruct (String.eqb seg "") eqn:E; [|discriminate Hs].
    apply String.eqb_eq in E. subst seg.
    destruct pattern as [|[s|n] pattern']; cbn [matchSegments]; try reflexivity.
    inversion Hl as [|? ? Hs' ?]; subst.
    destruct s as [|c s]; [contradiction|]. reflexivity.
  - destruct (stripSlash (r :: rest')) as [q|] eqn:Eq; [|discriminate Hs].
    destruct pattern as [|[s|n] pattern']; cbn [matchSegments]; try reflexivity;
      inversion Hl as [|? ? ? Hl']; subst;
      rewrite (IH pattern' q Hl' eq_refl);
      repeat match goal with
             | |- context [if ?c then _ else _] => destruct c
             end; reflexivity.
Qed.

Lemma matchPath_normalize :
  forall pattern path,
    Forall (fun seg => match seg with Lit s => s <> "" | Par _ => True end) pattern ->
    matchPath pattern path = matchSegments pattern (normalize path).
Proof.
  intros pattern path Hl. unfold matchPath, normalize.
  destruct (stripSlash path) as [path'|] eqn:E.
  - rewrite (matchSegments_slash path pattern path' Hl E). reflexivity.
  - destruct (matchSegments pattern path); reflexivity.
Qed.

(** The routing of the buildings router as a table over the path without
    its trailing slash. *)
Lemma dispatch_table :
  forall path,
    dispatch routes path =
    match normalize path with
    | [] => Some (GetAll, [])
    | [seg] =>
        if String.eqb "tallest" (toLowerCase seg) then Some (GetTallest, [])
        else if String.eqb "search" (toLowerCase seg) then Some (GetSearch, [])
        else if String.eqb "nearby" (toLowerCase seg) then Some (GetNearby, [])
        else if String.eqb "statistics" (toLowerCase seg) then Some (GetStatistics, [])
        else if String.eqb seg "" then None
        else Some (GetById, [("id", seg)])
    | [first; second] =>
        if String.eqb "type" (toLowerCase first) && negb (String.eqb second "")
        then Some (GetByType, [("buildingType", second)])
        else None
    | _ => None
    end.
Proof.
  intros path. unfold routes. cbn [dispatch].
  rewrite !matchPath_normalize by (repeat constructor; discriminate).
  generalize (normalize path). clear path. intros path.
  destruct path as [|a [|b [|c l]]]; cbn [matchSegments].
  - reflexivity.
  - change (toLowerCase "tallest") with "tallest".
    change (toLowerCase "search") with "search".
    change (toLowerCase "nearby") with "nearby".
    change (toLowerCase "statistics") with "statistics".
    change (toLowerCase "random") with "random".
    change (toLowerCase "type") with "type".
    repeat match goal with
           | |- context [if String.eqb ?u ?v then _ else _] =>
               destruct (String.eqb u v) eqn:?
           end; try reflexivity.
    match goal with
    | H : String.eqb a "" = true |- _ => apply String.eqb_eq in H; subst a
    end.
    discriminate.
  - change (toLowerCase "tallest") with "tallest".
    change (toLowerCase "search") with "search".
    change (toLowerCase "nearby") with "nearby".
    change (toLowerCase "statistics") with "statistics".
    change (toLowerCase "random") with "random".
    change (toLowerCase "type") with "type".
    repeat match goal with
           | |- context [String.eqb ?u ?v] => destruct (String.eqb u v) eqn:?
           end; reflexivity.
  - change (toLowerCase "tallest") with "tallest".
    change (toLowerCase "search") with "search".
    change (toLowerCase "nearby") with "nearby".
    change (toLowerCase "statistics") with "statistics".
    change (toLowerCase "random") with "random".
    change (toLowerCase "type") with "type".
    repeat match goal with
           | |- context [String.eqb ?u ?v] => destruct (String.eqb u v) eqn:?
           end; reflexivity.
Qed.

(** C5. A GET of /random below the mount point is taken by the [/:id] route,
    registered before [/random], with the parameter [id] bound to "random":
    the statement issued is the lookup by id, the answer is never a list of
    rows, and no request path reaches the random-sample handler. *)
Theorem C5_random_is_served_by_id_route :
  dispatch routes ["random"] = Some (GetById, [("id", "random")])
  /\ (forall path, option_map fst (dispatch routes path) <> Some GetRandom)
  /\ (forall pool,
        snd (getById "random" pool)
        = [("SELECT id, name, height, building_type, address, ST_AsGeoJSON(geometry) as geometry FROM buildings WHERE id = $1",
            [PText "random"])])
  /\ (forall pool rows, body (fst (getById "random" pool)) <> RowsJson rows)
  /\ (forall pool limit, snd (getById "random" pool) <> snd (getRandom limit pool))
  /\ getById "random" (fun _ _ => Some []) =
       ({| status := 404; body := ErrorJson "Building not found" |},
        [("SELECT id, name, height, building_type, address, ST_AsGeoJSON(geometry) as geometry FROM buildings WHERE id = $1",
          [PText "random"])])
  /\ status (fst (getById "random" (fun _ _ => None))) = 500%nat.
Proof.
  split; [reflexivity|]. split; [|split; [|split; [|split; [|split; reflexivity]]]].
  - intros path. rewrite dispatch_table.
    destruct (normalize path) as [|a [|b [|c l]]];
      repeat match goal with
             | |- context [if ?c then _ else _] => destruct c
             end; discriminate.
  - intros pool. unfold getById. destruct (pool _ _) as [[|]|]; reflexivity.
  - intros pool rows. unfold getById. destruct (pool _ _) as [[|]|]; discriminate.
  - intros pool limit. unfold getById, getRandom.
    destruct (pool _ [PText "random"]) as [[|]|]; destruct (pool _ [PNum _]);
      discriminate.
Qed.

End RouteProperties.

Lemma C8_counterexample :
  ~ (forall message pool,
        Routes.status (fst (Routes.postChat (fun _ => EmptyString) (fun _ => EmptyString)
                              message pool)) = 400%nat
        <-> Routes.isString message = false).
Proof.
  intros H.
  destruct (H (Routes.JString EmptyString) (fun _ _ => None)) as [H1 _].
  discriminate (H1 eq_refl).
Qed.

Lemma C8_witness :
  Routes.JString "What is the tallest building?" = Routes.JString "What is the tallest building?"
  /\ "What is the tallest building?"%string <> EmptyString
  /\ exists r,
       fst (Chatbot.processQuery (fun _ => EmptyString) (fun _ => EmptyString)
              "What is the tallest building?" (fun _ _ => None)) = Chatbot.Returned r
       /\ Routes.postChat (fun _ => EmptyString) (fun _ => EmptyString)
            (Routes.JString "What is the tallest building?") (fun _ _ => None)
          = ({| Routes.status := 200; Routes.body := Routes.ChatJson r |},
             snd (Chatbot.processQuery (fun _ => EmptyString) (fun _ => EmptyString)
                    "What is the tallest building?" (fun _ _ => None))).
Proof.
  split; [reflexivity|]. split; [discriminate|].
  apply (C8_chat_rejects_non_strings_and_empty (fun _ => EmptyString) (fun _ => EmptyString)
           (Routes.JString "What is the tallest building?") (fun _ _ => None));
    [reflexivity | discriminate].
Defined.

(* ================================================================== *)
(** * Properties: projection, height scaling and footprint centre *)
(* ================================================================== *)

Section GeoProperties.

Local Open Scope Q_scope.

Lemma geoToScene_x : forall lng lat, Geo.x (Geo.geoToScene lng lat) == 2500 * lng - 99500.
Proof.
  intros. unfold Geo.geoToScene, Geo.bounds.
  cbn [Geo.x Geo.z Geo.minLng Geo.maxLng Geo.minLat Geo.maxLat]. field.
Qed.

Lemma geoToScene_z : forall lng lat, Geo.z (Geo.geoToScene lng lat) == 2500 * lat - 53500.
Proof.
  intros. unfold Geo.geoToScene, Geo.bounds.
  cbn [Geo.x Geo.z Geo.minLng Geo.maxLng Geo.minLat Geo.maxLat]. field.
Qed.

Lemma sumCoord_acc :
  forall (f : Q * Q -> Q) (coords : Geo.Ring) (acc : Q),
    fold_left (fun sum coord => sum + f coord) coords acc
    == acc + Geo.sumCoord f coords.
Proof.
  intros f coords. unfold Geo.sumCoord.
  induction coords as [|c l IH]; intros acc; simpl.
  - ring.
  - rewrite IH, (IH (0 + f c)). ring.
Qed.

Lemma sumCoord_cons :
  forall f c l, Geo.sumCoord f (c :: l) == f c + Geo.sumCoord f l.
Proof.
  intros f c l. unfold Geo.sumCoord at 1. simpl. rewrite sumCoord_acc. ring.
Qed.

Lemma fold_Qplus_acc :
  forall (l : list Q) (acc : Q), fold_left Qplus l acc == acc + fold_left Qplus l 0.
Proof.
  induction l as [|a l IH]; intros acc; simpl.
  - ring.
  - rewrite IH, (IH (0 + a)). ring.
Qed.

Lemma count_cons : forall c l, Geo.count (c :: l) == Geo.count l + 1.
Proof.
  intros c l. unfold Geo.count. cbn [List.length].
  rewrite Nat2Z.inj_succ. unfold Z.succ. rewrite inject_Z_plus. reflexivity.
Qed.

Lemma count_pos : forall c l, 0 < Geo.count (c :: l).
Proof.
  intros c l. unfold Geo.count. 
  replace 0 with (inject_Z 0) by reflexivity. rewrite <- Zlt_Qlt. cbn [List.length]. lia.
Qed.

(** The sum of the projected vertices, through the sums of the coordinates. *)
Lemma sum_projected_x :
  forall coords,
    fold_left Qplus (map Geo.x (Geo.projectRing coords)) 0
    == 2500 * Geo.sumCoord fst coords - 99500 * Geo.count coords.
Proof.
  induction coords as [|c l IH].
  - unfold Geo.sumCoord, Geo.count. simpl. ring.
  - cbn [Geo.projectRing map fold_left]. rewrite fold_Qplus_acc.
    fold (Geo.projectRing l). rewrite IH, sumCoord_cons, count_cons, geoToScene_x. ring.
Qed.

Lemma sum_projected_z :
  forall coords,
    fold_left Qplus (map Geo.z (Geo.projectRing coords)) 0
    == 2500 * Geo.sumCoord snd coords - 53500 * Geo.count coords.
Proof.
  induction coords as [|c l IH].
  - unfold Geo.sumCoord, Geo.count. simpl. ring.
  - cbn [Geo.projectRing map fold_left]. rewrite fold_Qplus_acc.
    fold (Geo.projectRing l). rewrite IH, sumCoord_cons, count_cons, geoToScene_z. ring.
Qed.

Lemma length_projectRing : forall coords, List.length (Geo.projectRing coords) = List.length coords.
Proof. intros. unfold Geo.projectRing. apply length_map. Qed.

Lemma sum_recentred :
  forall (f : Q * Q -> Q) (c0 : Q) (coords : Geo.Ring),
    fold_left Qplus (map (fun coord => f coord - c0) coords) 0
    == fold_left Qplus (map f coords) 0 - c0 * Geo.count coords.
Proof.
  intros f c0. induction coords as [|c l IH].
  - unfold Geo.count. simpl. ring.
  - cbn [map fold_left]. rewrite fold_Qplus_acc, (fold_Qplus_acc (map f l)).
    rewrite IH, count_cons. ring.
Qed.

(** C3. [geoToScene] is the affine map of the specification over the box
    [39.6, 40.0] x [21.2, 21.6]; it is defined everywhere; a point of the box
    lands in [-500, 500] x [-500, 500]; and nothing is clamped, a point
    outside the box lands outside that square. *)
Theorem C3_projection_stays_in_scene :
  forall lng lat,
    (Geo.x (Geo.geoToScene lng lat) == (lng - 39.6) / (40.0 - 39.6) * 1000 - 500
     /\ Geo.z (Geo.geoToScene lng lat) == (lat - 21.2) / (21.6 - 21.2) * 1000 - 500)
    /\ (Geo.x (Geo.geoToScene lng lat) == 2500 * lng - 99500
        /\ Geo.z (Geo.geoToScene lng lat) == 2500 * lat - 53500)
    /\ (39.6 <= lng <= 40.0 -> 21.2 <= lat <= 21.6 ->
        -500 <= Geo.x (Geo.geoToScene lng lat) <= 500
        /\ -500 <= Geo.z (Geo.geoToScene lng lat) <= 500)
    /\ (40.0 < lng -> 500 < Geo.x (Geo.geoToScene lng lat))
    /\ (lng < 39.6 -> Geo.x (Geo.geoToScene lng lat) < -500)
    /\ (21.6 < lat -> 500 < Geo.z (Geo.geoToScene lng lat))
    /\ (lat < 21.2 -> Geo.z (Geo.geoToScene lng lat) < -500).
Proof.
  intros lng lat. split; [split; reflexivity|].
  rewrite geoToScene_x, geoToScene_z.
  repeat split; intros; lra.
Qed.

(** C2. The height scale is 0.3 for a footprint size below 5, 0.5 from 5 and
    below 15, 0.7 from 15 and below 30, and 1.0 from 30; so it does not
    decrease when the footprint size grows, and at 5, 15 and 30 it is 0.5,
    0.7 and 1.0.  The depth of the extrusion is this factor times the height
    of the building, for a height given as a string (the number parseFloat
    reads) and for a numeric height other than 0; a numeric height of 0 is
    extruded as 20 times the factor. *)
Theorem C2_height_scale_steps :
  forall F,
    ((F < 5 -> Geo.heightScale F = 0.3)
     /\ (5 <= F -> F < 15 -> Geo.heightScale F = 0.5)
     /\ (15 <= F -> F < 30 -> Geo.heightScale F = 0.7)
     /\ (30 <= F -> Geo.heightScale F = 1.0))
    /\ (forall F', F <= F' -> Geo.heightScale F <= Geo.heightScale F')
    /\ (Geo.heightScale 5 = 0.5 /\ Geo.heightScale 15 = 0.7 /\ Geo.heightScale 30 = 1.0)
    /\ (forall H, Geo.scaledHeight H F = H * Geo.heightScale F)
    /\ (forall coords,
          Geo.footprintSize coords = Some F ->
          (forall parsed,
              Geo.extrudeDepth (Geo.HString parsed) coords
              = Some (parsed * Geo.heightScale F))
          /\ (forall n, ~ n == 0 ->
                Geo.extrudeDepth (Geo.HNumber n) coords = Some (n * Geo.heightScale F))
          /\ (forall n, n == 0 ->
                Geo.extrudeDepth (Geo.HNumber n) coords = Some (20 * Geo.heightScale F))).
Proof.
  intros F. split; [|split; [|split; [repeat split|split; [reflexivity|]]]].
  - unfold Geo.heightScale.
    repeat split; intros;
      repeat match goal with
             | |- context [Qlt_le_dec ?a ?b] => destruct (Qlt_le_dec a b)
             end; try reflexivity; lra.
  - intros F' HF. unfold Geo.heightScale.
    repeat match goal with
           | |- context [Qlt_le_dec ?a ?b] => destruct (Qlt_le_dec a b)
           end; lra.
  - intros coords HF. unfold Geo.extrudeDepth, Geo.scaledHeight, Geo.buildingHeight.
    rewrite HF. split; [reflexivity|]. split; intros n Hn.
    + destruct (Qeq_bool n 0) eqn:E; [|reflexivity].
      apply Qeq_bool_eq in E. contradiction.
    + rewrite (Qeq_eq_bool _ _ Hn). reflexivity.
Qed.

(** C9. For every ring with at least one vertex, the position the extruded
    building is placed at (the projection of the mean longitude and the mean
    latitude) is the centroid of the projected vertices of the ring, and the
    recentred footprint has its centroid at the origin. *)
Theorem C9_center_is_centroid :
  forall coords : Geo.Ring,
    coords <> [] ->
    (Geo.x (Geo.centerPos coords) == Geo.x (Geo.centroid (Geo.projectRing coords))
     /\ Geo.z (Geo.centerPos coords) == Geo.z (Geo.centroid (Geo.projectRing coords)))
    /\ (Geo.x (Geo.centroid (Geo.relPoints coords)) == 0
        /\ Geo.z (Geo.centroid (Geo.relPoints coords)) == 0).
Proof.
  intros coords Hne. destruct coords as [|c l]; [congruence|].
  pose proof (count_pos c l) as Hpos.
  assert (Hc : Geo.x (Geo.centerPos (c :: l)) == Geo.x (Geo.centroid (Geo.projectRing (c :: l)))
               /\ Geo.z (Geo.centerPos (c :: l)) == Geo.z (Geo.centroid (Geo.projectRing (c :: l)))).
  { unfold Geo.centerPos, Geo.centroid, Geo.centerLng, Geo.centerLat.
    rewrite geoToScene_x, geoToScene_z. cbn [Geo.x Geo.z].
    rewrite length_projectRing. fold (Geo.count (c :: l)).
    rewrite sum_projected_x, sum_projected_z.
    split; field; lra. }
  split; [exact Hc|]. destruct Hc as [Hx Hz].
  unfold Geo.centroid at 1 2. cbn [Geo.x Geo.z].
  unfold Geo.relPoints. rewrite !length_map, !map_map. cbn [Geo.x Geo.z].
  fold (Geo.count (c :: l)).
  rewrite (sum_recentred (fun coord => Geo.x (Geo.geoToScene (fst coord) (snd coord)))),
          (sum_recentred (fun coord => Geo.z (Geo.geoToScene (fst coord) (snd coord)))).
  rewrite Hx, Hz. unfold Geo.centroid. cbn [Geo.x Geo.z].
  rewrite length_projectRing. fold (Geo.count (c :: l)).
  unfold Geo.projectRing. rewrite !map_map.
  split; field; lra.
Qed.

End GeoProperties.

Lemma C3_witness :
  (39.6 <= 39.8 <= 40.0)%Q /\ (21.2 <= 21.4 <= 21.6)%Q
  /\ (-500 <= Geo.x (Geo.geoToScene 39.8 21.4) <= 500)%Q
  /\ (-500 <= Geo.z (Geo.geoToScene 39.8 21.4) <= 500)%Q.
Proof.
  assert (H1 : (39.6 <= 39.8 <= 40.0)%Q) by (split; discriminate).
  assert (H2 : (21.2 <= 21.4 <= 21.6)%Q) by (split; discriminate).
  split; [exact H1|]. split; [exact H2|].
  apply (C3_projection_stays_in_scene 39.8 21.4); assumption.
Defined.

Lemma C2_witness :
  (5 <= 5)%Q /\ (5 < 15)%Q /\ Geo.heightScale 5 = 0.5%Q
  /\ exists F,
       Geo.footprintSize
         [(39.80, 21.40); (39.81, 21.40); (39.81, 21.42); (39.80, 21.42); (39.80, 21.40)]%Q
       = Some F
       /\ (F == 50)%Q
       /\ Geo.extrudeDepth (Geo.HString 100)
            [(39.80, 21.40); (39.81, 21.40); (39.81, 21.42); (39.80, 21.42); (39.80, 21.40)]%Q
          = Some (100 * Geo.heightScale F)%Q.
Proof.
  assert (H1 : (5 <= 5)%Q) by discriminate.
  assert (H2 : (5 < 15)%Q) by reflexivity.
  split; [exact H1|]. split; [exact H2|].
  split; [apply (C2_height_scale_steps 5); assumption|].
  eexists. split; [reflexivity|]. split; [vm_compute; reflexivity|].
  apply C2_height_scale_steps. reflexivity.
Defined.

Lemma C2_counterexample :
  ~ (forall h coords F depth,
        Geo.footprintSize coords = Some F ->
        Geo.extrudeDepth h coords = Some depth ->
        (depth == Geo.realHeight h * Geo.heightScale F)%Q).
Proof.
  intros H.
  specialize (H (Geo.HNumber 0)
                [(39.80, 21.40); (39.81, 21.40); (39.81, 21.42); (39.80, 21.42); (39.80, 21.40)]%Q
                _ _ eq_refl eq_refl).
  vm_compute in H. discriminate H.
Qed.

Lemma C9_witness :
  [(39.80, 21.40); (39.81, 21.40); (39.81, 21.42); (39.80, 21.42); (39.80, 21.40)]%Q
    <> (@nil (Q * Q))
  /\ (Geo.x (Geo.centerPos [(39.80, 21.40); (39.81, 21.40); (39.81, 21.42); (39.80, 21.42); (39.80, 21.40)])
      == Geo.x (Geo.centroid (Geo.projectRing
            [(39.80, 21.40); (39.81, 21.40); (39.81, 21.42); (39.80, 21.42); (39.80, 21.40)])))%Q.
Proof.
  assert (H : [(39.80, 21.40); (39.81, 21.40); (39.81, 21.42); (39.80, 21.42); (39.80, 21.40)]%Q
              <> (@nil (Q * Q))) by discriminate.
  split; [exact H|].
  apply (C9_center_is_centroid _ H).
Defined.

(* ================================================================== *)
(** * Properties: the camera of flyToBuilding *)
(* ================================================================== *)

Section CameraProperties.

Import Camera.
Local Open Scope R_scope.

Lemma sin_angle_facts :
  0 < sin angle /\ sin angle * sin angle = 1 / 2 /\ cos angle = sin angle.
Proof.
  unfold angle. rewrite cos_PI4, sin_PI4.
  assert (H2 : 0 < sqrt 2) by (apply sqrt_lt_R0; lra).
  assert (Hs : sqrt 2 * sqrt 2 = 2) by (apply sqrt_sqrt; lra).
  repeat split.
  - apply Rdiv_lt_0_compat; lra.
  - replace (1 / sqrt 2 * (1 / sqrt 2)) with (1 / (sqrt 2 * sqrt 2)) by (field; lra).
    rewrite Hs. reflexivity.
Qed.

Lemma sum_squares_nonneg : forall a b c, 0 <= a * a + b * b + c * c.
Proof. intros. nra. Qed.

Lemma distance_ge_30 : forall F sH, 30 <= distance F sH.
Proof. intros. unfold distance. apply Rmax_r. Qed.

Lemma horizontal_distance :
  forall cx cz F sH,
    horizontalDist (cameraPosition cx cz F sH) (controlsTarget cx cz sH) = distance F sH.
Proof.
  intros. destruct sin_angle_facts as (Hpos & Hsq & Hcos).
  pose proof (distance_ge_30 F sH) as Hd.
  unfold horizontalDist, cameraPosition, controlsTarget. cbn [x y z].
  rewrite Hcos.
  replace ((cx - distance F sH * sin angle - cx) * (cx - distance F sH * sin angle - cx)
           + (cz + distance F sH * sin angle - cz) * (cz + distance F sH * sin angle - cz))
    with (distance F sH * distance F sH).
  - apply sqrt_square. lra.
  - transitivity (2 * (sin angle * sin angle) * (distance F sH * distance F sH)); [|ring].
    rewrite Hsq. field.
Qed.

(** C6, as the code has it. With d = max(max(footprintSize, scaledHeight) *
    2.5, 30), the camera is put at (cx - d/sqrt 2, scaledHeight + d/sqrt 2,
    cz + d/sqrt 2): its ground projection is at distance d from the building's
    projected centre, it is d/sqrt 2 above the roof level, and d * sqrt(3/2)
    away from the centre of the roof.  The controls target is the horizontal
    centre at half the scaled height. *)
Theorem C6_camera_placement :
  forall cx cz F sH,
    let d := distance F sH in
    let cam := cameraPosition cx cz F sH in
    let target := controlsTarget cx cz sH in
    d = Rmax (Rmax F sH * 2.5) 30
    /\ 30 <= d
    /\ x cam = cx - d / sqrt 2
    /\ y cam = sH + d / sqrt 2
    /\ z cam = cz + d / sqrt 2
    /\ horizontalDist cam target = d
    /\ dist cam {| x := cx; y := sH; z := cz |} = d * sqrt (3 / 2)
    /\ target = {| x := cx; y := sH / 2; z := cz |}.
Proof.
  intros cx cz F sH d cam target.
  destruct sin_angle_facts as (Hpos & Hsq & Hcos).
  pose proof (distance_ge_30 F sH) as Hd. fold d in Hd.
  split; [reflexivity|]. split; [exact Hd|].
  unfold cam, cameraPosition. cbn [x y z]. fold d.
  assert (Hs : sin angle = 1 / sqrt 2) by (unfold angle; apply sin_PI4).
  assert (Hc : cos angle = 1 / sqrt 2) by (unfold angle; apply cos_PI4).
  split; [rewrite Hc; unfold Rdiv; ring|].
  split; [rewrite Hs; unfold Rdiv; ring|].
  split; [rewrite Hs; unfold Rdiv; ring|].
  split; [apply horizontal_distance|].
  split; [|reflexivity].
  unfold dist. cbn [x y z]. rewrite Hcos.
  replace ((cx - d * sin angle - cx) * (cx - d * sin angle - cx)
           + (sH + d * sin angle - sH) * (sH + d * sin angle - sH)
           + (cz + d * sin angle - cz) * (cz + d * sin angle - cz))
    with ((d * d) * (3 / 2)).
  - rewrite sqrt_mult by nra. rewrite sqrt_square by lra. reflexivity.
  - transitivity (3 * (sin angle * sin angle) * (d * d)); [rewrite Hsq; field | ring].
Qed.

End CameraProperties.

Lemma C6_counterexample :
  ~ (exists cy : R,
        (0 <= cy <= 10
         /\ (Camera.dist (Camera.cameraPosition 0 0 20 10) (Camera.mkVector3 0 cy 0)
             = Camera.distance 20 10
             \/ Camera.y (Camera.cameraPosition 0 0 20 10) - cy
                = Camera.horizontalDist (Camera.cameraPosition 0 0 20 10)
                                        (Camera.mkVector3 0 cy 0)))%R).
Proof.
  intros (cy & Hcy & H).
  destruct sin_angle_facts as (Hpos & Hsq & Hcos).
  assert (Hd : Camera.distance 20 10 = 50%R).
  { unfold Camera.distance. rewrite (Rmax_left 20 10) by lra. rewrite Rmax_left by lra. lra. }
  assert (Hh : Camera.horizontalDist (Camera.cameraPosition 0 0 20 10)
                                     (Camera.mkVector3 0 cy 0) = 50%R).
  { rewrite <- Hd. apply (horizontal_distance 0 0 20 10). }
  set (k := sin Camera.angle) in *.
  destruct H as [H|H].
  - assert (Hsq2 : (Camera.dist (Camera.cameraPosition 0 0 20 10) (Camera.mkVector3 0 cy 0)
                    * Camera.dist (Camera.cameraPosition 0 0 20 10) (Camera.mkVector3 0 cy 0)
                    = 2500 + (10 + 50 * k - cy) * (10 + 50 * k - cy))%R).
    { unfold Camera.dist. rewrite sqrt_sqrt by apply sum_squares_nonneg.
      unfold Camera.cameraPosition. cbn [Camera.x Camera.y Camera.z]. rewrite Hd, Hcos. fold k.
      transitivity (5000 * (k * k) + (10 + 50 * k - cy) * (10 + 50 * k - cy))%R; [ring|].
      rewrite Hsq. field. }
    rewrite H, Hd in Hsq2. nra.
  - rewrite Hh in H. unfold Camera.cameraPosition in H.
    cbn [Camera.x Camera.y Camera.z] in H. rewrite Hd in H.
    fold k in H. nra.
Qed.

(* ================================================================== *)
(** * Further properties of the chat service *)
(* ================================================================== *)

Section ServiceExtras.

Import Js Chatbot DecisionList ChatbotShape.
Local Open Scope Q_scope.
Local Open Scope list_scope.
Local Open Scope string_scope.

Variable numToString : Q -> string.
Variable toFixed1 : Q -> string.

Ltac open_handlers :=
  unfold getTallestBuilding, getShortestBuilding, getTopBuildings, compareBuildings,
    getHeightRangeAnalysis, getBuildingTypeAnalysis, searchBuildings,
    getBuildingStatistics, getNearbyBuildings, getSpecificBuilding, searchByAddress,
    getBuildingCount, tryCatch, bind, query, ret, throw.

Ltac split_cases pool :=
  repeat match goal with
         | |- context [match pool ?s ?p with _ => _ end] =>
             destruct (pool s p) as [[|? [|? ?]]|] eqn:?
         | |- context [if ?c then _ else _] => destruct c eqn:?
         | |- context [match find ?f ?l with _ => _ end] => destruct (find f l) eqn:?
         end.

Lemma handler_one_statement :
  forall i m pool,
    (List.length (snd (handlerOf numToString toFixed1 i m pool)) <= 1)%nat.
Proof.
  intros i m pool.
  destruct i; cbn [handlerOf]; open_handlers; split_cases pool;
    cbn [fst snd app List.length]; lia.
Qed.

Lemma handler_shape :
  forall i m pool r,
    fst (handlerOf numToString toFixed1 i m pool) = Returned r ->
    wellShaped r /\ content r <> "".
Proof.
  intros i m pool r.
  destruct i; cbn [handlerOf]; open_handlers; split_cases pool;
    cbn [fst snd]; intros H; injection H as <-;
    (split; [unfold wellShaped; cbn [type building buildings textResponse];
             repeat split; eauto
            | cbn [content textResponse helpResponse String.append]; discriminate]).
Qed.

(** The rows of a response are the rows the one statement returned. *)
Lemma handler_payload_from_store :
  forall i m pool r,
    fst (handlerOf numToString toFixed1 i m pool) = Returned r ->
    payload r <> [] ->
    exists sql params rows,
      snd (handlerOf numToString toFixed1 i m pool) = [(sql, params)]
      /\ pool sql params = Some rows
      /\ (buildings r = Some rows \/ exists b, building r = Some b /\ hd_error rows = Some b).
Proof.
  intros i m pool r.
  destruct i; cbn [handlerOf]; open_handlers; split_cases pool;
    cbn [fst snd app]; intros H; injection H as <-;
    cbn [payload building buildings textResponse helpResponse]; intros Hp;
    try congruence;
    (do 3 eexists; split; [reflexivity|]; split; [eassumption|];
     first [left; reflexivity | right; eexists; split; reflexivity]).
Qed.

Lemma single_call :
  forall (sql a : string) (params b : list Param),
    In (sql, params) [(a, b)] -> sql = a /\ params = b.
Proof. intros sql a params b [H|[]]. split; congruence. Qed.

Lemma single_none_over_under_none :
  forall m,
    exec singleHeightRe m = None ->
    exec overHeightRe m = None /\ exec underHeightRe m = None.
Proof.
  intros m Hs. split.
  - destruct (exec overHeightRe m) as [c|] eqn:E; [|reflexivity].
    destruct (exec_tail_matches _ _ _ _ _ E) as [c' Hc]. congruence.
  - destruct (exec underHeightRe m) as [c|] eqn:E; [|reflexivity].
    destruct (exec_tail_matches _ _ _ _ _ E) as [c' Hc]. congruence.
Qed.

Ltac pick_statement :=
  cbn [In]; repeat first [left; reflexivity | right].

Lemma searchQuery_known :
  forall m,
    In (fst (searchQuery m)) knownStatements
    /\ placeholders (fst (searchQuery m)) = List.length (snd (searchQuery m)).
Proof.
  intros m. unfold searchQuery, heightFilter, typeFilter.
  destruct (0 <? _)%nat;
    (destruct (exec heightRangeRe m) as [cr|];
     [|destruct (exec singleHeightRe m) as [cs|] eqn:Es;
       [|destruct (single_none_over_under_none m Es) as [-> ->]]]);
    (split; [unfold knownStatements; pick_statement | reflexivity]).
Qed.

Lemma handler_statement_known :
  forall i m pool sql params,
    In (sql, params) (snd (handlerOf numToString toFixed1 i m pool)) ->
    In sql knownStatements /\ placeholders sql = List.length params.
Proof.
  intros i m pool sql params.
  destruct i; cbn [handlerOf];
    try (unfold searchBuildings, tryCatch, bind, query, ret;
         destruct (pool (fst (searchQuery m)) (snd (searchQuery m))) as [[|? ?]|];
         cbn [fst snd app]; intros Hin; apply single_call in Hin;
         destruct Hin as [-> ->]; apply searchQuery_known);
    open_handlers; split_cases pool; cbn [fst snd app]; intros Hin;
    try contradiction;
    (apply single_call in Hin; destruct Hin as [-> ->];
     split; [unfold knownStatements; pick_statement | reflexivity]).
Qed.

(** ** The top-N and the specific-building intents *)

Lemma topN_needs_buildings :
  forall lower,
    classify lower = TopN ->
    includes lower "top" = true
    /\ includes lower "buildings" = true
    /\ includes lower "tallest" = false.
Proof.
  intros lower. unfold classify, priority. cbn [find trigger].
  rewrite !anyOf2, !anyOf3, !anyOf4.
  destruct (includes lower "tallest"); cbn [orb]; [discriminate|].
  destruct (includes lower "highest" || includes lower "maximum height");
    cbn [orb]; [discriminate|].
  destruct (includes lower "shortest" || includes lower "lowest"
            || includes lower "minimum height"); [discriminate|].
  destruct (includes lower "top"); cbn [andb].
  - destruct (includes lower "buildings"); cbn [orb]; [auto|].
    repeat match goal with
           | |- (match (if ?c then _ else _) with _ => _ end) = _ -> _ =>
               destruct c; [discriminate|]
           end.
    discriminate.
  - repeat match goal with
           | |- (match (if ?c then _ else _) with _ => _ end) = _ -> _ =>
               destruct c; [discriminate|]
           end.
    discriminate.
Qed.

Lemma specific_building_found :
  forall m pool,
    classify (toLowerCase m) = SpecificBuilding ->
    exists foundName,
      find (fun n => includes (toLowerCase m) n) buildingNames = Some foundName
      /\ In foundName ["empire state"; "world trade"; "chrysler"]
      /\ snd (processQuery numToString toFixed1 m pool)
         = [("SELECT id, name, height, building_type, address, ST_AsGeoJSON(geometry) as geometry FROM buildings WHERE LOWER(name) LIKE $1",
             [PText ("%" ++ foundName ++ "%")])].
Proof.
  intros m pool Hc.
  assert (Ht : trigger SpecificBuilding (toLowerCase m) = true).
  { destruct (classify_firstMatch (toLowerCase m)) as [(pre & post & _ & H & _)|[H _]];
      rewrite Hc in H; [exact H | discriminate]. }
  cbn [trigger] in Ht. rewrite anyOf3 in Ht.
  rewrite processQuery_decision_list, Hc. cbn [handlerOf].
  unfold getSpecificBuilding, tryCatch, bind, query, ret, buildingNames. cbn [find].
  destruct (includes (toLowerCase m) "empire state").
  { eexists. split; [reflexivity|]. split; [cbn; auto|].
    destruct (pool _ _) as [[|]|]; reflexivity. }
  destruct (includes (toLowerCase m) "world trade").
  { eexists. split; [reflexivity|]. split; [cbn; auto|].
    destruct (pool _ _) as [[|]|]; reflexivity. }
  destruct (includes (toLowerCase m) "chrysler"); [|discriminate].
  eexists. split; [reflexivity|]. split; [cbn; auto|].
  destruct (pool _ _) as [[|]|]; reflexivity.
Qed.

(** ** An empty store *)

Lemma handler_empty_store :
  forall i m pool,
    (forall sql params, pool sql params = Some []) ->
    exists r,
      fst (handlerOf numToString toFixed1 i m pool) = Returned r
      /\ type r = text /\ building r = None /\ buildings r = None.
Proof.
  intros i m pool Hp.
  destruct i; cbn [handlerOf]; open_handlers; split_cases pool; cbn [fst snd];
    try match goal with
        | H : pool _ _ = Some (_ :: _) |- _ => rewrite Hp in H; discriminate H
        | H : pool _ _ = None |- _ => rewrite Hp in H; discriminate H
        end;
    eexists; repeat split.
Qed.

(** ** Messages without a digit *)

Lemma hasDigit_app :
  forall a b, hasDigit (a ++ b) = hasDigit a || hasDigit b.
Proof.
  induction a as [|c a IH]; intros b; simpl; [reflexivity|].
  now rewrite IH, orb_assoc.
Qed.

Lemma run_needsDigit :
  forall r, needsDigit r = true ->
  forall caps s st, In st (run r caps s) -> digitTaken (caps, s) st.
Proof.
  induction r as [|c| | |r1 IH1 r2 IH2|r1 IH1 r2 IH2|r1 IH1|r1 IH1|i r1 IH1];
    intros Hr caps s st Hin; simpl in Hr, Hin; try discriminate Hr.
  - destruct s as [|x t]; [contradiction|].
    destruct (isDigit x) eqn:Hx; [|contradiction].
    destruct Hin as [<-|[]]. exists (String x ""). simpl. now rewrite Hx.
  - apply in_flat_map in Hin. destruct Hin as ([c1 s1] & H1 & H2).
    apply orb_true_iff in Hr. destruct Hr as [Hr|Hr].
    + destruct (IH1 Hr _ _ _ H1) as (d1 & E1 & D1).
      destruct (run_suffix _ _ _ _ H2) as [d2 E2]. simpl in *.
      exists (d1 ++ d2). rewrite hasDigit_app, D1. split; [|reflexivity].
      rewrite E1, E2. symmetry. apply append_assoc.
    + destruct (run_suffix _ _ _ _ H1) as [d1 E1].
      destruct (IH2 Hr _ _ _ H2) as (d2 & E2 & D2). simpl in *.
      exists (d1 ++ d2). rewrite hasDigit_app, D2, orb_true_r. split; [|reflexivity].
      rewrite E1, E2. symmetry. apply append_assoc.
  - apply andb_true_iff in Hr. destruct Hr as [Hr1 Hr2].
    apply in_app_or in Hin. destruct Hin as [H|H]; [apply IH1 | apply IH2]; assumption.
  - apply in_map_iff in Hin. destruct Hin as ([c1 s1] & <- & H1).
    destruct (IH1 Hr _ _ _ H1) as (d & E & D). now exists d.
Qed.

Lemma exec_needsDigit :
  forall r s, needsDigit r = true -> hasDigit s = false -> exec r s = None.
Proof.
  intros r s Hr Hs. destruct (exec r s) as [caps|] eqn:E; [|reflexivity].
  destruct (exec_some_run _ _ _ E) as (p & t & rest & -> & Hin).
  destruct (run_needsDigit r Hr _ _ _ Hin) as (d & Ed & Hd). simpl in Ed. subst t.
  rewrite !hasDigit_app, Hd, orb_true_r in Hs. discriminate.
Qed.

Lemma hasDigit_toLowerCase : forall s, hasDigit (toLowerCase s) = hasDigit s.
Proof.
  induction s as [|c t IH]; simpl; [reflexivity|].
  now rewrite isDigit_lowerChar, IH.
Qed.

(** X1. Whatever the message and the store, [processQuery] sends at most one
    statement to the store. *)
Theorem processQuery_at_most_one_statement :
  forall m pool,
    (List.length (snd (processQuery numToString toFixed1 m pool)) <= 1)%nat.
Proof.
  intros m pool. rewrite processQuery_decision_list. apply handler_one_statement.
Qed.

Lemma processQuery_shape :
  forall m pool,
    exists r,
      fst (processQuery numToString toFixed1 m pool) = Returned r
      /\ wellShaped r /\ content r <> "".
Proof.
  intros m pool. destruct (processQuery_returns numToString toFixed1 m pool) as [r Hr].
  exists r. split; [exact Hr|].
  rewrite processQuery_decision_list in Hr. apply (handler_shape _ _ _ _ Hr).
Qed.

(** X2. Every response has a non-empty content and the payload of its type:
    a text response carries no building, a building_highlight response
    exactly one building, a search_results response a non-empty list. *)
Theorem processQuery_response_shape :
  forall m pool,
    exists r,
      fst (processQuery numToString toFixed1 m pool) = Returned r
      /\ wellShaped r /\ content r <> "".
Proof. exact processQuery_shape. Qed.

(** X3. The buildings of a response are rows of the store: a response that
    carries buildings was made from the rows the one statement returned,
    all of them for a list and the first of them for a single building. *)
Theorem processQuery_rows_come_from_store :
  forall m pool,
    exists r,
      fst (processQuery numToString toFixed1 m pool) = Returned r
      /\ (payload r = []
          \/ exists sql params rows,
               snd (processQuery numToString toFixed1 m pool) = [(sql, params)]
               /\ pool sql params = Some rows
               /\ (buildings r = Some rows
                   \/ exists b, building r = Some b /\ hd_error rows = Some b)).
Proof.
  intros m pool. destruct (processQuery_returns numToString toFixed1 m pool) as [r Hr].
  exists r. split; [exact Hr|].
  destruct (payload r) as [|b l] eqn:Ep; [left; reflexivity | right].
  rewrite processQuery_decision_list in *.
  apply (handler_payload_from_store _ _ _ _ Hr). rewrite Ep. discriminate.
Qed.

(** X4. The text of every statement sent is one of the seventeen fixed
    statements of the service, whatever the message says, and it has as many
    [$] placeholders as parameters are bound. *)
Theorem processQuery_statements_are_fixed :
  forall m pool,
    Forall (fun call : Call =>
              In (fst call) knownStatements
              /\ placeholders (fst call) = List.length (snd call))
           (snd (processQuery numToString toFixed1 m pool)).
Proof.
  intros m pool. apply Forall_forall. intros [sql params] Hin.
  rewrite processQuery_decision_list in Hin.
  apply (handler_statement_known _ _ _ _ _ Hin).
Qed.

(** X5. The top-N handler only runs for a message with "top" and "buildings"
    and without "tallest": the alternative "tallest" of its trigger never
    decides, because the tallest intent comes first. *)
Theorem top_n_requires_buildings :
  forall m,
    classify (toLowerCase m) = TopN ->
    includes (toLowerCase m) "top" = true
    /\ includes (toLowerCase m) "buildings" = true
    /\ includes (toLowerCase m) "tallest" = false
    /\ processQuery numToString toFixed1 m
       = getTopBuildings numToString (topLimit (toLowerCase m)).
Proof.
  intros m H. destruct (topN_needs_buildings _ H) as (H1 & H2 & H3).
  repeat split; try assumption.
  rewrite processQuery_decision_list, H. reflexivity.
Qed.

(** X6. When the specific-building intent is chosen, a known name is always
    found (the reply that asks for a name is never given), it is the first of
    "empire state", "world trade", "chrysler" that the message has, and the
    statement looks for names that contain it. *)
Theorem specific_building_always_found :
  forall m pool,
    classify (toLowerCase m) = SpecificBuilding ->
    exists foundName,
      find (fun n => includes (toLowerCase m) n) buildingNames = Some foundName
      /\ In foundName ["empire state"; "world trade"; "chrysler"]
      /\ snd (processQuery numToString toFixed1 m pool)
         = [("SELECT id, name, height, building_type, address, ST_AsGeoJSON(geometry) as geometry FROM buildings WHERE LOWER(name) LIKE $1",
             [PText ("%" ++ foundName ++ "%")])].
Proof. exact specific_building_found. Qed.

(** X7. On a store without rows every message is answered with a text
    response that carries no building. *)
Theorem empty_store_gives_text :
  forall m pool,
    (forall sql params, pool sql params = Some []) ->
    exists r,
      fst (processQuery numToString toFixed1 m pool) = Returned r
      /\ type r = text /\ building r = None /\ buildings r = None.
Proof.
  intros m pool H. rewrite processQuery_decision_list. apply handler_empty_store, H.
Qed.

(** X8. A message without a digit gets the defaults: the top-N limit is 5,
    the height range is 100 to 500, and a search has no height clause. *)
Theorem digit_free_message_defaults :
  forall m,
    hasDigit m = false ->
    topLimit (toLowerCase m) = 5
    /\ searchQuery m = finish (typeFilter m)
    /\ forall pool,
         snd (getHeightRangeAnalysis numToString toFixed1 m pool)
         = [("SELECT id, name, height, building_type, address, ST_AsGeoJSON(geometry) as geometry FROM buildings WHERE height BETWEEN $1 AND $2 ORDER BY height DESC",
             [PNum 100; PNum 500])].
Proof.
  intros m H. split; [|split].
  - unfold topLimit. rewrite exec_needsDigit; [reflexivity | reflexivity |].
    now rewrite hasDigit_toLowerCase.
  - unfold searchQuery, heightFilter.
    now rewrite !exec_needsDigit by (reflexivity || exact H).
  - intros pool. unfold getHeightRangeAnalysis, tryCatch, bind, query, ret.
    rewrite exec_needsDigit by (reflexivity || exact H).
    destruct (pool _ _) as [[|]|]; reflexivity.
Qed.

End ServiceExtras.

Lemma top_n_witness :
  DecisionList.classify (Js.toLowerCase "List top 10 buildings") = DecisionList.TopN
  /\ Js.includes (Js.toLowerCase "List top 10 buildings") "buildings" = true
  /\ Chatbot.processQuery (fun _ => EmptyString) (fun _ => EmptyString) "List top 10 buildings"
     = Chatbot.getTopBuildings (fun _ => EmptyString) (Chatbot.num 10).
Proof.
  assert (H : DecisionList.classify (Js.toLowerCase "List top 10 buildings") = DecisionList.TopN)
    by reflexivity.
  split; [exact H|].
  destruct (top_n_requires_buildings (fun _ => EmptyString) (fun _ => EmptyString)
              "List top 10 buildings" H) as (_ & H2 & _ & H4).
  split; [exact H2 | exact H4].
Defined.

Lemma specific_building_witness :
  DecisionList.classify (Js.toLowerCase "Tell me about Empire State Building")
  = DecisionList.SpecificBuilding
  /\ exists foundName,
       find (fun n => Js.includes (Js.toLowerCase "Tell me about Empire State Building") n)
            Chatbot.buildingNames = Some foundName
       /\ In foundName ["empire state"; "world trade"; "chrysler"]%string
       /\ snd (Chatbot.processQuery (fun _ => EmptyString) (fun _ => EmptyString)
                 "Tell me about Empire State Building" (fun _ _ => None))
          = [("SELECT id, name, height, building_type, address, ST_AsGeoJSON(geometry) as geometry FROM buildings WHERE LOWER(name) LIKE $1"%string,
              [Chatbot.PText ("%" ++ foundName ++ "%")%string])].
Proof.
  assert (H : DecisionList.classify (Js.toLowerCase "Tell me about Empire State Building")
              = DecisionList.SpecificBuilding) by reflexivity.
  split; [exact H|].
  exact (specific_building_always_found (fun _ => EmptyString) (fun _ => EmptyString)
           "Tell me about Empire State Building" (fun _ _ => None) H).
Defined.

Lemma empty_store_witness :
  (forall (sql : string) (params : list Chatbot.Param),
      (fun _ _ => Some (@nil Chatbot.Row)) sql params = Some (@nil Chatbot.Row))
  /\ exists r,
       fst (Chatbot.processQuery (fun _ => EmptyString) (fun _ => EmptyString)
              "Show me office buildings" (fun _ _ => Some [])) = Chatbot.Returned r
       /\ Chatbot.type r = Chatbot.text
       /\ Chatbot.building r = None /\ Chatbot.buildings r = None.
Proof.
  assert (H : forall (sql : string) (params : list Chatbot.Param),
             (fun _ _ => Some (@nil Chatbot.Row)) sql params = Some (@nil Chatbot.Row))
    by reflexivity.
  split; [exact H|].
  exact (empty_store_gives_text (fun _ => EmptyString) (fun _ => EmptyString)
           "Show me office buildings" (fun _ _ => Some []) H).
Defined.

Lemma digit_free_witness :
  ChatbotShape.hasDigit "Find skyscrapers" = false
  /\ Chatbot.topLimit (Js.toLowerCase "Find skyscrapers") = 5%Q
  /\ Chatbot.searchQuery "Find skyscrapers"
     = Chatbot.finish (Chatbot.typeFilter "Find skyscrapers").
Proof.
  assert (H : ChatbotShape.hasDigit "Find skyscrapers" = false) by reflexivity.
  split; [exact H|].
  destruct (digit_free_message_defaults (fun _ => EmptyString) (fun _ => EmptyString)
              "Find skyscrapers" H) as (H1 & H2 & _).
  split; [exact H1 | exact H2].
Defined.

(* ================================================================== *)
(** * Further properties of the buildings router *)
(* ================================================================== *)

Section RestExtras.

Import Js Routes Buildings ChatbotShape.
Local Open Scope Q_scope.
Local Open Scope list_scope.
Local Open Scope string_scope.

Variable parseFloat : option string -> Q.
Variable parseInt : option string -> Q.
Variable parseIntText : option string -> string.
Variable numToString : Q -> string.

Lemma answer_reply :
  forall sql params ok pool,
    answer sql params ok pool
    = (match pool sql params with
       | Some rows => ok rows
       | None => {| status := 500; body := JDbError |}
       end, [(sql, params)]).
Proof.
  intros sql params ok pool. unfold answer. destruct (pool sql params); reflexivity.
Qed.

Ltac pick_call pool :=
  match goal with
  | |- context [pool ?sql ?params] =>
      exists sql, params; unfold replyOf;
      destruct (pool sql params) as [[|? ?]|]; reflexivity
  end.

Lemma handle_reply :
  forall h ps q pool,
    exists sql params,
      handle parseFloat parseInt parseIntText h ps q pool
      = (replyOf h (pool sql params), [(sql, params)]).
Proof.
  intros h ps q pool. destruct h; cbn [handle].
  - unfold getAll. rewrite answer_reply. pick_call pool.
  - unfold getTallest. rewrite answer_reply. pick_call pool.
  - unfold getSearch. destruct (searchFilter parseFloat q) as [[t p] n].
    rewrite answer_reply. pick_call pool.
  - unfold getNearby. rewrite answer_reply. pick_call pool.
  - unfold getStatistics. rewrite answer_reply. pick_call pool.
  - unfold ofHttp, getById. pick_call pool.
  - unfold ofHttp, getRandom. pick_call pool.
  - unfold getByType. rewrite answer_reply. pick_call pool.
Qed.

(** X9. The routing of the buildings router in full, for a path without
    percent escapes: a trailing slash is ignored; the empty path goes to the
    list of all buildings; a single segment goes to tallest, search, nearby
    or statistics when it is one of these names in any letter case, and
    otherwise, when it is not empty, to the lookup by id with the segment as
    the id (so /type/ is a lookup of the id "type"); two segments go to the
    lookup by type when the first is "type" and the second is not empty;
    nothing else has a route. *)
Theorem routing_table :
  forall path,
    Forall (fun seg => plain seg = true) path ->
    dispatch routes path =
    match normalize path with
    | [] => Some (GetAll, [])
    | [seg] =>
        if String.eqb "tallest" (toLowerCase seg) then Some (GetTallest, [])
        else if String.eqb "search" (toLowerCase seg) then Some (GetSearch, [])
        else if String.eqb "nearby" (toLowerCase seg) then Some (GetNearby, [])
        else if String.eqb "statistics" (toLowerCase seg) then Some (GetStatistics, [])
        else if String.eqb seg "" then None
        else Some (GetById, [("id", seg)])
    | [first; second] =>
        if String.eqb "type" (toLowerCase first) && negb (String.eqb second "")
        then Some (GetByType, [("buildingType", second)])
        else None
    | _ => None
    end.
Proof. intros path _. apply dispatch_table. Qed.

(** X10. What the router answers on a path without percent escapes. A path
    without a route is not served. A path with a route sends exactly one
    statement, and the reply follows from the handler and from what the
    store does with that statement: 500 with the message of the error when
    the store rejects it; from the lookup by id, 404 "Building not found"
    when no row comes back and otherwise 200 with the first row; from
    /tallest, 200 with the first row, or with null when there is none; from
    every other handler, 200 with the rows. *)
Theorem rest_status_codes :
  forall path q pool,
    Forall (fun seg => plain seg = true) path ->
    match dispatch routes path with
    | None => serve parseFloat parseInt parseIntText path q pool = None
    | Some (h, ps) =>
        exists sql params,
          serve parseFloat parseInt parseIntText path q pool
          = Some (match pool sql params with
                  | None => {| status := 500; body := JDbError |}
                  | Some rows =>
                      match h, rows with
                      | GetById, [] =>
                          {| status := 404; body := JError "Building not found" |}
                      | GetById, row :: _ => {| status := 200; body := JRow row |}
                      | GetTallest, [] => {| status := 200; body := JNull |}
                      | GetTallest, row :: _ => {| status := 200; body := JRow row |}
                      | _, _ => {| status := 200; body := JRows rows |}
                      end
                  end,
                  [(sql, params)])
    end.
Proof.
  intros path q pool _. unfold serve.
  destruct (dispatch routes path) as [[h ps]|]; [|reflexivity].
  destruct (handle_reply h ps q pool) as (sql & params & H).
  exists sql, params. rewrite H. unfold replyOf.
  destruct (pool sql params) as [[|? ?]|]; destruct h; reflexivity.
Qed.

(** X11. The search endpoint adds one clause and binds one parameter for
    each of type, minHeight and maxHeight that is given and not empty; the
    counter, the number of parameters and the number of placeholders in the
    text agree. *)
Theorem search_filter_parameters :
  forall q,
    let '(text, params, paramCount) := searchFilter parseFloat q in
    paramCount = List.length params
    /\ placeholders text = List.length params
    /\ List.length params
       = ((if given (type q) then 1 else 0)
          + (if given (minHeight q) then 1 else 0)
          + (if given (maxHeight q) then 1 else 0))%nat.
Proof.
  intros q. unfold searchFilter.
  destruct (given (type q)), (given (minHeight q)), (given (maxHeight q));
    cbn; repeat split.
Qed.

(** X12. GET /tallest and the tallest intent of the chat send the same
    statement and agree on the answer: the endpoint returns a building
    exactly when the chat highlights that building, null exactly when the
    chat says there is no data, and 500 exactly when the chat apologises. *)
Theorem chat_tallest_agrees_with_rest :
  forall pool,
    snd (getTallest pool) = snd (Chatbot.getTallestBuilding numToString pool)
    /\ (forall b,
          body (fst (getTallest pool)) = JRow b
          <-> exists r, fst (Chatbot.getTallestBuilding numToString pool) = Chatbot.Returned r
                        /\ Chatbot.building r = Some b)
    /\ (body (fst (getTallest pool)) = JNull
        <-> fst (Chatbot.getTallestBuilding numToString pool)
            = Chatbot.Returned (Chatbot.textResponse "No building data available in the database."))
    /\ (status (fst (getTallest pool)) = 500%nat
        <-> fst (Chatbot.getTallestBuilding numToString pool)
            = Chatbot.Returned (Chatbot.textResponse "Sorry, I encountered an error while searching for the tallest building.")).
Proof.
  intros pool. unfold getTallest, answer, Chatbot.getTallestBuilding, Chatbot.tryCatch,
    Chatbot.bind, Chatbot.query, Chatbot.ret.
  destruct (pool _ _) as [[|row rows]|]; cbn [fst snd app status body].
  - split; [reflexivity|]. split; [|split].
    + intros b. split; [discriminate|]. intros (r & Hr & Hb). injection Hr as <-. discriminate Hb.
    + split; reflexivity.
    + split; discriminate.
  - split; [reflexivity|]. split; [|split].
    + intros b. split.
      * intros H. injection H as <-. eexists. split; reflexivity.
      * intros (r & Hr & Hb). injection Hr as <-. cbn in Hb. congruence.
    + split; discriminate.
    + split; discriminate.
  - split; [reflexivity|]. split; [|split].
    + intros b. split; [discriminate|]. intros (r & Hr & Hb). injection Hr as <-. discriminate Hb.
    + split; discriminate.
    + split; reflexivity.
Qed.

End RestExtras.

Lemma routing_witness :
  Forall (fun seg => Routes.plain seg = true) ["Type"%string; EmptyString]
  /\ Routes.dispatch Routes.routes ["Type"%string; EmptyString]
     = Some (Routes.GetById, [("id"%string, "Type"%string)]).
Proof.
  assert (H : Forall (fun seg => Routes.plain seg = true) ["Type"%string; EmptyString])
    by (repeat constructor).
  split; [exact H|].
  exact (routing_table ["Type"%string; EmptyString] H).
Defined.

Lemma rest_status_witness :
  Forall (fun seg => Routes.plain seg = true) ["42"%string]
  /\ exists sql params,
       Buildings.serve (fun _ => 0%Q) (fun _ => 0%Q) (fun _ => EmptyString) ["42"%string]
         (Buildings.mkQuery None None None None None None None) (fun _ _ => Some [])
       = Some ({| Buildings.status := 404;
                  Buildings.body := Buildings.JError "Building not found" |},
               [(sql, params)]).
Proof.
  assert (H : Forall (fun seg => Routes.plain seg = true) ["42"%string])
    by (repeat constructor).
  split; [exact H|].
  exact (rest_status_codes (fun _ => 0%Q) (fun _ => 0%Q) (fun _ => EmptyString) ["42"%string]
           (Buildings.mkQuery None None None None None None None) (fun _ _ => Some []) H).
Defined.

(* ================================================================== *)
(** * Further properties of the chat component and of the highlight state *)
(* ================================================================== *)

Section UiExtras.

Import Js ChatUi ChatbotShape.
Local Open Scope list_scope.
Local Open Scope string_scope.

Variable numToString : Q -> string.
Variable toFixed1 : Q -> string.

Lemma trimEnd_nonempty : forall s, trimEnd s <> "" -> s <> "".
Proof. intros s H E. subst s. apply H. reflexivity. Qed.

Lemma trimStart_nonempty : forall s, trimStart s <> "" -> s <> "".
Proof. intros s H E. subst s. apply H. reflexivity. Qed.

Lemma trim_nonempty : forall s, trim s <> "" -> s <> "".
Proof.
  intros s H. apply trimStart_nonempty. apply trimEnd_nonempty. exact H.
Qed.

Lemma backend_answers :
  forall pool m,
    m <> "" ->
    exists r,
      fst (Chatbot.processQuery numToString toFixed1 m pool) = Chatbot.Returned r
      /\ wellShaped r /\ Chatbot.content r <> ""
      /\ backend numToString toFixed1 pool m
         = Response {| Routes.status := 200; Routes.body := Routes.ChatJson r |}.
Proof.
  intros pool m Hm. destruct (processQuery_shape numToString toFixed1 m pool) as (r & Hr & Hw & Hc).
  exists r. repeat split; try assumption.
  unfold backend, Routes.postChat. destruct m as [|c m]; [congruence|].
  cbn [Routes.truthy Routes.isString negb orb String.eqb].
  destruct (Chatbot.processQuery numToString toFixed1 (String c m) pool) as [o log].
  simpl in Hr. subst o. reflexivity.
Qed.

Lemma botBuildings_payload :
  forall r, botBuildings (Routes.ChatJson r) = payload r.
Proof.
  intros r. unfold botBuildings, payload.
  destruct (Chatbot.building r), (Chatbot.buildings r); reflexivity.
Qed.

Lemma eqb_false_of_neq : forall s, s <> "" -> String.eqb s "" = false.
Proof. intros s H. apply String.eqb_neq. exact H. Qed.

Lemma visible_not_space : forall c, visible c = true -> isWhiteSpace c = false.
Proof.
  intros c. destruct c as [[] [] [] [] [] [] [] []]; try reflexivity; discriminate.
Qed.

Lemma trimStart_visible : forall s, hasVisible s = true -> hasVisible (trimStart s) = true.
Proof.
  induction s as [|c t IH]; intros H; [discriminate H|].
  cbn [trimStart]. destruct (isWhiteSpace c) eqn:E; [|exact H].
  apply IH. cbn [hasVisible] in H. apply orb_true_iff in H. destruct H as [H|H]; [|exact H].
  rewrite (visible_not_space _ H) in E. discriminate E.
Qed.

Lemma trimEnd_visible : forall s, hasVisible s = true -> trimEnd s <> "".
Proof.
  induction s as [|c t IH]; intros H; [discriminate H|].
  cbn [trimEnd]. cbn [hasVisible] in H. apply orb_true_iff in H.
  destruct (trimEnd t) as [|c' t'] eqn:E; [|discriminate].
  destruct H as [H|H].
  - rewrite (visible_not_space _ H). discriminate.
  - exfalso. apply (IH H). reflexivity.
Qed.

Lemma trim_visible : forall s, hasVisible s = true -> trim s <> "".
Proof.
  intros s H. unfold trim. apply trimEnd_visible, trimStart_visible, H.
Qed.

(** X13. A message the component sends is never rejected: when the input has
    a visible ASCII character (so that its trim is not empty) and no request
    is pending, the text typed is posted as it is, the backend answers 200,
    the input is cleared, and exactly two messages are added, the text typed
    and a bot message whose text is the content of the response of
    [processQuery] (never the fallback text nor the error text), with its
    type and its buildings; the buildings decide the highlighting. *)
Theorem sent_message_is_answered :
  forall now later multi pool st,
    hasVisible (inputValue st) = true ->
    isLoading st = false ->
    exists r,
      fst (Chatbot.processQuery numToString toFixed1 (inputValue st) pool)
      = Chatbot.Returned r
      /\ backend numToString toFixed1 pool (inputValue st)
         = Response {| Routes.status := 200; Routes.body := Routes.ChatJson r |}
      /\ sendMessage now later multi (backend numToString toFixed1 pool) st
         = ({| messages :=
                 messages st
                 ++ [ {| id := now; text := inputValue st; sender := user;
                         type := None; buildings := None |};
                      {| id := later + 1; text := Chatbot.content r; sender := bot;
                         type := Some (Chatbot.type r);
                         buildings := Some (payload r) |} ];
               inputValue := "";
               isLoading := false |},
            highlights multi (payload r)).
Proof.
  intros now later multi pool st Hv Hl.
  pose proof (trim_visible _ Hv) as Ht.
  destruct (backend_answers pool (inputValue st) (trim_nonempty _ Ht)) as (r & Hr & _ & Hc & Hb).
  exists r. split; [exact Hr|]. split; [exact Hb|].
  unfold sendMessage. rewrite (eqb_false_of_neq _ Ht), Hl, Hb. cbn [orb ok Routes.status Routes.body].
  cbn [Nat.leb andb]. change (200 <=? 299)%nat with true. cbn [andb].
  unfold botText, botType. rewrite (eqb_false_of_neq _ Hc), botBuildings_payload.
  rewrite <- app_assoc. reflexivity.
Qed.

Lemma trimStart_blank : forall s, blank s = true -> trimStart s = "".
Proof.
  induction s as [|c t IH]; simpl; intros H; [reflexivity|].
  apply andb_true_iff in H. destruct H as [Hc Ht].
  unfold isWhiteSpace. rewrite Hc. apply IH, Ht.
Qed.

(** X14. An input made of white space only, or any input while a request is
    pending, sends nothing: no message is added, the state is unchanged and
    nothing is highlighted. *)
Theorem blank_input_sends_nothing :
  forall now later multi post st,
    blank (inputValue st) = true \/ isLoading st = true ->
    sendMessage now later multi post st = (st, []).
Proof.
  intros now later multi post st [H|H]; unfold sendMessage.
  - unfold trim. rewrite (trimStart_blank _ H). reflexivity.
  - rewrite H. now rewrite orb_true_r.
Qed.

(** ** From the answer to the camera *)

Lemma wellShaped_payload :
  forall r,
    wellShaped r ->
    match Chatbot.type r with
    | Chatbot.text => payload r = []
    | Chatbot.building_highlight => exists b, payload r = [b] /\ Chatbot.building r = Some b
    | Chatbot.search_results => payload r <> [] /\ Chatbot.buildings r = Some (payload r)
    end.
Proof.
  intros r. unfold wellShaped, payload.
  destruct (Chatbot.type r).
  - intros [-> ->]. reflexivity.
  - intros [[b ->] _]. eauto.
  - intros [-> (b & l & ->)]. split; [discriminate | reflexivity].
Qed.

Lemma framing_follows_payload :
  forall rows app,
    updateBuildings (mapProps (fold_left apply (highlights true rows) app))
    = match rows with
      | [] => updateBuildings (mapProps app)
      | [b] => FlyTo b
      | _ => FitHighlighted
      end.
Proof.
  intros rows app. destruct rows as [|b [|c l]]; reflexivity.
Qed.

(** X15. How an answer moves the camera: a text response leaves the framing
    as it is, a building_highlight response flies to its building, and a
    search_results response flies to the building when it has exactly one and
    fits the highlighted buildings when it has more; the number of
    buildings decides, not the type of the response. *)
Theorem answer_drives_camera :
  forall m pool app,
    exists r,
      fst (Chatbot.processQuery numToString toFixed1 m pool) = Chatbot.Returned r
      /\ let framing :=
           updateBuildings (mapProps (fold_left apply (highlights true (payload r)) app)) in
         match Chatbot.type r with
         | Chatbot.text => framing = updateBuildings (mapProps app)
         | Chatbot.building_highlight =>
             exists b, Chatbot.building r = Some b /\ framing = FlyTo b
         | Chatbot.search_results =>
             exists rows,
               Chatbot.buildings r = Some rows
               /\ framing = match rows with
                            | [b] => FlyTo b
                            | _ => FitHighlighted
                            end
         end.
Proof.
  intros m pool app. destruct (processQuery_shape numToString toFixed1 m pool) as (r & Hr & Hw & _).
  exists r. split; [exact Hr|]. cbv zeta. rewrite framing_follows_payload.
  pose proof (wellShaped_payload r Hw) as Hp.
  destruct (Chatbot.type r).
  - now rewrite Hp.
  - destruct Hp as (b & -> & Hb). eauto.
  - destruct Hp as [Hne Hb]. exists (payload r). split; [exact Hb|].
    destruct (payload r) as [|b [|c l]]; [congruence | reflexivity | reflexivity].
Qed.

(** X16. After any sequence of highlight calls, App never has both a single
    highlighted building and a non-empty list; the condition of the anchored
    info card is false, because App always gives Map an array; and a building
    is drawn highlighted only if the framing flies to a building with its id
    or fits a list that has a building with its id. *)
Theorem highlight_state_invariant :
  forall events,
    let st := fold_left apply events initial in
    (highlightedBuilding st = None \/ highlightedBuildings st = [])
    /\ showInfoCard (mapProps st) = false
    /\ (forall building,
          isHighlighted (mapProps st) building = true ->
          match updateBuildings (mapProps st) with
          | FlyTo b => Chatbot.id b = Chatbot.id building
          | FitHighlighted =>
              exists b, In b (highlightedBuildings st) /\ Chatbot.id b = Chatbot.id building
          | FitAll => False
          end).
Proof.
  intros events.
  assert (Hinv : forall st,
             (highlightedBuilding st = None \/ highlightedBuildings st = []) ->
             highlightedBuilding (fold_left apply events st) = None
             \/ highlightedBuildings (fold_left apply events st) = []).
  { induction events as [|e es IH]; intros st H; [exact H|].
    cbn [fold_left]. apply IH. destruct e; cbn; auto. }
  intros st. specialize (Hinv initial (or_introl eq_refl)). fold st in Hinv.
  split; [exact Hinv|].
  split; [unfold showInfoCard, mapProps; cbn; now destruct (highlightedBuilding st)|].
  intros building. unfold isHighlighted, updateBuildings, mapProps. cbn [propBuilding propBuildings].
  destruct Hinv as [-> | ->].
  - cbn [orb]. destruct (highlightedBuildings st) as [|b l] eqn:E; [discriminate|].
    intros H. apply existsb_exists in H. destruct H as (x & Hx & He).
    exists x. split; [exact Hx|]. apply Z.eqb_eq. exact He.
  - cbn [existsb]. rewrite orb_false_r.
    destruct (highlightedBuilding st) as [b|]; [|discriminate].
    intros H. apply Z.eqb_eq. exact H.
Qed.

End UiExtras.

Lemma sent_message_witness :
  ChatUi.hasVisible " Show me office buildings " = true
  /\ exists r,
       fst (Chatbot.processQuery (fun _ => EmptyString) (fun _ => EmptyString)
              " Show me office buildings " (fun _ _ => None)) = Chatbot.Returned r
       /\ snd (ChatUi.sendMessage 7 9 true
                 (ChatUi.backend (fun _ => EmptyString) (fun _ => EmptyString) (fun _ _ => None))
                 (ChatUi.mkState [] " Show me office buildings " false))
          = ChatUi.highlights true (ChatbotShape.payload r).
Proof.
  assert (H : ChatUi.hasVisible " Show me office buildings " = true) by reflexivity.
  split; [exact H|].
  destruct (sent_message_is_answered (fun _ => EmptyString) (fun _ => EmptyString)
              7%nat 9%nat true (fun _ _ => None)
              (ChatUi.mkState [] " Show me office buildings " false) H eq_refl)
    as (r & Hr & _ & Hs).
  exists r. split; [exact Hr|]. rewrite Hs. reflexivity.
Defined.

Lemma blank_input_witness :
  (ChatUi.blank "   " = true \/ false = true)
  /\ ChatUi.sendMessage 7 9 true (fun _ => ChatUi.NetworkError) (ChatUi.mkState [] "   " false)
     = (ChatUi.mkState [] "   " false, []).
Proof.
  assert (H : ChatUi.blank "   " = true \/ false = true) by (left; reflexivity).
  split; [exact H|].
  exact (blank_input_sends_nothing 7%nat 9%nat true (fun _ => ChatUi.NetworkError)
           (ChatUi.mkState [] "   " false) H).
Defined.

(* ================================================================== *)
(** * Further properties of the Map component: fitting the view *)
(* ================================================================== *)

Lemma Qmin_pick : forall a v, Qmin a v = a \/ Qmin a v = v.
Proof.
  intros a v. unfold Qmin, GenericMinMax.gmin. destruct (a ?= v); auto.
Qed.

Lemma Qmax_pick : forall a v, Qmax a v = a \/ Qmax a v = v.
Proof.
  intros a v. unfold Qmax, GenericMinMax.gmax. destruct (a ?= v); auto.
Qed.

Section FitExtras.

Import MapView.
Local Open Scope Q_scope.

Variable polygonOf : Chatbot.Row -> option Geo.Ring.
Variable heightOf : Chatbot.Row -> Geo.HeightField.

Lemma minAcc_le : forall acc v, exists a, Geo.minAcc acc v = Some a /\ a <= v.
Proof.
  intros [a|] v; simpl; eexists; (split; [reflexivity|]).
  - apply Q.le_min_r.
  - apply Qle_refl.
Qed.

Lemma maxAcc_ge : forall acc v, exists a, Geo.maxAcc acc v = Some a /\ v <= a.
Proof.
  intros [a|] v; simpl; eexists; (split; [reflexivity|]).
  - apply Q.le_max_r.
  - apply Qle_refl.
Qed.

Lemma minAcc_keeps :
  forall acc v a c, acc = Some a -> a <= c -> exists a', Geo.minAcc acc v = Some a' /\ a' <= c.
Proof.
  intros acc v a c -> H. simpl. eexists. split; [reflexivity|].
  apply Qle_trans with a; [apply Q.le_min_l | exact H].
Qed.

Lemma maxAcc_keeps :
  forall acc v a c, acc = Some a -> c <= a -> exists a', Geo.maxAcc acc v = Some a' /\ c <= a'.
Proof.
  intros acc v a c -> H. simpl. eexists. split; [reflexivity|].
  apply Qle_trans with a; [exact H | apply Q.le_max_l].
Qed.

Lemma extend_adds :
  forall box b coords,
    polygonOf b = Some coords ->
    covers (extend polygonOf heightOf box b)
           (Geo.x (Geo.centerPos coords)) (Geo.z (Geo.centerPos coords))
           (Geo.buildingHeight (heightOf b)).
Proof.
  intros box b coords Hp. unfold extend, covers. rewrite Hp. cbn [minX maxX minZ maxZ maxY].
  repeat split; try apply minAcc_le; try apply maxAcc_ge. apply Q.le_max_r.
Qed.

Lemma extend_keeps :
  forall box b cx cz h,
    covers box cx cz h -> covers (extend polygonOf heightOf box b) cx cz h.
Proof.
  intros box b cx cz h ((a & Ha & Ha') & (b' & Hb & Hb') & (c & Hc & Hc') & (d & Hd & Hd') & Hh).
  unfold extend. destruct (polygonOf b) as [coords|].
  - unfold covers. cbn [minX maxX minZ maxZ maxY]. repeat split.
    + eapply minAcc_keeps; eassumption.
    + eapply maxAcc_keeps; eassumption.
    + eapply minAcc_keeps; eassumption.
    + eapply maxAcc_keeps; eassumption.
    + apply Qle_trans with (maxY box); [exact Hh | apply Q.le_max_l].
  - unfold covers. repeat split; eauto.
Qed.

Lemma fold_keeps :
  forall l box cx cz h,
    covers box cx cz h -> covers (fold_left (extend polygonOf heightOf) l box) cx cz h.
Proof.
  induction l as [|b l IH]; intros box cx cz h H; [exact H|].
  cbn [fold_left]. apply IH, extend_keeps, H.
Qed.

Lemma fold_covers :
  forall l box b coords,
    In b l -> polygonOf b = Some coords ->
    covers (fold_left (extend polygonOf heightOf) l box)
           (Geo.x (Geo.centerPos coords)) (Geo.z (Geo.centerPos coords))
           (Geo.buildingHeight (heightOf b)).
Proof.
  induction l as [|b' l IH]; intros box b coords Hin Hp; [contradiction|].
  cbn [fold_left]. destruct Hin as [->|Hin].
  - apply fold_keeps, extend_adds, Hp.
  - apply IH; assumption.
Qed.

Lemma fold_maxY_nonneg :
  forall l box, 0 <= maxY box -> 0 <= maxY (fold_left (extend polygonOf heightOf) l box).
Proof.
  induction l as [|b l IH]; intros box H; [exact H|].
  cbn [fold_left]. apply IH. unfold extend. destruct (polygonOf b); [|exact H].
  cbn [maxY]. apply Qle_trans with (maxY box); [exact H | apply Q.le_max_l].
Qed.

Lemma extend_inStep : forall box b, inStep box -> inStep (extend polygonOf heightOf box b).
Proof.
  intros box b H. unfold extend. destruct (polygonOf b) as [coords|]; [|exact H].
  right. cbn [minX maxX minZ maxZ].
  destruct (minX box), (maxX box), (minZ box), (maxZ box); simpl; repeat split; discriminate.
Qed.

Lemma fold_inStep :
  forall l box, inStep box -> inStep (fold_left (extend polygonOf heightOf) l box).
Proof.
  induction l as [|b l IH]; intros box H; [exact H|].
  cbn [fold_left]. apply IH, extend_inStep, H.
Qed.

Lemma fold_none :
  forall l box,
    minX (fold_left (extend polygonOf heightOf) l box) = None
    <-> minX box = None /\ forall b, In b l -> polygonOf b = None.
Proof.
  induction l as [|b l IH]; intros box; cbn [fold_left].
  - split; [intros H; split; [exact H | intros b []] | intros [H _]; exact H].
  - rewrite IH. unfold extend. destruct (polygonOf b) as [coords|] eqn:Hp.
    + cbn [minX]. split.
      * intros [H _]. destruct (minX box); discriminate H.
      * intros [_ H]. specialize (H b (or_introl eq_refl)). congruence.
    + split.
      * intros [H1 H2]. split; [exact H1|]. intros b' [<-|Hb]; [exact Hp | apply H2, Hb].
      * intros [H1 H2]. split; [exact H1|]. intros b' Hb. apply H2. now right.
Qed.

Lemma fitView_none :
  forall factor floor buildings,
    fitView polygonOf heightOf factor floor buildings = None
    <-> forall b, In b buildings -> polygonOf b = None.
Proof.
  intros factor floor buildings. unfold fitView.
  destruct buildings as [|b0 l]; [split; [intros _ b [] | reflexivity]|].
  set (bs := b0 :: l).
  pose proof (fold_none bs emptyBox) as Hn.
  pose proof (fold_inStep bs emptyBox (or_introl (conj eq_refl (conj eq_refl (conj eq_refl eq_refl))))) as Hs.
  destruct (fold_left (extend polygonOf heightOf) bs emptyBox) as [a b c d e].
  cbn [minX maxX minZ maxZ] in Hn, Hs.
  destruct a as [a|].
  - destruct Hs as [[H _]|(_ & Hb & Hc & Hd)]; [discriminate|].
    destruct b as [b|]; [|exfalso; apply Hb; reflexivity].
    destruct c as [c|]; [|exfalso; apply Hc; reflexivity].
    destruct d as [d|]; [|exfalso; apply Hd; reflexivity].
    split; [discriminate|]. intros H. assert (Some a = None) by (apply Hn; auto). discriminate.
  - split; [|reflexivity]. intros _. apply Hn. reflexivity.
Qed.

Lemma minAcc_from :
  forall acc v a, Geo.minAcc acc v = Some a -> acc = Some a \/ a = v.
Proof.
  intros [a0|] v a H; cbn [Geo.minAcc] in H; injection H as <-; [|now right].
  destruct (Qmin_pick a0 v) as [-> | ->]; auto.
Qed.

Lemma maxAcc_from :
  forall acc v a, Geo.maxAcc acc v = Some a -> acc = Some a \/ a = v.
Proof.
  intros [a0|] v a H; cbn [Geo.maxAcc] in H; injection H as <-; [|now right].
  destruct (Qmax_pick a0 v) as [-> | ->]; auto.
Qed.

Lemma fold_from :
  forall l box,
    let box' := fold_left (extend polygonOf heightOf) l box in
    from polygonOf l (fun coords => Geo.x (Geo.centerPos coords)) (minX box) (minX box')
    /\ from polygonOf l (fun coords => Geo.x (Geo.centerPos coords)) (maxX box) (maxX box')
    /\ from polygonOf l (fun coords => Geo.z (Geo.centerPos coords)) (minZ box) (minZ box')
    /\ from polygonOf l (fun coords => Geo.z (Geo.centerPos coords)) (maxZ box) (maxZ box')
    /\ (maxY box' = maxY box
        \/ exists b coords,
             In b l /\ polygonOf b = Some coords
             /\ maxY box' = Geo.buildingHeight (heightOf b)).
Proof.
  induction l as [|b l IH]; intros box; cbn [fold_left].
  - unfold from. repeat split; auto.
  - specialize (IH (extend polygonOf heightOf box b)). cbv zeta in IH.
    destruct IH as (I1 & I2 & I3 & I4 & I5).
    set (box' := fold_left (extend polygonOf heightOf) l (extend polygonOf heightOf box b)) in *.
    clearbody box'. unfold from in *. unfold extend in *.
    destruct (polygonOf b) as [coords|] eqn:Hp.
    + cbn [minX maxX minZ maxZ maxY] in *.
      repeat split.
      * intros a Ha. destruct (I1 a Ha) as [H|(b' & c' & Hin & Hp' & E)].
        -- destruct (minAcc_from _ _ _ H) as [H'|H']; [now left|].
           right. exists b, coords. repeat split; auto. now left.
        -- right. exists b', c'. repeat split; auto. now right.
      * intros a Ha. destruct (I2 a Ha) as [H|(b' & c' & Hin & Hp' & E)].
        -- destruct (maxAcc_from _ _ _ H) as [H'|H']; [now left|].
           right. exists b, coords. repeat split; auto. now left.
        -- right. exists b', c'. repeat split; auto. now right.
      * intros a Ha. destruct (I3 a Ha) as [H|(b' & c' & Hin & Hp' & E)].
        -- destruct (minAcc_from _ _ _ H) as [H'|H']; [now left|].
           right. exists b, coords. repeat split; auto. now left.
        -- right. exists b', c'. repeat split; auto. now right.
      * intros a Ha. destruct (I4 a Ha) as [H|(b' & c' & Hin & Hp' & E)].
        -- destruct (maxAcc_from _ _ _ H) as [H'|H']; [now left|].
           right. exists b, coords. repeat split; auto. now left.
        -- right. exists b', c'. repeat split; auto. now right.
      * destruct I5 as [H|(b' & c' & Hin & Hp' & E)].
        -- destruct (Qmax_pick (maxY box) (Geo.buildingHeight (heightOf b))) as [E|E];
             rewrite E in H; [now left|].
           right. exists b, coords. repeat split; auto. now left.
        -- right. exists b', c'. repeat split; auto. now right.
    + repeat split.
      * intros a Ha. destruct (I1 a Ha) as [H|(b' & c' & Hin & Hp' & E)]; [now left|].
        right. exists b', c'. repeat split; auto. now right.
      * intros a Ha. destruct (I2 a Ha) as [H|(b' & c' & Hin & Hp' & E)]; [now left|].
        right. exists b', c'. repeat split; auto. now right.
      * intros a Ha. destruct (I3 a Ha) as [H|(b' & c' & Hin & Hp' & E)]; [now left|].
        right. exists b', c'. repeat split; auto. now right.
      * intros a Ha. destruct (I4 a Ha) as [H|(b' & c' & Hin & Hp' & E)]; [now left|].
        right. exists b', c'. repeat split; auto. now right.
      * destruct I5 as [H|(b' & c' & Hin & Hp' & E)]; [now left|].
        right. exists b', c'. repeat split; auto. now right.
Qed.

Lemma fitView_frames :
  forall factor floor buildings v,
    fitView polygonOf heightOf factor floor buildings = Some v ->
    frames polygonOf heightOf factor floor buildings v.
Proof.
  intros factor floor buildings v. unfold fitView, frames.
  destruct buildings as [|b0 l]; [discriminate|].
  set (bs := b0 :: l).
  pose proof (fun b coords => fold_covers bs emptyBox b coords) as Hc.
  pose proof (fold_maxY_nonneg bs emptyBox (Qle_refl 0)) as Hy.
  pose proof (fold_from bs emptyBox) as Hf. cbv zeta in Hf.
  destruct (fold_left (extend polygonOf heightOf) bs emptyBox) as [[a|] [b|] [c|] [d|] e];
    try discriminate.
  intros H. injection H as <-. cbn [minX maxX minZ maxZ maxY emptyBox] in *.
  destruct Hf as (F1 & F2 & F3 & F4 & F5). unfold from in *.
  exists a, b, c, d, e.
  assert (Hb : forall bd coords,
             In bd bs -> polygonOf bd = Some coords ->
             a <= Geo.x (Geo.centerPos coords) /\ Geo.x (Geo.centerPos coords) <= b
             /\ c <= Geo.z (Geo.centerPos coords) /\ Geo.z (Geo.centerPos coords) <= d
             /\ Geo.buildingHeight (heightOf bd) <= e).
  { intros bd coords Hin Hp.
    destruct (Hc bd coords Hin Hp)
      as ((a' & Ea & Ha) & (b' & Eb & Hb) & (c' & Ec & Hc') & (d' & Ed & Hd) & Hh).
    injection Ea as <-. injection Eb as <-. injection Ec as <-. injection Ed as <-.
    auto. }
  split; [|split; [|split; [|split; [|split; [|reflexivity]]]]].
  - split.
    + destruct (F1 a eq_refl) as [H|H]; [discriminate H | exact H].
    + intros bd coords Hin Hp. apply (Hb bd coords Hin Hp).
  - split.
    + destruct (F2 b eq_refl) as [H|H]; [discriminate H | exact H].
    + intros bd coords Hin Hp. apply (Hb bd coords Hin Hp).
  - split.
    + destruct (F3 c eq_refl) as [H|H]; [discriminate H | exact H].
    + intros bd coords Hin Hp. apply (Hb bd coords Hin Hp).
  - split.
    + destruct (F4 d eq_refl) as [H|H]; [discriminate H | exact H].
    + intros bd coords Hin Hp. apply (Hb bd coords Hin Hp).
  - split; [exact F5|]. split; [exact Hy|].
    intros bd coords Hin Hp. apply (Hb bd coords Hin Hp).
Qed.

Lemma frames_in_view :
  forall factor floor buildings v,
    0 <= factor ->
    frames polygonOf heightOf factor floor buildings v ->
    inView polygonOf heightOf factor floor buildings v.
Proof.
  intros factor floor buildings v Hf (a & b & c & d & e & L1 & G1 & L2 & G2 & T & ->).
  unfold inView. cbn [position target x y z].
  split; [apply Q.le_max_r|].
  intros bd coords Hin Hp.
  destruct L1 as [_ L1]. destruct G1 as [_ G1]. destruct L2 as [_ L2]. destruct G2 as [_ G2].
  destruct T as (_ & _ & T).
  specialize (L1 bd coords Hin Hp). specialize (G1 bd coords Hin Hp).
  specialize (L2 bd coords Hin Hp). specialize (G2 bd coords Hin Hp).
  specialize (T bd coords Hin Hp). cbv beta in *.
  pose proof (Q.le_max_l (Qmax (b - a) (d - c)) e) as M1.
  pose proof (Q.le_max_r (Qmax (b - a) (d - c)) e) as M2.
  pose proof (Q.le_max_l (b - a) (d - c)) as M3.
  pose proof (Q.le_max_r (b - a) (d - c)) as M4.
  pose proof (Q.le_max_l (Qmax (Qmax (b - a) (d - c)) e * factor) floor) as M5.
  set (M := Qmax (Qmax (b - a) (d - c)) e) in *.
  set (N := Qmax (b - a) (d - c)) in *.
  set (D := Qmax (M * factor) floor) in *.
  clearbody D M N.
  assert (Hx : 2 * Qabs (Geo.x (Geo.centerPos coords) - (a + b) / 2) <= M).
  { assert (E : 2 * ((a + b) / 2) == a + b) by field.
    set (h := (a + b) / 2) in *. clearbody h.
    assert (Qabs (Geo.x (Geo.centerPos coords) - h) <= M * (1 # 2))
      by (apply Qabs_Qle_condition; split; lra).
    lra. }
  assert (Hz : 2 * Qabs (Geo.z (Geo.centerPos coords) - (c + d) / 2) <= M).
  { assert (E : 2 * ((c + d) / 2) == c + d) by field.
    set (h := (c + d) / 2) in *. clearbody h.
    assert (Qabs (Geo.z (Geo.centerPos coords) - h) <= M * (1 # 2))
      by (apply Qabs_Qle_condition; split; lra).
    lra. }
  assert (Hh : Geo.buildingHeight (heightOf bd) <= M) by lra.
  repeat split; (eapply Qle_trans; [apply Qmult_le_compat_r; [eassumption | exact Hf] | exact M5]).
Qed.

Lemma fitView_some :
  forall factor floor buildings,
    (exists b coords, In b buildings /\ polygonOf b = Some coords) ->
    exists v, fitView polygonOf heightOf factor floor buildings = Some v.
Proof.
  intros factor floor buildings (b & coords & Hin & Hp).
  destruct (fitView polygonOf heightOf factor floor buildings) as [v|] eqn:E;
    [exists v; reflexivity|].
  rewrite (proj1 (fitView_none _ _ _) E b Hin) in Hp. discriminate Hp.
Qed.

(** X17. When at least one building of the list has a polygon (rings have at
    least one vertex and heights are numbers), [fitBuildingsToView] and
    [fitHighlightedBuildingsToView] both move the camera, to the view that
    frames the buildings that have a polygon: the target is the middle of the
    box of their centres, on the ground; the camera is above the target at
    the distance, moved by the distance along z; the distance is 0.3 (resp.
    0.8) times maxSize, and at least 50 (resp. 100), where maxSize is the
    largest of the two extents of the box and of the tallest height. So the
    camera is at least 50 (resp. 100) high and, for every building, at least
    0.3 (resp. 0.8) times as high as twice the offset of its centre from the
    target on either axis and as its height. *)
Theorem fit_views_frame_every_building :
  forall buildings,
    (exists b coords, In b buildings /\ polygonOf b = Some coords) ->
    (forall b coords, In b buildings -> polygonOf b = Some coords -> coords <> []) ->
    (exists v, fitBuildingsToView polygonOf heightOf buildings = Some v
               /\ frames polygonOf heightOf 0.3 50 buildings v
               /\ inView polygonOf heightOf 0.3 50 buildings v)
    /\ (exists v, fitHighlightedBuildingsToView polygonOf heightOf buildings = Some v
                  /\ frames polygonOf heightOf 0.8 100 buildings v
                  /\ inView polygonOf heightOf 0.8 100 buildings v).
Proof.
  intros buildings Hex _. unfold fitBuildingsToView, fitHighlightedBuildingsToView.
  split.
  - destruct (fitView_some 0.3 50 buildings Hex) as [v Hv].
    exists v. split; [exact Hv|].
    pose proof (fitView_frames _ _ _ _ Hv) as Hf.
    split; [exact Hf | apply frames_in_view; [discriminate | exact Hf]].
  - destruct (fitView_some 0.8 100 buildings Hex) as [v Hv].
    exists v. split; [exact Hv|].
    pose proof (fitView_frames _ _ _ _ Hv) as Hf.
    split; [exact Hf | apply frames_in_view; [discriminate | exact Hf]].
Qed.

(** X18. [fitBuildingsToView] and [fitHighlightedBuildingsToView] leave the
    camera where it is exactly when no building of the list has a polygon (in
    particular for the empty list); one building with a polygon is enough for
    the camera to move. *)
Theorem fit_views_skip_iff_no_polygon :
  forall buildings,
    (fitBuildingsToView polygonOf heightOf buildings = None
     <-> forall b, In b buildings -> polygonOf b = None)
    /\ (fitHighlightedBuildingsToView polygonOf heightOf buildings = None
        <-> forall b, In b buildings -> polygonOf b = None).
Proof.
  intros buildings. split; apply fitView_none.
Qed.

End FitExtras.

Lemma fit_views_witness :
  (exists b coords,
      In b [Chatbot.mkRow 1 EmptyString 50 EmptyString EmptyString EmptyString 0 0 0 0 0 0;
            Chatbot.mkRow 2 EmptyString 70 EmptyString EmptyString EmptyString 0 0 0 0 0 0]
      /\ (fun b : Chatbot.Row =>
            if Z.eqb (Chatbot.id b) 1
            then Some [(39.80, 21.40); (39.81, 21.40); (39.805, 21.41)]
            else Some [(39.90, 21.50); (39.91, 21.50); (39.905, 21.51)]) b = Some coords)
  /\ exists v,
       MapView.fitBuildingsToView
         (fun b : Chatbot.Row =>
            if Z.eqb (Chatbot.id b) 1
            then Some [(39.80, 21.40); (39.81, 21.40); (39.805, 21.41)]
            else Some [(39.90, 21.50); (39.91, 21.50); (39.905, 21.51)])
         (fun b => Geo.HNumber (Chatbot.height b))
         [Chatbot.mkRow 1 EmptyString 50 EmptyString EmptyString EmptyString 0 0 0 0 0 0;
          Chatbot.mkRow 2 EmptyString 70 EmptyString EmptyString EmptyString 0 0 0 0 0 0]
       = Some v
       /\ (MapView.y (MapView.position v) == 75)%Q
       /\ (MapView.z (MapView.position v) - MapView.z (MapView.target v) == 75)%Q.
Proof.
  set (polygonOf := fun b : Chatbot.Row =>
         if Z.eqb (Chatbot.id b) 1
         then Some [(39.80, 21.40); (39.81, 21.40); (39.805, 21.41)]
         else Some [(39.90, 21.50); (39.91, 21.50); (39.905, 21.51)]).
  set (buildings :=
         [Chatbot.mkRow 1 EmptyString 50 EmptyString EmptyString EmptyString 0 0 0 0 0 0;
          Chatbot.mkRow 2 EmptyString 70 EmptyString EmptyString EmptyString 0 0 0 0 0 0]).
  assert (H1 : exists b coords, In b buildings /\ polygonOf b = Some coords).
  { eexists. eexists. split; [left; reflexivity | reflexivity]. }
  assert (H2 : forall b coords,
             In b buildings -> polygonOf b = Some coords -> coords <> []).
  { intros b coords [<-|[<-|[]]] H; injection H as <-; discriminate. }
  split; [exact H1|].
  destruct (proj1 (fit_views_frame_every_building polygonOf
                     (fun b => Geo.HNumber (Chatbot.height b)) buildings H1 H2))
    as (v & Hv & _).
  exists v. split; [exact Hv|].
  vm_compute in Hv. injection Hv as <-. split; reflexivity.
Defined.

(* ================================================================== *)
(** * Further properties of the Map component: screen and base map *)
(* ================================================================== *)

Section ScreenExtras.

Import MapView.
Local Open Scope Q_scope.

(** X19. On a mount of positive width and height, the screen position
    [getBuildingScreenPosition] computes from normalized device coordinates
    undoes the conversion of [onMouseDown]: a click comes back as its offset
    from the top left corner of the mount. A click inside the mount has
    device coordinates in [-1, 1], and the top left corner is (-1, 1). *)
Theorem click_round_trip :
  forall rect clientX clientY,
    0 < width rect -> 0 < height rect ->
    fst (toScreen rect (fst (toNdc rect clientX clientY)) (snd (toNdc rect clientX clientY)))
    == clientX - left rect
    /\ snd (toScreen rect (fst (toNdc rect clientX clientY)) (snd (toNdc rect clientX clientY)))
       == clientY - top rect
    /\ (left rect <= clientX <= left rect + width rect ->
        -1 <= fst (toNdc rect clientX clientY) <= 1)
    /\ (top rect <= clientY <= top rect + height rect ->
        -1 <= snd (toNdc rect clientX clientY) <= 1)
    /\ fst (toNdc rect (left rect) (top rect)) == -1
    /\ snd (toNdc rect (left rect) (top rect)) == 1.
Proof.
  intros rect cx cy Hw Hh. unfold toScreen, toNdc. cbn [fst snd].
  assert (Hw' : ~ width rect == 0) by lra.
  assert (Hh' : ~ height rect == 0) by lra.
  split; [field; assumption|]. split; [field; assumption|].
  split; [|split; [|split; field; assumption]].
  - intros [H1 H2].
    assert (E : ((cx - left rect) / width rect) * width rect == cx - left rect)
      by (field; assumption).
    set (t := (cx - left rect) / width rect) in *. clearbody t.
    assert (0 <= t).
    { destruct (Qlt_le_dec t 0) as [Hn|]; [|assumption]. exfalso. nra. }
    assert (t <= 1).
    { destruct (Qlt_le_dec 1 t) as [Hn|]; [|assumption]. exfalso. nra. }
    lra.
  - intros [H1 H2].
    assert (E : ((cy - top rect) / height rect) * height rect == cy - top rect)
      by (field; assumption).
    set (t := (cy - top rect) / height rect) in *. clearbody t.
    assert (0 <= t).
    { destruct (Qlt_le_dec t 0) as [Hn|]; [|assumption]. exfalso. nra. }
    assert (t <= 1).
    { destruct (Qlt_le_dec 1 t) as [Hn|]; [|assumption]. exfalso. nra. }
    lra.
Qed.

(** X20. The top of the anchored info card is at least 20; when the mount is
    at least 220 high the card (180 high) ends at least 20 above the bottom,
    and when it is lower the top is 20. Where there is room the card is 160
    above a building of the upper half and 30 below one of the lower half. *)
Theorem info_card_stays_inside :
  forall rect screenY,
    20 <= finalTop rect screenY
    /\ (220 <= height rect -> finalTop rect screenY + 180 <= height rect - 20)
    /\ (height rect < 220 -> finalTop rect screenY == 20)
    /\ (screenY < height rect / 2 -> 180 <= screenY ->
        finalTop rect screenY == screenY - 160)
    /\ (height rect / 2 <= screenY -> screenY + 230 <= height rect -> 0 <= screenY ->
        finalTop rect screenY == screenY + 30).
Proof.
  intros rect sy. unfold finalTop.
  set (h := height rect).
  assert (E : 2 * (h / 2) == h) by field.
  set (half := h / 2) in *. clearbody half h.
  destruct (Qlt_le_dec sy half) as [Hlt|Hge].
  - set (p := sy - 160).
    repeat split.
    + apply Q.le_max_l.
    + intros H. apply Qplus_le_l with (z := -180). ring_simplify.
      apply Q.max_lub; [lra|]. eapply Qle_trans; [apply Q.le_min_r|]. lra.
    + intros H. apply Q.max_l. eapply Qle_trans; [apply Q.le_min_r|]. lra.
    + intros _ H. rewrite Q.max_r.
      * apply Q.min_l. unfold p. lra.
      * apply Q.min_glb; unfold p; lra.
    + intros H. lra.
  - set (p := sy + 30).
    repeat split.
    + apply Q.le_max_l.
    + intros H. apply Qplus_le_l with (z := -180). ring_simplify.
      apply Q.max_lub; [lra|]. eapply Qle_trans; [apply Q.le_min_r|]. lra.
    + intros H. apply Q.max_l. eapply Qle_trans; [apply Q.le_min_r|]. lra.
    + intros H. lra.
    + intros _ H H0. rewrite Q.max_r.
      * apply Q.min_l. unfold p. lra.
      * apply Q.min_glb; unfold p; lra.
Qed.

Lemma pow2_pos : forall zoom : nat, 0 < inject_Z (2 ^ Z.of_nat zoom).
Proof.
  intros zoom. change 0 with (inject_Z 0). rewrite <- Zlt_Qlt.
  apply Z.pow_pos_nonneg; lia.
Qed.

Lemma lon2tile_mono :
  forall fl lon lon' zoom,
    (forall u v, u <= v -> fl u <= fl v) ->
    lon <= lon' -> (lon2tile fl lon zoom <= lon2tile fl lon' zoom)%Z.
Proof.
  intros fl lon lon' zoom Hfl H. pose proof (pow2_pos zoom) as Hp. unfold lon2tile.
  set (n := inject_Z (2 ^ Z.of_nat zoom)) in *.
  apply Qfloor_resp_le, Hfl.
  apply Qmult_le_compat_r; [|lra]. apply Hfl.
  assert (E : forall v, v / 360 == v * (1 # 360)) by (intros; field).
  rewrite !E. apply Qmult_le_compat_r; [|discriminate]. apply Hfl. lra.
Qed.

(** X21. [lon2tile] over the doubles: whatever the rounding, as long as it
    is monotone and leaves the integers up to 2 ^ 53 as they are, for a zoom
    up to 53 the function is monotone in the longitude and, for
    -180 <= lon <= lon' <= 180, 0 <= lon2tile lon <= lon2tile lon' <= 2 ^ zoom.
    So the loop of [createOSMBasemap] over the columns has at least one
    column. The last bound is not strict: a longitude just below 180 can
    round up to the column 2 ^ zoom. *)
Theorem lon2tile_range :
  forall fl lon lon' zoom,
    (forall u v, u <= v -> fl u <= fl v) ->
    (forall n : Z, (0 <= n <= 2 ^ 53)%Z -> fl (inject_Z n) == inject_Z n) ->
    (zoom <= 53)%nat ->
    -180 <= lon -> lon <= lon' -> lon' <= 180 ->
    (0 <= lon2tile fl lon zoom)%Z
    /\ (lon2tile fl lon zoom <= lon2tile fl lon' zoom)%Z
    /\ (lon2tile fl lon' zoom <= 2 ^ Z.of_nat zoom)%Z
    /\ (1 <= lon2tile fl lon' zoom - lon2tile fl lon zoom + 1)%Z.
Proof.
  intros fl lon lon' zoom Hfl Hint Hz H1 H2 H3.
  pose proof (lon2tile_mono fl lon lon' zoom Hfl H2) as Hm.
  pose proof (pow2_pos zoom) as Hp.
  assert (Hn : (0 <= 2 ^ Z.of_nat zoom <= 2 ^ 53)%Z).
  { split; [apply Z.pow_nonneg; lia|]. apply Z.pow_le_mono_r; lia. }
  pose proof (Hint 0%Z ltac:(lia)) as F0.
  pose proof (Hint 1%Z ltac:(lia)) as F1.
  pose proof (Hint 360%Z ltac:(lia)) as F360.
  pose proof (Hint _ Hn) as Fn.
  change (inject_Z 0) with 0 in F0. change (inject_Z 1) with 1 in F1.
  change (inject_Z 360) with 360 in F360.
  assert (E : forall v, v / 360 == v * (1 # 360)) by (intros; field).
  unfold lon2tile in *.
  set (n := inject_Z (2 ^ Z.of_nat zoom)) in *.
  assert (Hlo : forall u, 0 <= u -> 0 <= fl u).
  { intros u Hu. apply Qle_trans with (fl 0); [rewrite F0; apply Qle_refl | apply Hfl, Hu]. }
  assert (Hhi : forall u k, fl k == k -> u <= k -> fl u <= k).
  { intros u k Hk Hu. apply Qle_trans with (fl k); [apply Hfl, Hu | rewrite Hk; apply Qle_refl]. }
  split; [|split; [exact Hm|split; [|lia]]].
  - rewrite <- (Qfloor_Z 0). apply Qfloor_resp_le.
    change (inject_Z 0) with 0. apply Hlo.
    apply Qmult_le_0_compat; [|lra]. apply Hlo.
    rewrite E. apply Qmult_le_0_compat; [|discriminate]. apply Hlo. lra.
  - rewrite <- (Qfloor_Z (2 ^ Z.of_nat zoom)). apply Qfloor_resp_le.
    fold n. apply (Hhi _ n Fn).
    assert (H1n : fl (fl (lon' + 180) / 360) <= 1).
    { apply (Hhi _ 1 F1). rewrite E.
      assert (H360 : fl (lon' + 180) <= 360) by (apply (Hhi _ 360 F360); lra).
      lra. }
    nra.
Qed.

Lemma tilePos_linear :
  forall t minTile numTiles,
    tilePos t minTile numTiles
    == 100 * inject_Z t - 100 * inject_Z minTile - 50 * inject_Z numTiles + 50.
Proof. intros. unfold tilePos, tileWorldSize. field. Qed.

(** X22. The tiles of [createOSMBasemap] tile the ground plane: with
    numTiles = maxTile - minTile + 1 columns, the tile of a column between
    minTile and maxTile lies inside the ground plane (of width numTiles * 100,
    centred at 0), the first tile starts at its first edge, the last ends at
    its last edge, and neighbouring tiles are one tile width apart. The same
    holds for the rows. *)
Theorem tiles_cover_the_ground :
  forall t minTile maxTile,
    (minTile <= t <= maxTile)%Z ->
    let numTiles := (maxTile - minTile + 1)%Z in
    let half := inject_Z numTiles * tileWorldSize / 2 in
    - half <= tilePos t minTile numTiles - tileWorldSize / 2
    /\ tilePos t minTile numTiles + tileWorldSize / 2 <= half
    /\ tilePos minTile minTile numTiles - tileWorldSize / 2 == - half
    /\ tilePos maxTile minTile numTiles + tileWorldSize / 2 == half
    /\ tilePos (t + 1) minTile numTiles - tilePos t minTile numTiles == tileWorldSize.
Proof.
  intros t minTile maxTile [H1 H2] numTiles half.
  assert (Eh : half == 50 * inject_Z numTiles) by (unfold half, tileWorldSize; field).
  assert (Et : tileWorldSize / 2 == 50) by (unfold tileWorldSize; field).
  assert (Ew : tileWorldSize == 100) by reflexivity.
  rewrite !tilePos_linear, Eh, Et, Ew. unfold numTiles. clear Eh Et Ew half numTiles.
  unfold Z.sub. rewrite !inject_Z_plus, inject_Z_opp.
  rewrite Zle_Qle in H1, H2.
  change (inject_Z 1) with 1.
  set (a := inject_Z minTile) in *. set (b := inject_Z maxTile) in *.
  set (c := inject_Z t) in *. clearbody a b c.
  repeat split; lra.
Qed.

End ScreenExtras.

Lemma click_witness :
  (0 < MapView.width (MapView.mkRect 10 20 800 600))%Q
  /\ (0 < MapView.height (MapView.mkRect 10 20 800 600))%Q
  /\ (fst (MapView.toScreen (MapView.mkRect 10 20 800 600)
             (fst (MapView.toNdc (MapView.mkRect 10 20 800 600) 210 170))
             (snd (MapView.toNdc (MapView.mkRect 10 20 800 600) 210 170)))
      == 210 - MapView.left (MapView.mkRect 10 20 800 600))%Q.
Proof.
  assert (H1 : (0 < MapView.width (MapView.mkRect 10 20 800 600))%Q) by reflexivity.
  assert (H2 : (0 < MapView.height (MapView.mkRect 10 20 800 600))%Q) by reflexivity.
  split; [exact H1|]. split; [exact H2|].
  exact (proj1 (click_round_trip (MapView.mkRect 10 20 800 600) 210 170 H1 H2)).
Defined.

Lemma lon2tile_witness :
  (forall u v : Q, u <= v -> (fun x : Q => x) u <= (fun x : Q => x) v)%Q
  /\ (13 <= 53)%nat
  /\ (-180 <= 39.6)%Q /\ (39.6 <= 40.0)%Q /\ (40.0 <= 180)%Q
  /\ MapView.lon2tile (fun x => x) 39.6 13 = 4997%Z
  /\ MapView.lon2tile (fun x => x) 40.0 13 = 5006%Z
  /\ (0 <= MapView.lon2tile (fun x => x) 39.6 13)%Z
  /\ (MapView.lon2tile (fun x => x) 39.6 13 <= MapView.lon2tile (fun x => x) 40.0 13)%Z
  /\ (MapView.lon2tile (fun x => x) 40.0 13 <= 2 ^ Z.of_nat 13)%Z
  /\ (1 <= MapView.lon2tile (fun x => x) 40.0 13 - MapView.lon2tile (fun x => x) 39.6 13 + 1)%Z.
Proof.
  assert (H0 : (forall u v : Q, u <= v -> (fun x : Q => x) u <= (fun x : Q => x) v)%Q)
    by (intros u v H; exact H).
  assert (Hi : forall n : Z, (0 <= n <= 2 ^ 53)%Z ->
                 ((fun x : Q => x) (inject_Z n) == inject_Z n)%Q)
    by (intros n _; reflexivity).
  assert (Hz : (13 <= 53)%nat) by lia.
  assert (H1 : (-180 <= 39.6)%Q) by discriminate.
  assert (H2 : (39.6 <= 40.0)%Q) by discriminate.
  assert (H3 : (40.0 <= 180)%Q) by discriminate.
  split; [exact H0|]. split; [exact Hz|].
  split; [exact H1|]. split; [exact H2|]. split; [exact H3|].
  split; [reflexivity|]. split; [reflexivity|].
  exact (lon2tile_range (fun x => x) 39.6 40.0 13 H0 Hi Hz H1 H2 H3).
Defined.

Lemma tiles_witness :
  (4997 <= 5000 <= 5006)%Z
  /\ (- (inject_Z (5006 - 4997 + 1) * MapView.tileWorldSize / 2)
      <= MapView.tilePos 5000 4997 (5006 - 4997 + 1) - MapView.tileWorldSize / 2)%Q.
Proof.
  assert (H : (4997 <= 5000 <= 5006)%Z) by lia.
  split; [exact H|].
  exact (proj1 (tiles_cover_the_ground 5000 4997 5006 H)).
Defined.

(* ================================================================== *)
(** * Further properties of the Map component: footprint and extrusion *)
(* ================================================================== *)

Section FootprintExtras.

Local Open Scope Q_scope.

Lemma fold_min_keeps :
  forall l a c, a <= c -> exists m, fold_left Geo.minAcc l (Some a) = Some m /\ m <= c.
Proof.
  induction l as [|v l IH]; intros a c H; cbn [fold_left Geo.minAcc].
  - eauto.
  - apply IH. apply Qle_trans with a; [apply Q.le_min_l | exact H].
Qed.

Lemma fold_max_keeps :
  forall l a c, c <= a -> exists m, fold_left Geo.maxAcc l (Some a) = Some m /\ c <= m.
Proof.
  induction l as [|v l IH]; intros a c H; cbn [fold_left Geo.maxAcc].
  - eauto.
  - apply IH. apply Qle_trans with a; [exact H | apply Q.le_max_l].
Qed.

Lemma fold_min_bound :
  forall l acc v, In v l -> exists m, fold_left Geo.minAcc l acc = Some m /\ m <= v.
Proof.
  induction l as [|w l IH]; intros acc v Hin; [contradiction|].
  cbn [fold_left]. destruct Hin as [->|Hin]; [|apply IH, Hin].
  destruct acc as [a|]; cbn [Geo.minAcc]; apply fold_min_keeps;
    [apply Q.le_min_r | apply Qle_refl].
Qed.

Lemma fold_max_bound :
  forall l acc v, In v l -> exists m, fold_left Geo.maxAcc l acc = Some m /\ v <= m.
Proof.
  induction l as [|w l IH]; intros acc v Hin; [contradiction|].
  cbn [fold_left]. destruct Hin as [->|Hin]; [|apply IH, Hin].
  destruct acc as [a|]; cbn [Geo.maxAcc]; apply fold_max_keeps;
    [apply Q.le_max_r | apply Qle_refl].
Qed.

Lemma fold_min_attained :
  forall l acc m,
    fold_left Geo.minAcc l acc = Some m -> In m l \/ acc = Some m.
Proof.
  induction l as [|v l IH]; intros acc m H; cbn [fold_left] in H; [auto|].
  destruct (IH _ _ H) as [Hin|Hacc]; [left; now right|].
  destruct acc as [a|]; cbn [Geo.minAcc] in Hacc; injection Hacc as Hacc.
  - destruct (Qmin_pick a v) as [E|E]; rewrite E in Hacc; subst m;
      [right; reflexivity | left; now left].
  - subst m. left. now left.
Qed.

Lemma fold_max_attained :
  forall l acc m,
    fold_left Geo.maxAcc l acc = Some m -> In m l \/ acc = Some m.
Proof.
  induction l as [|v l IH]; intros acc m H; cbn [fold_left] in H; [auto|].
  destruct (IH _ _ H) as [Hin|Hacc]; [left; now right|].
  destruct acc as [a|]; cbn [Geo.maxAcc] in Hacc; injection Hacc as Hacc.
  - destruct (Qmax_pick a v) as [E|E]; rewrite E in Hacc; subst m;
      [right; reflexivity | left; now left].
  - subst m. left. now left.
Qed.

Lemma rel_x_in :
  forall coords p,
    In p coords ->
    In (Geo.x (Geo.geoToScene (fst p) (snd p)) - Geo.x (Geo.centerPos coords))
       (map Geo.x (Geo.relPoints coords)).
Proof.
  intros coords p Hin. unfold Geo.relPoints. rewrite map_map. cbn [Geo.x].
  apply (in_map (fun c => Geo.x (Geo.geoToScene (fst c) (snd c)) - Geo.x (Geo.centerPos coords))).
  exact Hin.
Qed.

Lemma rel_z_in :
  forall coords p,
    In p coords ->
    In (Geo.z (Geo.geoToScene (fst p) (snd p)) - Geo.z (Geo.centerPos coords))
       (map Geo.z (Geo.relPoints coords)).
Proof.
  intros coords p Hin. unfold Geo.relPoints. rewrite map_map. cbn [Geo.z].
  apply (in_map (fun c => Geo.z (Geo.geoToScene (fst c) (snd c)) - Geo.z (Geo.centerPos coords))).
  exact Hin.
Qed.

Lemma rel_x_from :
  forall coords v,
    In v (map Geo.x (Geo.relPoints coords)) ->
    exists p, In p coords
              /\ v = Geo.x (Geo.geoToScene (fst p) (snd p)) - Geo.x (Geo.centerPos coords).
Proof.
  intros coords v. unfold Geo.relPoints. rewrite map_map. cbn [Geo.x].
  intros H. apply in_map_iff in H. destruct H as (p & <- & Hp). eauto.
Qed.

Lemma rel_z_from :
  forall coords v,
    In v (map Geo.z (Geo.relPoints coords)) ->
    exists p, In p coords
              /\ v = Geo.z (Geo.geoToScene (fst p) (snd p)) - Geo.z (Geo.centerPos coords).
Proof.
  intros coords v. unfold Geo.relPoints. rewrite map_map. cbn [Geo.z].
  intros H. apply in_map_iff in H. destruct H as (p & <- & Hp). eauto.
Qed.

Lemma footprintSize_spread :
  forall coords F,
    Geo.footprintSize coords = Some F ->
    0 <= F
    /\ (forall p q, In p coords -> In q coords ->
          2500 * (fst p - fst q) <= F /\ 2500 * (snd p - snd q) <= F)
    /\ (exists p q, In p coords /\ In q coords
                    /\ (F == 2500 * (fst p - fst q) \/ F == 2500 * (snd p - snd q))).
Proof.
  intros coords F. unfold Geo.footprintSize.
  destruct (fold_left Geo.minAcc (map Geo.x (Geo.relPoints coords)) None) as [a|] eqn:Ea;
    [|discriminate].
  destruct (fold_left Geo.maxAcc (map Geo.x (Geo.relPoints coords)) None) as [b|] eqn:Eb;
    [|discriminate].
  destruct (fold_left Geo.minAcc (map Geo.z (Geo.relPoints coords)) None) as [c|] eqn:Ec;
    [|discriminate].
  destruct (fold_left Geo.maxAcc (map Geo.z (Geo.relPoints coords)) None) as [d|] eqn:Ed;
    [|discriminate].
  intros H. injection H as <-.
  assert (Hup : forall p q, In p coords -> In q coords ->
                  2500 * (fst p - fst q) <= Qmax (b - a) (d - c)
                  /\ 2500 * (snd p - snd q) <= Qmax (b - a) (d - c)).
  { intros p q Hp Hq.
    destruct (fold_max_bound _ None _ (rel_x_in coords p Hp)) as (b' & Eb' & Hb).
    destruct (fold_min_bound _ None _ (rel_x_in coords q Hq)) as (a' & Ea' & Ha).
    destruct (fold_max_bound _ None _ (rel_z_in coords p Hp)) as (d' & Ed' & Hd).
    destruct (fold_min_bound _ None _ (rel_z_in coords q Hq)) as (c' & Ec' & Hc).
    rewrite Eb in Eb'. rewrite Ea in Ea'. rewrite Ed in Ed'. rewrite Ec in Ec'.
    injection Eb' as <-. injection Ea' as <-. injection Ed' as <-. injection Ec' as <-.
    rewrite !geoToScene_x in Hb, Ha. rewrite !geoToScene_z in Hd, Hc.
    pose proof (Q.le_max_l (b - a) (d - c)). pose proof (Q.le_max_r (b - a) (d - c)).
    set (M := Qmax (b - a) (d - c)) in *. clearbody M.
    set (cx := Geo.x (Geo.centerPos coords)) in *.
    set (cz := Geo.z (Geo.centerPos coords)) in *. clearbody cx cz.
    split; lra. }
  destruct (fold_min_attained _ _ _ Ea) as [Ha|Ha]; [|discriminate].
  destruct (fold_max_attained _ _ _ Eb) as [Hb|Hb]; [|discriminate].
  destruct (fold_min_attained _ _ _ Ec) as [Hc|Hc]; [|discriminate].
  destruct (fold_max_attained _ _ _ Ed) as [Hd|Hd]; [|discriminate].
  apply rel_x_from in Ha, Hb. apply rel_z_from in Hc, Hd.
  destruct Ha as (pa & Hpa & ->). destruct Hb as (pb & Hpb & ->).
  destruct Hc as (pc & Hpc & ->). destruct Hd as (pd & Hpd & ->).
  split; [|split; [exact Hup|]].
  - destruct (Hup pa pa Hpa Hpa) as [H _]. lra.
  - destruct (Qmax_pick
                (Geo.x (Geo.geoToScene (fst pb) (snd pb)) - Geo.x (Geo.centerPos coords)
                 - (Geo.x (Geo.geoToScene (fst pa) (snd pa)) - Geo.x (Geo.centerPos coords)))
                (Geo.z (Geo.geoToScene (fst pd) (snd pd)) - Geo.z (Geo.centerPos coords)
                 - (Geo.z (Geo.geoToScene (fst pc) (snd pc)) - Geo.z (Geo.centerPos coords))))
      as [E|E]; rewrite E.
    + exists pb, pa. split; [exact Hpb|]. split; [exact Hpa|]. left.
      rewrite !geoToScene_x. ring.
    + exists pd, pc. split; [exact Hpd|]. split; [exact Hpc|]. right.
      rewrite !geoToScene_z. ring.
Qed.

Lemma footprintSize_none :
  forall coords, Geo.footprintSize coords = None <-> coords = [].
Proof.
  intros coords. split.
  - destruct coords as [|p l]; [reflexivity|]. intros H. exfalso.
    assert (Hp : In p (p :: l)) by now left.
    destruct (fold_max_bound _ None _ (rel_x_in _ p Hp)) as (b & Eb & _).
    destruct (fold_min_bound _ None _ (rel_x_in _ p Hp)) as (a & Ea & _).
    destruct (fold_max_bound _ None _ (rel_z_in _ p Hp)) as (d & Ed & _).
    destruct (fold_min_bound _ None _ (rel_z_in _ p Hp)) as (c & Ec & _).
    unfold Geo.footprintSize in H. rewrite Ea, Eb, Ec, Ed in H. discriminate.
  - intros ->. reflexivity.
Qed.

(** X23. The footprint size of a ring with at least one vertex is defined and
    is 2500 times the largest spread of its vertices in longitude or in
    latitude: it is not negative, no two vertices are further apart than it
    on either axis, and two vertices are exactly that far apart on one axis.
    The centre that the loop subtracts plays no part. *)
Theorem footprint_is_largest_spread :
  forall coords,
    coords <> [] ->
    exists F,
      Geo.footprintSize coords = Some F
      /\ 0 <= F
      /\ (forall p q, In p coords -> In q coords ->
            2500 * (fst p - fst q) <= F /\ 2500 * (snd p - snd q) <= F)
      /\ (exists p q, In p coords /\ In q coords
                      /\ (F == 2500 * (fst p - fst q) \/ F == 2500 * (snd p - snd q))).
Proof.
  intros coords Hne.
  destruct (Geo.footprintSize coords) as [F|] eqn:EF;
    [|apply footprintSize_none in EF; contradiction].
  exists F. split; [reflexivity|]. apply footprintSize_spread, EF.
Qed.


(** X25. The extrusion of a ring with at least one vertex has a depth, which
    for a height that is not negative lies between 30% of the height and the
    height itself; for a numeric height that is not negative the depth is
    positive, since a height of 0 is replaced by 20 (a height given as the
    string 0 is not). *)
Theorem extrusion_depth_bounds :
  forall h coords,
    coords <> [] ->
    exists d,
      Geo.extrudeDepth h coords = Some d
      /\ (0 <= Geo.buildingHeight h ->
          0.3 * Geo.buildingHeight h <= d <= Geo.buildingHeight h)
      /\ (forall n, h = Geo.HNumber n -> 0 <= n -> 0 < d)
      /\ (h = Geo.HString 0 -> d == 0).
Proof.
  intros h coords Hne.
  destruct (Geo.footprintSize coords) as [F|] eqn:EF;
    [|apply footprintSize_none in EF; contradiction].
  unfold Geo.extrudeDepth. rewrite EF. eexists. split; [reflexivity|].
  unfold Geo.scaledHeight, Geo.heightScale.
  repeat match goal with
         | |- context [Qlt_le_dec ?a ?b] => destruct (Qlt_le_dec a b)
         end;
    (split; [intros; split; lra|]; split;
     [ intros n -> Hn; unfold Geo.buildingHeight;
       destruct (Qeq_bool n 0) eqn:E; [lra|];
       assert (~ n == 0) by (apply Qeq_bool_neq; exact E); lra
     | intros ->; unfold Geo.buildingHeight; ring ]).
Qed.

End FootprintExtras.

Lemma footprint_witness :
  [(39.80, 21.40); (39.81, 21.40); (39.81, 21.42); (39.80, 21.42); (39.80, 21.40)]%Q
    <> @nil (Q * Q)
  /\ exists F,
       Geo.footprintSize
         [(39.80, 21.40); (39.81, 21.40); (39.81, 21.42); (39.80, 21.42); (39.80, 21.40)]%Q
       = Some F
       /\ (0 <= F)%Q.
Proof.
  assert (H : [(39.80, 21.40); (39.81, 21.40); (39.81, 21.42); (39.80, 21.42); (39.80, 21.40)]%Q
              <> @nil (Q * Q)) by discriminate.
  split; [exact H|].
  destruct (footprint_is_largest_spread _ H) as (F & HF & H0 & _).
  exists F. split; [exact HF | exact H0].
Defined.


Lemma extrusion_depth_witness :
  [(39.80, 21.40); (39.81, 21.40); (39.81, 21.42)]%Q <> @nil (Q * Q)
  /\ exists d,
       Geo.extrudeDepth (Geo.HNumber 0) [(39.80, 21.40); (39.81, 21.40); (39.81, 21.42)]%Q
       = Some d
       /\ (0 < d)%Q.
Proof.
  assert (H : [(39.80, 21.40); (39.81, 21.40); (39.81, 21.42)]%Q <> @nil (Q * Q))
    by discriminate.
  split; [exact H|].
  destruct (extrusion_depth_bounds (Geo.HNumber 0) _ H) as (d & Hd & _ & Hpos & _).
  exists d. split; [exact Hd|]. apply (Hpos 0); [reflexivity | discriminate].
Defined.

(* ================================================================== *)
(** * Further properties of the Map component: the fly-to distance *)
(* ================================================================== *)

Section FlyToExtras.

Import Camera.
Local Open Scope R_scope.

Lemma Rmax_cases : forall a b, (Rmax a b = a /\ b <= a) \/ (Rmax a b = b /\ a <= b).
Proof.
  intros a b. unfold Rmax. destruct (Rle_dec a b); [right | left]; split; lra.
Qed.

Lemma distance_cases :
  forall F sH,
    30 <= distance F sH /\ F * 2.5 <= distance F sH /\ sH * 2.5 <= distance F sH
    /\ (distance F sH = 30 \/ distance F sH = F * 2.5 \/ distance F sH = sH * 2.5).
Proof.
  intros F sH. unfold distance.
  destruct (Rmax_cases F sH) as [[E1 H1]|[E1 H1]]; rewrite E1;
    match goal with
    | |- context [Rmax ?a 30] => destruct (Rmax_cases a 30) as [[E2 H2]|[E2 H2]]; rewrite E2
    end; repeat split; try lra; auto.
Qed.

(** X26. The distance of [flyToBuilding] is at least 30 and at least 2.5
    times the footprint size and the scaled height; it is exactly 30 for a
    building whose footprint size and scaled height are at most 12, and it
    grows with both. The camera is always more than 21 above the roof and at
    least that distance away from the point the controls look at. *)
Theorem fly_to_distance_bounds :
  forall footprintSize scaledHeight,
    30 <= distance footprintSize scaledHeight
    /\ footprintSize * 2.5 <= distance footprintSize scaledHeight
    /\ scaledHeight * 2.5 <= distance footprintSize scaledHeight
    /\ (footprintSize <= 12 -> scaledHeight <= 12 ->
        distance footprintSize scaledHeight = 30)
    /\ (forall footprintSize' scaledHeight',
          footprintSize <= footprintSize' -> scaledHeight <= scaledHeight' ->
          distance footprintSize scaledHeight <= distance footprintSize' scaledHeight')
    /\ (forall centerX centerZ,
          21 < y (cameraPosition centerX centerZ footprintSize scaledHeight) - scaledHeight
          /\ distance footprintSize scaledHeight
             <= dist (cameraPosition centerX centerZ footprintSize scaledHeight)
                     (controlsTarget centerX centerZ scaledHeight)).
Proof.
  intros F sH. destruct (distance_cases F sH) as (D1 & D2 & D3 & D4).
  split; [exact D1|]. split; [exact D2|]. split; [exact D3|].
  split; [intros; destruct D4 as [D|[D|D]]; lra|].
  split.
  - intros F' sH' HF HS. destruct (distance_cases F' sH') as (D1' & D2' & D3' & _).
    destruct D4 as [D|[D|D]]; lra.
  - intros cx cz. destruct sin_angle_facts as (Hpos & Hsq & Hcos).
    unfold dist, cameraPosition, controlsTarget. cbn [x y z]. rewrite Hcos.
    set (d := distance F sH) in *. set (k := sin angle) in *. clearbody d k.
    split; [nra|].
    rewrite <- (sqrt_square d) at 1 by lra.
    apply sqrt_le_1_alt.
    match goal with
    | |- _ <= ?A =>
        replace A with (2 * (k * k) * (d * d) + (sH / 2 + d * k) * (sH / 2 + d * k))
          by field
    end.
    rewrite Hsq.
    pose proof (Rle_0_sqr (sH / 2 + d * k)) as Hu. unfold Rsqr in Hu. lra.
Qed.

End FlyToExtras.
